(** * Barco ICMP bot: the decision logic of [barco_bot.py]

    A shallow embedding of the pure parts of [barco_bot.py] (format
    detection, title extraction, content selection, the weekly scheduling
    plan and the click-offset arithmetic) together with the control flow of
    the Selenium-driven procedures around them.  The browser is modelled by
    records of answers (what the driver finds, which waits time out); every
    procedure returns its Python result and the list of actions it asked the
    driver to perform.

    Texts are ASCII: a [string] is read as a sequence of code points below
    128, which is what the content names and the scheduler labels are made
    of.  On such texts [str.upper], [str.lower], [str.title], [str.strip],
    [str.split], [int] and the [re] patterns of the source behave as the
    definitions below. *)

From Stdlib Require Import ZArith String Ascii List Lia Bool.
From Stdlib Require Import DecimalString DecimalZ DecimalPos.
Import ListNotations.

Open Scope string_scope.
Open Scope Z_scope.

(** ** Python [str] primitives *)

Module PyStr.

Definition code (c : ascii) : N := N_of_ascii c.

Definition is_upper (c : ascii) : bool := ((65 <=? code c) && (code c <=? 90))%N.
Definition is_lower (c : ascii) : bool := ((97 <=? code c) && (code c <=? 122))%N.
Definition is_digit (c : ascii) : bool := ((48 <=? code c) && (code c <=? 57))%N.
Definition is_alpha (c : ascii) : bool := is_upper c || is_lower c.
Definition is_alnum (c : ascii) : bool := is_alpha c || is_digit c.

(** [str.isspace] on ASCII: TAB, LF, VT, FF, CR, FS, GS, RS, US and space. *)
Definition is_space (c : ascii) : bool :=
  (((9 <=? code c) && (code c <=? 13)) || ((28 <=? code c) && (code c <=? 32)))%N.

Definition upper_char (c : ascii) : ascii :=
  if is_lower c then ascii_of_N (code c - 32) else c.
Definition lower_char (c : ascii) : ascii :=
  if is_upper c then ascii_of_N (code c + 32) else c.

Fixpoint map_str (f : ascii -> ascii) (s : string) : string :=
  match s with
  | EmptyString => EmptyString
  | String c s' => String (f c) (map_str f s')
  end.

(** [s.upper()] and [s.lower()] *)
Definition upper : string -> string := map_str upper_char.
Definition lower : string -> string := map_str lower_char.

(** [s.startswith(p)] *)
Fixpoint startswith (p s : string) : bool :=
  match p, s with
  | EmptyString, _ => true
  | String a p', String b s' => Ascii.eqb a b && startswith p' s'
  | String _ _, EmptyString => false
  end.

(** [p in s] *)
Fixpoint str_in (p s : string) : bool :=
  startswith p s ||
  match s with
  | EmptyString => false
  | String _ s' => str_in p s'
  end.

(** [s.title()]: a cased character is upper-cased when the character before
    it is not cased and lower-cased when it is. *)
Fixpoint title_from (previous_is_cased : bool) (s : string) : string :=
  match s with
  | EmptyString => EmptyString
  | String c s' =>
      if is_alpha c
      then String (if previous_is_cased then lower_char c else upper_char c)
                  (title_from true s')
      else String c (title_from false s')
  end.
Definition title (s : string) : string := title_from false s.

(** [s.strip()], by the class of characters to remove at both ends *)
Fixpoint lstrip_by (cls : ascii -> bool) (s : string) : string :=
  match s with
  | EmptyString => EmptyString
  | String c s' => if cls c then lstrip_by cls s' else s
  end.
Fixpoint rstrip_by (cls : ascii -> bool) (s : string) : string :=
  match s with
  | EmptyString => EmptyString
  | String c s' =>
      match rstrip_by cls s' with
      | EmptyString => if cls c then EmptyString else String c EmptyString
      | r => String c r
      end
  end.
Definition strip (s : string) : string := rstrip_by is_space (lstrip_by is_space s).

(** [s.split(sep)] for a one-character separator, as a first field and the
    list of the fields after it (the result of [split] is never empty). *)
Fixpoint split_char (sep : ascii) (s : string) : string * list string :=
  match s with
  | EmptyString => (EmptyString, [])
  | String c s' =>
      let '(hd, tl) := split_char sep s' in
      if Ascii.eqb c sep then (EmptyString, hd :: tl) else (String c hd, tl)
  end.
Definition split (sep : ascii) (s : string) : list string :=
  let '(hd, tl) := split_char sep s in hd :: tl.

(** [s.split()]: the maximal runs of non-space characters. *)
Fixpoint words_from (cur : string) (s : string) : list string :=
  match s with
  | EmptyString => match cur with EmptyString => [] | _ => [cur] end
  | String c s' =>
      if is_space c
      then match cur with
           | EmptyString => words_from EmptyString s'
           | _ => cur :: words_from EmptyString s'
           end
      else words_from (cur ++ String c EmptyString) s'
  end.
Definition split_ws (s : string) : list string := words_from EmptyString s.

(** [s.replace(a, b)] for one-character [a] and [b] *)
Definition replace_char (a b : ascii) : string -> string :=
  map_str (fun c => if Ascii.eqb c a then b else c).

(** [bool(s)]: a string is true when it is not empty. *)
Definition truthy (s : string) : bool :=
  match s with EmptyString => false | _ => true end.

(** [str(n)] *)
Definition str (n : Z) : string := NilZero.string_of_int (Z.to_int n).

(** [f"{n:02d}"]: the sign counts in the width. *)
Definition fmt_02d (n : Z) : string :=
  if (0 <=? n) && (n <? 10) then "0" ++ str n else str n.

(** [int(s)] in base 10: surrounding white space (TAB, LF, VT, FF, CR and
    space: the separators FS to US are not skipped here), an optional sign,
    then digits, where single underscores may separate digits.  [None]
    stands for [ValueError]. *)
Definition is_cspace (c : ascii) : bool :=
  (((9 <=? code c) && (code c <=? 13)) || (code c =? 32))%N.

Definition digit_value (c : ascii) : Z := Z.of_N (code c) - 48.

Fixpoint int_digits (acc : Z) (after_digit : bool) (s : string) : option Z :=
  match s with
  | EmptyString => if after_digit then Some acc else None
  | String c s' =>
      if is_digit c then int_digits (10 * acc + digit_value c) true s'
      else if Ascii.eqb c "_" && after_digit
           then match s' with
                | String d _ => if is_digit d then int_digits acc false s' else None
                | EmptyString => None
                end
           else None
  end.

Definition int (s : string) : option Z :=
  match rstrip_by is_cspace (lstrip_by is_cspace s) with
  | String "+" r => int_digits 0 false r
  | String "-" r => option_map Z.opp (int_digits 0 false r)
  | r => int_digits 0 false r
  end.

End PyStr.

(** ** The fragment of Python [re] that the source uses

    A pattern is a sequence of atoms; the matcher follows the priorities of
    the backtracking engine (a repetition first takes as much as it can). *)

Module PyRe.
Import PyStr.

Inductive atom :=
| One (cls : ascii -> bool)      (* one character of a class *)
| Plus (cls : ascii -> bool)     (* [cls+] *)
| AnyStar                        (* [.*], where [.] is any character but LF *)
| Eos.                           (* [$] *)

Definition pattern := list atom.

Fixpoint mem_char (c : ascii) (set : string) : bool :=
  match set with
  | EmptyString => false
  | String d set' => Ascii.eqb c d || mem_char c set'
  end.

(** A bracket class such as [[_-]] *)
Definition set (chars : string) : atom := One (fun c => mem_char c chars).
(** The same under [re.IGNORECASE], for a class of upper-case letters *)
Definition iset (chars : string) : atom := One (fun c => mem_char (upper_char c) chars).
(** [\d] *)
Definition digit : atom := One is_digit.
(** A literal word of upper-case letters under [re.IGNORECASE] *)
Fixpoint ilit (word : string) : pattern :=
  match word with
  | EmptyString => []
  | String d w => One (fun c => Ascii.eqb (upper_char c) d) :: ilit w
  end.
(** [\d{n}] *)
Definition digits (n : nat) : pattern := repeat digit n.

Definition LF : ascii := ascii_of_N 10.

(** [match_len p s]: the length of the match of [p] at the start of [s]. *)
Fixpoint match_len (p : pattern) (s : string) : option nat :=
  match p with
  | [] => Some O
  | One cls :: p' =>
      match s with
      | String x s' => if cls x then option_map S (match_len p' s') else None
      | EmptyString => None
      end
  | Plus cls :: p' =>
      (fix more (s : string) : option nat :=
         match s with
         | String x s' =>
             if cls x
             then match more s' with
                  | Some n => Some (S n)
                  | None => option_map S (match_len p' s')
                  end
             else None
         | EmptyString => None
         end) s
  | AnyStar :: p' =>
      (fix more (s : string) : option nat :=
         match s with
         | String x s' =>
             if Ascii.eqb x LF then match_len p' s
             else match more s' with
                  | Some n => Some (S n)
                  | None => match_len p' s
                  end
         | EmptyString => match_len p' s
         end) s
  | Eos :: p' =>
      match s with
      | EmptyString => match_len p' s
      | String x EmptyString => if Ascii.eqb x LF then match_len p' s else None
      | _ => None
      end
  end.

Fixpoint take (n : nat) (s : string) : string :=
  match n, s with
  | S k, String c s' => String c (take k s')
  | _, _ => EmptyString
  end.

(** [re.match(p, s)]: the matched text, [None] when there is no match. *)
Definition re_match (p : pattern) (s : string) : option string :=
  option_map (fun n => take n s) (match_len p s).

(** [re.sub(p, '', s)] for a pattern that matches no empty text: [skip] is
    the number of characters of the current match still to drop. *)
Fixpoint sub_from (p : pattern) (skip : nat) (s : string) : string :=
  match s with
  | EmptyString => EmptyString
  | String c s' =>
      match skip with
      | S k => sub_from p k s'
      | O =>
          match match_len p s with
          | Some (S k) => sub_from p k s'
          | _ => String c (sub_from p O s')
          end
      end
  end.
Definition re_sub_empty (p : pattern) (s : string) : string := sub_from p O s.

(** [re.split(p, s)[0]] for a pattern that matches no empty text: the text
    before the leftmost match. *)
Fixpoint re_split_first (p : pattern) (s : string) : string :=
  match s with
  | EmptyString => EmptyString
  | String c s' =>
      match match_len p s with
      | Some (S _) => EmptyString
      | _ => String c (re_split_first p s')
      end
  end.

End PyRe.

(** ** [BarcoBot]: the pure helpers *)

Import PyStr PyRe.

(** [detect_film_format(film_text)] *)
Definition detect_film_format (film_text : string) : string :=
  let text_upper := upper film_text in
  if str_in "SCOPE" text_upper || str_in "_S_" text_upper || str_in "-S-" text_upper
  then "scope"
  else if str_in "FLAT" text_upper || str_in "_F_" text_upper || str_in "-F-" text_upper
  then "flat"
  else "scope".

(** The list [patterns_stop] of [extract_film_name]; every pattern is used
    with [re.IGNORECASE]. *)
Definition patterns_stop : list pattern :=
  [ set "_-" :: ilit "TLR" ++ [AnyStar; Eos];          (* [_-]TLR.*$ *)
    set "_-" :: ilit "FTR" ++ [AnyStar; Eos];          (* [_-]FTR.*$ *)
    set "_-" :: ilit "TSR" ++ [AnyStar; Eos];          (* [_-]TSR.*$ *)
    set "_-" :: ilit "QFC" ++ [AnyStar; Eos];          (* [_-]QFC.*$ *)
    set "_-" :: ilit "DCP" ++ [AnyStar; Eos];          (* [_-]DCP.*$ *)
    [set "_-"; Plus is_digit; set "_-"; AnyStar; Eos]; (* [_-]\d+[_-].*$ *)
    [set "_-"; iset "SF"; set "_-"; AnyStar; Eos];     (* [_-][SF][_-].*$ *)
    set "_-" :: ilit "SMPTE" ++ [AnyStar; Eos];        (* [_-]SMPTE.*$ *)
    set "_-" :: ilit "CCAP" ++ [AnyStar; Eos];         (* [_-]CCAP.*$ *)
    set "_-" :: ilit "OCAP" ++ [AnyStar; Eos];         (* [_-]OCAP.*$ *)
    set "_-" :: ilit "OV" ++ [Eos];                    (* [_-]OV$ *)
    set "_-" :: digits 8 ++ [AnyStar; Eos];            (* [_-]\d{8}.*$ *)
    set "_-" :: Plus is_digit :: ilit "K" ++ [AnyStar; Eos] (* [_-]\d+K.*$ *)
  ].

(** [extract_film_name(qfc_text)] *)
Definition extract_film_name (qfc_text : string) : string :=
  let text := strip qfc_text in
  let text := if str_in (String LF "") text then fst (split_char LF text) else text in
  let method1 :=
    match re_match [Plus is_alnum] text with            (* ^([A-Za-z0-9]+) *)
    | Some film_name =>
        if (3 <=? String.length film_name)%nat then Some (title film_name) else None
    | None => None
    end in
  match method1 with
  | Some name => name
  | None =>
      let film_name :=
        fold_left (fun film_name pattern => re_sub_empty pattern film_name)
                  patterns_stop text in
      let first_segment := re_split_first [set "_-"] film_name in
      if truthy first_segment && (2 <=? String.length first_segment)%nat
      then title first_segment
      else
        let film_name := strip (replace_char "-" " " (replace_char "_" " " film_name)) in
        if truthy film_name
        then
          let first_word :=
            match split_ws film_name with
            | w :: _ => w
            | [] => film_name
            end in
          title first_word
        else "Film"
  end.

(** [generate_block_name(film_name, format_type, salle)] *)
Definition generate_block_name (film_name format_type salle : string) : string :=
  let format_letter := if String.eqb (lower format_type) "scope" then "S" else "F" in
  salle ++ " - " ++ format_letter ++ " - " ++ film_name.

(** ** [select_qfc_from_usb] *)

(** One [div.rowItem] of the USB list: its text, and whether its
    [div.btnIngest] can be found and clicked.  When it cannot, the source's
    [try ... except: continue] goes on with the next row. *)
Record usb_item := {
  item_text : string;
  ingest_clicks : bool
}.

Record usb_page := {
  page_loads : bool;                  (* [wait_for_page_load] returns *)
  clickable_by_name : string -> bool; (* the wait for an element holding the name succeeds *)
  all_items : list usb_item           (* [#scanContent div.rowItem], top to bottom *)
}.

(** What the call leaves in [self]: its result, [imported_film_text] and
    [imported_film_format]. *)
Record selection := {
  selected : bool;
  imported_film_text : option string;
  imported_film_format : option string
}.

Definition has_volume (text : string) : bool :=
  str_in "_51_" text || str_in "-51-" text || str_in "_51-" text || str_in "-51_" text ||
  str_in "_71_" text || str_in "-71-" text || str_in "_71-" text || str_in "-71_" text.

Definition has_ccap_not_ocap (text : string) : bool :=
  str_in "CCAP" text && negb (str_in "OCAP" text).

Definition is_qfc (text : string) : bool := str_in "QFC" text.

Definition is_fr (text : string) : bool :=
  str_in "_FR" text || str_in "-FR" text || str_in "FR-" text || str_in "_FR_" text.

(** One [for item in all_items] loop: the first row whose upper-cased text
    meets the criterion and whose ingest button answers. *)
Fixpoint first_ingested (criterion : string -> bool) (items : list usb_item)
  : option usb_item :=
  match items with
  | [] => None
  | item :: rest =>
      let text := upper (item_text item) in
      if criterion text && ingest_clicks item then Some item
      else first_ingested criterion rest
  end.

Definition imported (item : usb_item) : selection :=
  {| selected := true;
     imported_film_text := Some (item_text item);
     imported_film_format := Some (detect_film_format (item_text item)) |}.

Definition not_selected : selection :=
  {| selected := false; imported_film_text := None; imported_film_format := None |}.

(** The six loops of the [else] branch, in the order of the source. *)
Definition select_by_priority (items : list usb_item) : option usb_item :=
  match first_ingested (fun text => is_qfc text && has_ccap_not_ocap text && has_volume text) items with
  | Some item => Some item
  | None =>
  match first_ingested (fun text => is_fr text && has_ccap_not_ocap text && has_volume text) items with
  | Some item => Some item
  | None =>
  match first_ingested (fun text => is_qfc text && has_volume text) items with
  | Some item => Some item
  | None =>
  match first_ingested (fun text => is_fr text && has_volume text) items with
  | Some item => Some item
  | None =>
  match first_ingested (fun text => is_qfc text) items with
  | Some item => Some item
  | None => first_ingested (fun text => is_fr text) items
  end end end end end.

Definition opt_truthy (s : option string) : bool :=
  match s with Some s => truthy s | None => false end.

(** [select_qfc_from_usb(film_name)] *)
Definition select_qfc_from_usb (page : usb_page) (film_name : option string) : selection :=
  if negb (page_loads page) then not_selected
  else
    match film_name with
    | Some name =>
        if truthy name
        then
          if clickable_by_name page name
          then {| selected := true;
                  imported_film_text := None;
                  imported_film_format := Some (detect_film_format name) |}
          else not_selected
        else
          match select_by_priority (all_items page) with
          | Some item => imported item
          | None => not_selected
          end
    | None =>
        match select_by_priority (all_items page) with
        | Some item => imported item
        | None => not_selected
        end
    end.

(** ** Dates *)

Record datetime := { year : Z; month : Z; day : Z }.

Definition is_leap (y : Z) : bool :=
  (y mod 4 =? 0) && (negb (y mod 100 =? 0) || (y mod 400 =? 0)).

Definition days_in_month (y m : Z) : Z :=
  if m =? 2 then (if is_leap y then 29 else 28)
  else if (m =? 4) || (m =? 6) || (m =? 9) || (m =? 11) then 30
  else 31.

(** [datetime(year, month, day)]; [None] stands for [ValueError]. *)
Definition make_datetime (y m d : Z) : option datetime :=
  if (1 <=? y) && (y <=? 9999) && (1 <=? m) && (m <=? 12) &&
     (1 <=? d) && (d <=? days_in_month y m)
  then Some {| year := y; month := m; day := d |}
  else None.

Definition dt_lt (a b : datetime) : bool :=
  (year a <? year b) ||
  ((year a =? year b) &&
   ((month a <? month b) || ((month a =? month b) && (day a <? day b)))).

(** [parts = text.split('/'); datetime(int(parts[2]), int(parts[1]), int(parts[0]))];
    [None] when any step raises. *)
Definition parse_date (text : string) : option datetime :=
  match split "/" text with
  | p0 :: p1 :: p2 :: _ =>
      match int p2 with
      | Some y =>
          match int p1 with
          | Some m =>
              match int p0 with
              | Some d => make_datetime y m d
              | None => None
              end
          | None => None
          end
      | None => None
      end
  | _ => None
  end.

(** The calendar day after a date, and the date [n] days later. *)
Definition next_day (a : datetime) : datetime :=
  if day a <? days_in_month (year a) (month a)
  then {| year := year a; month := month a; day := day a + 1 |}
  else if month a <? 12
  then {| year := year a; month := month a + 1; day := 1 |}
  else {| year := year a + 1; month := 1; day := 1 |}.

Fixpoint add_days (n : nat) (a : datetime) : datetime :=
  match n with
  | O => a
  | S k => add_days k (next_day a)
  end.

(** ** [_add_seance_at_hour] *)

(** What the driver is asked to do inside a day view. *)
Inductive ui_action :=
| ClickLine (line dx dy : Z)  (* move to [hour_lines[line]], then by [(dx, dy)], and click *)
| OpenShowList                (* click on the caret button of the popover *)
| ChooseShow (index : Z)      (* click on [show_items[index]]; [-1] is the last one *)
| ConfirmShow.                (* click on [img.ok] *)

(** A [div.dayView] as the driver answers about it. *)
Record day_view := {
  hour_lines : nat;             (* number of [div.hourLine] of the view *)
  film_popover : bool;          (* the caret button becomes clickable (else ADD-002) *)
  film_list : bool;             (* [#listOfShows] becomes visible (else ADD-003) *)
  film_shows : nat;             (* number of entries of [#listOfShows] (0: ADD-004) *)
  film_confirm : bool;          (* [img.ok] becomes clickable (else ADD-005) *)
  close_popover : nat -> bool;  (* attempt [k] of the second click opens the popover *)
  close_list : bool;
  close_shows : nat;
  close_confirm : bool
}.

Definition line_height : Z := 67.

(** The dictionary [minutes_offset_map], in the order of the source. *)
Definition minutes_offset_map : list (string * Z) :=
  [("00", -34); ("05", -28); ("10", -22); ("15", -17); ("20", -11); ("30", 0); ("50", 22)].

Fixpoint lookup (key : string) (map : list (string * Z)) : option Z :=
  match map with
  | [] => None
  | (k, v) :: rest => if String.eqb key k then Some v else lookup key rest
  end.

(** [try: minutes_int = int(minutes) / except: minutes_int = 0] *)
Definition minutes_int (minutes : string) : Z :=
  match int minutes with Some n => n | None => 0 end.

(** [int((n / 60) * line_height)].  The quotient [n / 60] and the product are
    floating-point operations and [int] truncates towards zero; for
    [|n| < 2^45] the rounding errors stay far below the distance [1/60]
    between a non-integral value of [n * 67 / 60] and the nearest integer, so
    the result is the truncated exact quotient. *)
Definition scaled (n : Z) : Z := Z.quot (n * line_height) 60.

(** The value of [offset_y] for the click of the film. *)
Definition offset_y (minutes : string) : Z :=
  match lookup minutes minutes_offset_map with
  | Some offset => offset
  | None => scaled (minutes_int minutes) - 34
  end.

(** The values of [fermer_hour] and [fermer_minutes]. *)
Definition fermer_time (hour : Z) (minutes : string) : Z * Z :=
  let fermer_minutes := minutes_int minutes + 10 in
  let fermer_hour := hour + 2 in
  if 60 <=? fermer_minutes then (fermer_hour + 1, fermer_minutes - 60)
  else (fermer_hour, fermer_minutes).

(** The value of [fermer_offset]. *)
Definition fermer_offset (fermer_minutes : Z) : Z :=
  let fermer_minutes_str := fmt_02d fermer_minutes in
  match lookup fermer_minutes_str minutes_offset_map with
  | Some offset => offset
  | None => scaled fermer_minutes
  end.

(** [for attempt in range(3)]: click, then wait for the popover; the third
    time-out is raised and ends the "Fermer lampe" block. *)
Fixpoint close_attempts (v : day_view) (click : ui_action) (attempt remaining : nat)
  : bool * list ui_action :=
  match remaining with
  | O => (false, [])
  | S r =>
      if close_popover v attempt then (true, [click; OpenShowList])
      else let '(opened, actions) := close_attempts v click (S attempt) r in
           (opened, click :: actions)
  end.

(** The block that adds "Fermer lampe" after the film; whatever goes wrong
    in it is only logged. *)
Definition fermer_lampe (salle_is_2 : bool) (v : day_view) (hour : Z) (minutes : string)
  : list ui_action :=
  let '(fermer_hour, fermer_minutes) := fermer_time hour minutes in
  let offset := fermer_offset fermer_minutes in
  let n := Z.of_nat (hour_lines v) in
  if fermer_hour <? n
  then
    if fermer_hour <? - n then []           (* [hour_lines2[fermer_hour]] raises *)
    else
      let '(opened, clicks) := close_attempts v (ClickLine fermer_hour 10 offset) 0 3 in
      if opened && close_list v
      then
        let fermer_index := if salle_is_2 then 0%nat else 1%nat in
        if (fermer_index <? close_shows v)%nat
        then (clicks ++ ChooseShow (Z.of_nat fermer_index)
                     :: (if close_confirm v then [ConfirmShow] else []))%list
        else clicks
      else clicks
  else [].

(** [_add_seance_at_hour(day_view, hour, minutes)]: the result and the
    actions performed. *)
Definition _add_seance_at_hour (salle_is_2 : bool) (v : day_view) (hour : Z)
  (minutes : string) : bool * list ui_action :=
  let n := Z.of_nat (hour_lines v) in
  if n <=? hour then (false, [])                               (* ADD-001 *)
  else if hour <? - n then (false, [])                         (* [hour_lines[hour]] raises *)
  else
    let click := ClickLine hour 10 (offset_y minutes) in
    if negb (film_popover v) then (false, [click])                        (* ADD-002 *)
    else if negb (film_list v) then (false, [click; OpenShowList])        (* ADD-003 *)
    else if (film_shows v =? 0)%nat then (false, [click; OpenShowList])   (* ADD-004 *)
    else if negb (film_confirm v)
    then (false, [click; OpenShowList; ChooseShow (-1)])                  (* ADD-005 *)
    else (true, ([click; OpenShowList; ChooseShow (-1); ConfirmShow]
                 ++ fermer_lampe salle_is_2 v hour minutes)%list).

(** ** [_copy_vendredi_to_days] *)

(** A [td.day] of the copy calendar.  [cell_class] is the [class] attribute
    ([None] when absent); a stale cell raises when it is read or clicked and
    is passed over. *)
Record calendar_cell := {
  cell_class : option string;
  cell_text : string;
  cell_stale : bool
}.

Record copy_modal := {
  headers_found : nat;                       (* [len(day_headers)] *)
  dropdown_opens : bool;                     (* else CPY-002 *)
  copy_day_clicks : bool;                    (* else CPY-003 *)
  modal_opens : bool;                        (* else CPY-004 *)
  day_cells : list Z -> list calendar_cell;  (* the cells found once these days are selected *)
  ok_clicks : bool                           (* else CPY-006 *)
}.

(** The inner [for cell in day_cells] loop: is there a cell to click for
    [jour_num]? *)
Fixpoint cell_found (jour_num : Z) (cells : list calendar_cell) : bool :=
  match cells with
  | [] => false
  | cell :: rest =>
      if cell_stale cell then cell_found jour_num rest
      else
        let cell_classes := match cell_class cell with Some c => c | None => "" end in
        let text := strip (cell_text cell) in
        if str_in "old" cell_classes || str_in "new" cell_classes ||
           str_in "notSelectable" cell_classes || str_in "source" cell_classes
        then cell_found jour_num rest
        else if String.eqb text (str jour_num) then true
        else cell_found jour_num rest
  end.

(** The outer [for jour_num in jours_restants] loop: the final value of
    [jours_trouves]. *)
Fixpoint select_days (m : copy_modal) (jours_trouves : list Z) (jours_restants : list Z)
  : list Z :=
  match jours_restants with
  | [] => jours_trouves
  | jour_num :: rest =>
      if cell_found jour_num (day_cells m jours_trouves)
      then select_days m (jours_trouves ++ [jour_num])%list rest
      else select_days m jours_trouves rest
  end.

(** [_copy_vendredi_to_days(vendredi_index, target_jours_nums)]: the result
    and the days selected in the calendar. *)
Definition _copy_vendredi_to_days (m : copy_modal) (vendredi_index : nat)
  (target_jours_nums : list Z) : bool * list Z :=
  if (headers_found m <=? vendredi_index)%nat then (false, [])   (* CPY-001 *)
  else if negb (dropdown_opens m) then (false, [])               (* CPY-002 *)
  else if negb (copy_day_clicks m) then (false, [])              (* CPY-003 *)
  else if negb (modal_opens m) then (false, [])                  (* CPY-004 *)
  else
    let jours_trouves := select_days m [] target_jours_nums in
    match jours_trouves with
    | [] => (false, [])                                          (* CPY-005 *)
    | _ => if ok_clicks m then (true, jours_trouves)
           else (false, jours_trouves)                           (* CPY-006 *)
    end.

(** ** [schedule_seances] *)

(** A [div.dayHeader]: the texts of its [p.day] and [p.date]; [None] when
    the element is not found ([find_element] raises and the loop goes on). *)
Record day_header := {
  p_day : option string;
  p_date : option string
}.

(** The scheduler page as the driver answers about it, once
    [_navigate_to_date] has moved it to the week of [date_debut].  The
    headers and the views are read once before the evening show is placed
    and once more after the copy. *)
Record scheduler := {
  scheduler_opens : bool;                (* navigation and page load do not raise *)
  day_headers : list day_header;
  day_views : list day_view;
  copy_dialog : copy_modal;
  day_headers_after : list day_header;
  day_views_after : list day_view
}.

(** What [schedule_seances] attempts, with the outcome of each attempt. *)
Inductive sched_event :=
| Seance (index : nat) (hour : Z) (minutes : string) (ok : bool) (actions : list ui_action)
| CopyDays (vendredi_index : nat) (jours_nums : list Z) (ok : bool) (jours_trouves : list Z).

(** The values of [heure_soir], [minutes_soir], [heure_aprem], [minutes_aprem]. *)
Definition heures (minutes : string) : Z * string * Z * string :=
  if String.eqb minutes "00" then (18, "50", 12, "50")
  else if String.eqb minutes "15" then (19, "05", 13, "05")
  else if String.eqb minutes "30" then (19, "20", 13, "20")
  else (18, "50", 12, "50").

(** [any(j in day_name for j in names)] *)
Definition any_in (names : list string) (day_name : string) : bool :=
  existsb (fun j => str_in j day_name) names.

Definition noms_vendredi : list string := ["vendredi"; "friday"; "ven"].
Definition noms_copie : list string :=
  ["samedi"; "saturday"; "sam"; "dimanche"; "sunday"; "dim";
   "mercredi"; "wednesday"; "mer"; "jeudi"; "thursday"; "jeu"].
Definition noms_aprem : list string :=
  ["samedi"; "saturday"; "sam"; "dimanche"; "sunday"; "dim"].

(** Parsing of [date_debut] or [date_fin]: [None] when the parsing raises
    (SCH-002), [Some None] when the date is absent or empty. *)
Definition parse_bound (date : option string) : option (option datetime) :=
  match date with
  | Some text =>
      if truthy text
      then match parse_date text with
           | Some dt => Some (Some dt)
           | None => None
           end
      else Some None
  | None => Some None
  end.

(** The first loop over the headers: the values of [vendredi_index] and
    [vendredi_date]. *)
Fixpoint find_vendredi (date_debut_dt : option datetime) (index : nat)
  (headers : list day_header) : option (nat * string) :=
  match headers with
  | [] => None
  | header :: rest =>
      let continue := find_vendredi date_debut_dt (S index) rest in
      match p_day header, p_date header with
      | Some d, Some t =>
          let day_name := strip (lower d) in
          let date_text := strip t in
          if any_in noms_vendredi day_name
          then match date_debut_dt with
               | Some debut =>
                   match parse_date date_text with
                   | Some jour_dt =>
                       if negb (dt_lt jour_dt debut) then Some (index, date_text)
                       else continue
                   | None => continue
                   end
               | None => Some (index, date_text)
               end
          else continue
      | _, _ => continue
      end
  end.

(** [if date_debut_dt and date_fin_dt: ... if jour_dt < date_debut_dt or
    jour_dt > date_fin_dt: continue]: [Some true] when the day is kept,
    [Some false] when it is dropped, [None] when parsing the date raises. *)
Definition in_range (date_debut_dt date_fin_dt : option datetime) (date_text : string)
  : option bool :=
  match date_debut_dt, date_fin_dt with
  | Some debut, Some fin =>
      match parse_date date_text with
      | Some jour_dt => Some (negb (dt_lt jour_dt debut || dt_lt fin jour_dt))
      | None => None
      end
  | _, _ => Some true
  end.

(** The second loop: the [jour_num] entries of [jours_a_copier]. *)
Fixpoint jours_a_copier (vendredi_index : nat) (date_debut_dt date_fin_dt : option datetime)
  (index : nat) (headers : list day_header) : list Z :=
  match headers with
  | [] => []
  | header :: rest =>
      let continue := jours_a_copier vendredi_index date_debut_dt date_fin_dt (S index) rest in
      if (index =? vendredi_index)%nat then continue
      else
        match p_day header, p_date header with
        | Some d, Some t =>
            let day_name := strip (lower d) in
            let date_text := strip t in
            if any_in noms_copie day_name
            then match in_range date_debut_dt date_fin_dt date_text with
                 | Some true =>
                     match int (fst (split_char "/" date_text)) with
                     | Some jour_num => jour_num :: continue
                     | None => continue
                     end
                 | _ => continue
                 end
            else continue
        | _, _ => continue
        end
  end.

(** The value of [jours_nums]; [None] when [int] raises. *)
Definition jours_nums (date_debut : option string) (date_debut_dt : option datetime)
  (copier : list Z) : option (list Z) :=
  match date_debut_dt, date_debut with
  | Some _, Some text =>
      match int (fst (split_char "/" text)) with
      | Some vendredi_jour =>
          let sam_jour := vendredi_jour + 1 in
          let dim_jour := vendredi_jour + 2 in
          let mer_jour := vendredi_jour + 5 in
          let jeu_jour := vendredi_jour + 6 in
          Some [sam_jour; dim_jour; mer_jour; jeu_jour]
      | None => None
      end
  | _, _ => Some copier
  end.

(** The third loop: the afternoon shows of Saturday and Sunday. *)
Fixpoint seances_aprem (salle_is_2 : bool) (date_debut_dt date_fin_dt : option datetime)
  (heure_aprem : Z) (minutes_aprem : string) (views : list day_view)
  (index : nat) (headers : list day_header) : list sched_event :=
  match headers with
  | [] => []
  | header :: rest =>
      let continue :=
        seances_aprem salle_is_2 date_debut_dt date_fin_dt heure_aprem minutes_aprem
                      views (S index) rest in
      match nth_error views index with
      | None => continue                       (* [index >= len(day_views)] *)
      | Some view =>
          match p_day header, p_date header with
          | Some d, Some t =>
              let day_name := strip (lower d) in
              let date_text := strip t in
              if any_in noms_aprem day_name
              then match in_range date_debut_dt date_fin_dt date_text with
                   | Some true =>
                       let '(ok, actions) :=
                         _add_seance_at_hour salle_is_2 view heure_aprem minutes_aprem in
                       Seance index heure_aprem minutes_aprem ok actions :: continue
                   | _ => continue
                   end
              else continue
          | _, _ => continue
          end
      end
  end.

(** [schedule_seances(block_name, minutes, date_debut, date_fin)]: the result
    and what was attempted, in order.  The block name is only logged. *)
Definition schedule_seances (salle_is_2 : bool) (s : scheduler) (minutes : string)
  (date_debut date_fin : option string) : bool * list sched_event :=
  if negb (scheduler_opens s) then (false, [])                       (* SCH-007 *)
  else
    let '(heure_soir, minutes_soir, heure_aprem, minutes_aprem) := heures minutes in
    match parse_bound date_debut with
    | None => (false, [])                                            (* SCH-002 *)
    | Some date_debut_dt =>
    match parse_bound date_fin with
    | None => (false, [])                                            (* SCH-002 *)
    | Some date_fin_dt =>
    match find_vendredi date_debut_dt 0 (day_headers s) with
    | None => (false, [])                                            (* SCH-003 *)
    | Some (vendredi_index, _) =>
    match nth_error (day_views s) vendredi_index with
    | None => (false, [])                  (* [day_views[vendredi_index]] raises: SCH-007 *)
    | Some vendredi_view =>
        let '(ok, actions) :=
          _add_seance_at_hour salle_is_2 vendredi_view heure_soir minutes_soir in
        let soir := Seance vendredi_index heure_soir minutes_soir ok actions in
        let copier :=
          jours_a_copier vendredi_index date_debut_dt date_fin_dt 0 (day_headers s) in
        match jours_nums date_debut date_debut_dt copier with
        | None => (false, [soir])                                    (* SCH-007 *)
        | Some nums =>
            let copie :=
              match nums with
              | [] => []
              | _ => let '(ok, trouves) :=
                       _copy_vendredi_to_days (copy_dialog s) vendredi_index nums in
                     [CopyDays vendredi_index nums ok trouves]
              end in
            (true,
             (soir :: copie ++
              seances_aprem salle_is_2 date_debut_dt date_fin_dt heure_aprem minutes_aprem
                            (day_views_after s) 0 (day_headers_after s))%list)
        end
    end end end end.

(** ** [import_qfc_from_usb] and [full_workflow_usb] *)

(** The browser session as it answers to the steps of the workflow. *)
Record browser := {
  browser_starts : bool;                     (* [start_browser] does not raise *)
  login_ok : bool;                           (* [login()] *)
  import_usb_opens : bool;                   (* [navigate_to_import_usb()] *)
  usb : usb_page;
  editor_opens : bool;                       (* [navigate_to_session_editor()] *)
  block_selected : string -> bool;           (* [select_block(format_type=...)] *)
  film_replaced : string -> string -> bool;  (* [replace_film_in_block(name, block)] *)
  scheduling : scheduler
}.

(** [import_qfc_from_usb(film_name)] *)
Definition import_qfc_from_usb (b : browser) (film_name : option string) : selection :=
  if negb (import_usb_opens b) then not_selected
  else select_qfc_from_usb (usb b) film_name.

(** The outcome of the workflow: its result, the block name it generated
    and, when it got that far, the result and the events of the scheduling. *)
Record workflow := {
  succeeded : bool;
  auto_block_name : option string;
  scheduled : option (bool * list sched_event)
}.

Definition stopped (name : option string) : workflow :=
  {| succeeded := false; auto_block_name := name; scheduled := None |}.

(** [x or y] on optional strings *)
Definition or_else (x : option string) (y : option string) : option string :=
  if opt_truthy x then x else y.

(** [full_workflow_usb(film_name, format_type=..., minutes=..., date_debut=...,
    date_fin=...)] for a bot whose attributes [salle_name] and [salle] are
    given. *)
Definition full_workflow_usb (salle_name : option string) (salle_is_2 : bool)
  (b : browser) (film_name format_type : option string) (minutes : string)
  (date_debut date_fin : option string) : workflow :=
  if negb (browser_starts b) then stopped None
  else if negb (login_ok b) then stopped None
  else
    let sel := import_qfc_from_usb b film_name in
    if negb (selected sel) then stopped None
    else
      let detected_format :=
        match or_else (or_else (imported_film_format sel) format_type) (Some "scope") with
        | Some f => f
        | None => "scope"
        end in
      let extracted_film_name :=
        match imported_film_text sel with
        | Some text => if truthy text then extract_film_name text else "Film"
        | None => "Film"
        end in
      let salle :=
        match or_else salle_name (Some "Brunet") with
        | Some n => n
        | None => "Brunet"
        end in
      let name := generate_block_name extracted_film_name detected_format salle in
      if negb (editor_opens b) then stopped (Some name)
      else if negb (block_selected b detected_format) then stopped (Some name)
      else if negb (film_replaced b extracted_film_name name) then stopped (Some name)
      else
        {| succeeded := true;
           auto_block_name := Some name;
           scheduled := Some (schedule_seances salle_is_2 (scheduling b) minutes
                                               date_debut date_fin) |}.

(** ** Notions used in the statements *)

(** [needle] (in upper case) occurs in [text] up to the case of letters. *)
Definition ci_occurs (needle text : string) : Prop :=
  exists pre mid suf, text = pre ++ mid ++ suf /\ upper mid = needle.

(** The six tiers of the selection policy, on the upper-cased text of a row. *)
Definition satisfies (tier : nat) (item : usb_item) : bool :=
  let text := upper (item_text item) in
  match tier with
  | 1%nat => is_qfc text && has_ccap_not_ocap text && has_volume text
  | 2%nat => is_fr text && has_ccap_not_ocap text && has_volume text
  | 3%nat => is_qfc text && has_volume text
  | 4%nat => is_fr text && has_volume text
  | 5%nat => is_qfc text
  | 6%nat => is_fr text
  | _ => false
  end.

(** The text before the first line feed. *)
Fixpoint first_line (s : string) : string :=
  match s with
  | EmptyString => EmptyString
  | String c s' => if Ascii.eqb c LF then EmptyString else String c (first_line s')
  end.

(** The leading run of letters and digits. *)
Fixpoint leading_run (s : string) : string :=
  match s with
  | EmptyString => EmptyString
  | String c s' => if is_alnum c then String c (leading_run s') else EmptyString
  end.

Definition is_separator (c : ascii) : bool := Ascii.eqb c "_" || Ascii.eqb c "-".

(** The segments of a text cut at every underscore and hyphen. *)
Fixpoint segments_from (s : string) : string * list string :=
  match s with
  | EmptyString => (EmptyString, [])
  | String c s' =>
      let '(hd, tl) := segments_from s' in
      if is_separator c then (EmptyString, hd :: tl) else (String c hd, tl)
  end.
Definition segments (s : string) : list string :=
  let '(hd, tl) := segments_from s in hd :: tl.
Definition first_segment (s : string) : string := fst (segments_from s).

(** The text with every underscore and hyphen turned into a space. *)
Definition separators_to_spaces : string -> string :=
  map_str (fun c => if is_separator c then " "%char else c).

(** The technical codes stripped, pattern after pattern. *)
Definition strip_codes (line : string) : string :=
  fold_left (fun name p => re_sub_empty p name) patterns_stop line.

(** The last step of the extraction: the first word, or the sentinel. *)
Definition first_word_or_film (rest : string) : string :=
  match split_ws (separators_to_spaces rest) with
  | w :: _ => title w
  | [] => "Film"
  end.

(** The extraction as the specification words it: on the first line of the
    input, with the first non-empty segment. *)
Definition extract_as_specified (text : string) : string :=
  let line := first_line text in
  let run := leading_run line in
  if (3 <=? String.length run)%nat then title run
  else
    let rest := strip_codes line in
    match find truthy (segments rest) with
    | Some seg =>
        if (2 <=? String.length seg)%nat then title seg else first_word_or_film rest
    | None => first_word_or_film rest
    end.

(** The dialog that places the film answers at every step. *)
Definition film_answers (v : day_view) : bool :=
  film_popover v && film_list v && negb (film_shows v =? 0)%nat && film_confirm v.

(** What [schedule_seances] attempts, without the outcomes. *)
Inductive attempt :=
| Place (index : nat) (hour : Z) (minutes : string)
| CopyTo (vendredi_index : nat) (jours_nums : list Z).

Definition attempt_of (e : sched_event) : attempt :=
  match e with
  | Seance index hour minutes _ _ => Place index hour minutes
  | CopyDays vendredi_index nums _ _ => CopyTo vendredi_index nums
  end.

Definition event_ok (e : sched_event) : bool :=
  match e with
  | Seance _ _ _ ok _ => ok
  | CopyDays _ _ ok _ => ok
  end.

(** Two scheduler pages that show the same headers and as many day views,
    whatever their views and their copy dialog answer. *)
Definition same_layout (s1 s2 : scheduler) : Prop :=
  scheduler_opens s1 = scheduler_opens s2 /\
  day_headers s1 = day_headers s2 /\
  List.length (day_views s1) = List.length (day_views s2) /\
  day_headers_after s1 = day_headers_after s2 /\
  List.length (day_views_after s1) = List.length (day_views_after s2).

(** The session [b] with another scheduler page. *)
Definition with_scheduling (b : browser) (s : scheduler) : browser :=
  {| browser_starts := browser_starts b; login_ok := login_ok b;
     import_usb_opens := import_usb_opens b; usb := usb b;
     editor_opens := editor_opens b; block_selected := block_selected b;
     film_replaced := film_replaced b; scheduling := s |}.

(** Every step of the copy dialog answers, the calendar apart. *)
Definition dialog_answers (m : copy_modal) (vendredi_index : nat) : bool :=
  (vendredi_index <? headers_found m)%nat && dropdown_opens m && copy_day_clicks m &&
  modal_opens m && ok_clicks m.

(** A cell that the copy does not pass over: it is not stale and its class
    marks it neither as a day of another month, nor as not selectable, nor
    as the source day. *)
Definition selectable (cell : calendar_cell) : bool :=
  let cell_classes := match cell_class cell with Some c => c | None => "" end in
  negb (cell_stale cell) &&
  negb (str_in "old" cell_classes || str_in "new" cell_classes ||
        str_in "notSelectable" cell_classes || str_in "source" cell_classes).

(** The copy calendar shows one month of [last] days: its selectable cells
    carry the day numbers of that month. *)
Definition shows_month (m : copy_modal) (last : Z) : Prop :=
  forall trouves cell,
    In cell (day_cells m trouves) -> selectable cell = true ->
    exists k, 1 <= k <= last /\ strip (cell_text cell) = str k.

(** Header [k] of a page that shows the week of a start date whose header
    stands at index [vi]: the header carries a day name and a date; only the
    header of the start date reads as a Friday, only the two headers after
    it read as Saturday or Sunday; the headers before it carry earlier
    dates, the others the dates that follow the start date day by day. *)
Definition week_header (vi : nat) (anchor : datetime) (k : nat) (h : day_header) : Prop :=
  exists name text date,
    p_day h = Some name /\ p_date h = Some text /\
    parse_date (strip text) = Some date /\
    any_in noms_vendredi (strip (lower name)) = (k =? vi)%nat /\
    any_in noms_aprem (strip (lower name)) = ((k =? vi + 1) || (k =? vi + 2))%nat /\
    (if (k <? vi)%nat then dt_lt date anchor = true
     else date = add_days (k - vi) anchor).

Definition week_headers (vi : nat) (anchor : datetime) (headers : list day_header) : Prop :=
  List.length headers = 7%nat /\
  forall k h, nth_error headers k = Some h -> week_header vi anchor k h.

(** The scheduler page shows seven days with their views, before and after
    the copy, with the start date at header [vi]. *)
Definition shows_week (s : scheduler) (vi : nat) (anchor : datetime) : Prop :=
  scheduler_opens s = true /\
  week_headers vi anchor (day_headers s) /\
  week_headers vi anchor (day_headers_after s) /\
  List.length (day_views s) = 7%nat /\
  List.length (day_views_after s) = 7%nat.

(** ** Sample pages *)

Module Sample.

(** A day view of 24 hour lines where every dialog answers. *)
Definition view : day_view :=
  {| hour_lines := 24; film_popover := true; film_list := true; film_shows := 3;
     film_confirm := true; close_popover := fun _ => true; close_list := true;
     close_shows := 3; close_confirm := true |}.

(** A day view where the popover never opens. *)
Definition dead_view : day_view :=
  {| hour_lines := 24; film_popover := false; film_list := false; film_shows := 0;
     film_confirm := false; close_popover := fun _ => false; close_list := false;
     close_shows := 0; close_confirm := false |}.

Definition header (name date : string) : day_header :=
  {| p_day := Some name; p_date := Some date |}.

(** The week from Monday 26 January 2026 to Sunday 1 February 2026. *)
Definition week : list day_header :=
  [header "Lundi" "26/01/2026"; header "Mardi" "27/01/2026";
   header "Mercredi" "28/01/2026"; header "Jeudi" "29/01/2026";
   header "Vendredi" "30/01/2026"; header "Samedi" "31/01/2026";
   header "Dimanche" "01/02/2026"].

(** The week from Monday 12 January 2026 to Sunday 18 January 2026. *)
Definition mid_week : list day_header :=
  [header "Lundi" "12/01/2026"; header "Mardi" "13/01/2026";
   header "Mercredi" "14/01/2026"; header "Jeudi" "15/01/2026";
   header "Vendredi" "16/01/2026"; header "Samedi" "17/01/2026";
   header "Dimanche" "18/01/2026"].

Definition cell (class : string) (k : Z) : calendar_cell :=
  {| cell_class := Some class; cell_text := str k; cell_stale := false |}.

(** The copy calendar on January 2026, opened from the day [source], where
    every step answers: six weeks from Monday 29 December to Sunday
    8 February. *)
Definition january (source : Z) : copy_modal :=
  {| headers_found := 7; dropdown_opens := true; copy_day_clicks := true;
     modal_opens := true;
     day_cells := fun _ =>
       (map (cell "day old") [29; 30; 31] ++
        map (fun k => cell (if k =? source then "day source" else "day") k)
            (map Z.of_nat (seq 1 31)) ++
        map (cell "day new") [1; 2; 3; 4; 5; 6; 7; 8])%list;
     ok_clicks := true |}.

(** A copy dialog whose dropdown does not open. *)
Definition dead_modal : copy_modal :=
  {| headers_found := 7; dropdown_opens := false; copy_day_clicks := false;
     modal_opens := false; day_cells := fun _ => []; ok_clicks := false |}.

Definition page (headers : list day_header) (source : Z) : scheduler :=
  {| scheduler_opens := true; day_headers := headers; day_views := repeat view 7;
     copy_dialog := january source; day_headers_after := headers;
     day_views_after := repeat view 7 |}.

(** The same page when no placement and no copy can be carried out. *)
Definition dead_page (headers : list day_header) : scheduler :=
  {| scheduler_opens := true; day_headers := headers; day_views := repeat dead_view 7;
     copy_dialog := dead_modal; day_headers_after := headers;
     day_views_after := repeat dead_view 7 |}.

Definition mercy : string :=
  "Mercy_TLR-1-IMMINA_S_QFC-QFC-CCAP_CA_51_4K_MGM_20251001_DLX_SMPTE_OV".

Definition row (text : string) : usb_item :=
  {| item_text := text; ingest_clicks := true |}.

Definition usb_list (items : list usb_item) : usb_page :=
  {| page_loads := true; clickable_by_name := fun _ => false; all_items := items |}.

(** A session where every step before the scheduling answers. *)
Definition session (s : scheduler) : browser :=
  {| browser_starts := true; login_ok := true; import_usb_opens := true;
     usb := usb_list [row mercy]; editor_opens := true;
     block_selected := fun _ => true; film_replaced := fun _ _ => true;
     scheduling := s |}.

Definition anchor : datetime := {| year := 2026; month := 1; day := 30 |}.

End Sample.

(** * The other procedures *)

(** ** [select_block] *)

(** A [div.rowItem] of the show editor: its text ([None] when reading it
    raises) and whether its [div.openShowBtn] can be found and clicked. *)
Record show_block := {
  block_text : option string;
  open_clicks : bool
}.

Record show_editor := {
  editor_loads : bool;      (* the first [wait_for_page_load] returns *)
  all_blocks : list show_block;
  editor_reloads : bool     (* the [wait_for_page_load] after the click returns *)
}.

(** [l[:n]]: a negative [n] counts from the end. *)
Definition slice_to {A : Type} (n : Z) (l : list A) : list A :=
  if n <? 0 then firstn (Z.to_nat (Z.of_nat (List.length l) + n)) l
  else firstn (Z.to_nat n) l.

(** The value of [search_patterns]. *)
Definition search_patterns (format_type : string) : list string :=
  if String.eqb (lower format_type) "scope"
  then [" - s - "; "- s -"; " -s- "; "-s-"]
  else [" - f - "; "- f -"; " -f- "; "-f-"].

(** The value of [block_title_lower] for a block text. *)
Definition block_title_lower (text : string) : string :=
  let block_title := if truthy text then fst (split_char LF text) else "" in
  lower block_title.

(** [for index, block in enumerate(blocks_to_check)]: the result, and the
    index of the block whose button was clicked. *)
Fixpoint open_first_block (e : show_editor) (patterns : list string) (index : nat)
  (blocks : list show_block) : bool * option nat :=
  match blocks with
  | [] => (false, None)
  | block :: rest =>
      match block_text block with
      | None => (false, None)
      | Some text =>
          if any_in patterns (block_title_lower text)
          then if open_clicks block then (editor_reloads e, Some index)
               else (false, None)
          else open_first_block e patterns (S index) rest
      end
  end.

(** [select_block(block_number, format_type, max_blocks)]; the block number
    is not read. *)
Definition select_block (e : show_editor) (format_type : option string) (max_blocks : Z)
  : bool * option nat :=
  if negb (editor_loads e) then (false, None)
  else
    let blocks_to_check := slice_to max_blocks (all_blocks e) in
    if negb (opt_truthy format_type) then (false, None)
    else
      match format_type with
      | Some f => open_first_block e (search_patterns f) 0 blocks_to_check
      | None => (false, None)
      end.

(** ** [replace_film_in_block] *)

Inductive editor_action :=
| DeleteFilmUnder (marker : string)   (* click on the bin of the row after the marker *)
| OpenClipsTab
| SortClips (index : Z)               (* [select_by_index] on the sort menu *)
| DragFirstClipUnder (marker : string)
| ClickSave
| TypeTitle (name : string)
| ClickOverwrite.

(** The show editor as it answers to the steps of the replacement. *)
Record clip_editor := {
  old_film_found : bool;     (* the marker, the row after it and its bin are found *)
  clips_tab_clicks : bool;   (* the tab becomes clickable and is clicked *)
  clips_tab_loads : bool;    (* the page loads after the click *)
  sort_menu_found : bool;
  first_clip_found : bool;   (* the first clip and its drag handle are found *)
  target_found : bool;       (* the row of the marker is found *)
  drag_performs : bool;
  save_icon_clicks : bool;
  title_input_found : bool;
  overwrite_clicks : bool
}.

(** The value of [volume_marker]. *)
Definition volume_marker (salle_is_2 : bool) : string :=
  if salle_is_2 then "VOLUME_NORMAL" else "DCI_XYZ_FLAT".

(** The [try] block that saves the changes; what raises in it is logged. *)
Definition save_changes (e : clip_editor) (new_block_name : option string)
  : list editor_action :=
  if negb (save_icon_clicks e) then []
  else
    if opt_truthy new_block_name
    then
      if negb (title_input_found e) then [ClickSave]
      else
        let name := match new_block_name with Some n => n | None => "" end in
        if overwrite_clicks e then [ClickSave; TypeTitle name; ClickOverwrite]
        else [ClickSave; TypeTitle name]
    else
      if overwrite_clicks e then [ClickSave; ClickOverwrite] else [ClickSave].

(** [replace_film_in_block(new_film_name, new_block_name)]; the film name
    is not read. *)
Definition replace_film_in_block (salle_is_2 : bool) (e : clip_editor)
  (new_block_name : option string) : bool * list editor_action :=
  let marker := volume_marker salle_is_2 in
  let deleted := if old_film_found e then [DeleteFilmUnder marker] else [] in
  if negb (clips_tab_clicks e) then (false, deleted)
  else if negb (clips_tab_loads e) then (false, (deleted ++ [OpenClipsTab])%list)
  else
    let sorted := if sort_menu_found e then [SortClips 7] else [] in
    let before := (deleted ++ OpenClipsTab :: sorted)%list in
    if negb (first_clip_found e) then (false, before)
    else if negb (target_found e) then (false, before)
    else if negb (drag_performs e) then (false, before)
    else (true, (before ++ DragFirstClipUnder marker :: save_changes e new_block_name)%list).

(** ** [_select_date_in_modal] and [_copy_day_to_date] *)

Record date_picker := {
  picker_opens : bool;                 (* [#dateTimeModal] becomes visible *)
  picker_cells : list calendar_cell    (* [#datePicker .datepicker-days td.day] *)
}.

(** [for cell in day_cells]: [Some true] when a cell is clicked, [Some false]
    when the loop ends without a click, [None] when a cell raises (a stale
    cell, or a cell with no [class] attribute, on which [in] raises). *)
Fixpoint click_day (target_day : Z) (cells : list calendar_cell) : option bool :=
  match cells with
  | [] => Some false
  | cell :: rest =>
      if cell_stale cell then None
      else
        match cell_class cell with
        | None => None
        | Some cell_classes =>
            let text := strip (cell_text cell) in
            if str_in "old" cell_classes || str_in "new" cell_classes ||
               str_in "notSelectable" cell_classes
            then click_day target_day rest
            else if str_in "source" cell_classes then click_day target_day rest
            else if String.eqb text (str target_day) then Some true
            else click_day target_day rest
        end
  end.

(** [_select_date_in_modal(target_date)] *)
Definition _select_date_in_modal (p : date_picker) (target_date : string) : bool :=
  if negb (picker_opens p) then false
  else
    match split "/" target_date with
    | p0 :: _ :: _ =>
        match int p0 with
        | Some target_day =>
            match click_day target_day (picker_cells p) with
            | Some clicked => clicked
            | None => false
            end
        | None => false
        end
    | _ => false
    end.

(** The dictionary [target_info]. *)
Record target_info := {
  target_index : nat;
  target_name : string;
  target_date : string
}.

Record copy_day_dialog := {
  source_headers : nat;      (* [len(day_headers)] *)
  source_dropdown : bool;    (* the dropdown toggle is found and clicked *)
  copy_option : bool;        (* [a.copyDay] becomes clickable *)
  picker : date_picker;
  confirm_clicks : bool      (* [#confirmDateTimeBtn] is clicked *)
}.

(** [_copy_day_to_date(source_index, target_info)] *)
Definition _copy_day_to_date (d : copy_day_dialog) (source_index : nat) (t : target_info)
  : bool :=
  if (source_headers d <=? source_index)%nat then false
  else if negb (source_dropdown d) then false
  else if negb (copy_option d) then false
  else if negb (_select_date_in_modal (picker d) (target_date t)) then false
  else confirm_clicks d.

(** ** Day counts and [_navigate_to_date] *)

(** [date.toordinal()]: day 1 is 1 January of year 1. *)
Definition days_before_year (y : Z) : Z :=
  let y := y - 1 in y * 365 + y / 4 - y / 100 + y / 400.

Definition days_before_month (y m : Z) : Z :=
  nth (Z.to_nat m) [0; 0; 31; 59; 90; 120; 151; 181; 212; 243; 273; 304; 334] 0
  + (if (2 <? m) && is_leap y then 1 else 0).

Definition toordinal (a : datetime) : Z :=
  days_before_year (year a) + days_before_month (year a) (month a) + day a.

(** [date.weekday()]: Monday is 0. *)
Definition weekday (a : datetime) : Z := (toordinal a + 6) mod 7.

Inductive nav_click := NextWeek | PrevWeek.

(** [for i in range(n)]: the clicks on an arrow, up to the one that raises. *)
Definition arrow_clicks (click : nav_click) (n : Z) (answers : option nat)
  : list nav_click :=
  match answers with
  | Some k => repeat click (Nat.min (Z.to_nat n) k)
  | None => repeat click (Z.to_nat n)
  end.

(** [_navigate_to_date(target_date)] on the texts of the [p.date] headers;
    [answers] is the number of arrow clicks that the page takes before one
    raises ([None]: all of them).  What raises is logged. *)
Definition _navigate_to_date (date_headers : list string) (answers : option nat)
  (target_date : string) : list nav_click :=
  match parse_date target_date with
  | None => []
  | Some target_dt =>
      match date_headers with
      | [] => []
      | first_date :: _ =>
          match parse_date (strip first_date) with
          | None => []
          | Some first_dt =>
              let diff_days := toordinal target_dt - toordinal first_dt in
              let weeks_diff := diff_days / 7 in
              if 0 <? weeks_diff then arrow_clicks NextWeek weeks_diff answers
              else if weeks_diff <? 0 then arrow_clicks PrevWeek (Z.abs weeks_diff) answers
              else []
          end
      end
  end.

(** ** [_find_vendredi_index] and [_get_jours_cibles] *)

(** [_find_vendredi_index()] on the headers of the page. *)
Fixpoint find_vendredi_index_from (index : nat) (headers : list day_header) : option nat :=
  match headers with
  | [] => None
  | header :: rest =>
      match p_day header with
      | Some d =>
          let day_name := strip (lower d) in
          if str_in "vendredi" day_name || str_in "friday" day_name || str_in "ven" day_name
          then Some index
          else find_vendredi_index_from (S index) rest
      | None => find_vendredi_index_from (S index) rest
      end
  end.
Definition _find_vendredi_index (headers : list day_header) : option nat :=
  find_vendredi_index_from 0 headers.

(** The loop of [_get_jours_cibles]; a header whose date cannot be parsed is
    kept. *)
Fixpoint jours_cibles_from (vendredi_index : nat) (date_debut_dt date_fin_dt : option datetime)
  (index : nat) (headers : list day_header) : list target_info :=
  match headers with
  | [] => []
  | header :: rest =>
      let continue := jours_cibles_from vendredi_index date_debut_dt date_fin_dt
                                        (S index) rest in
      if (index =? vendredi_index)%nat then continue
      else
        match p_day header, p_date header with
        | Some d, Some t =>
            let day_name := strip (lower d) in
            let date_text := strip t in
            if negb (any_in noms_copie day_name) then continue
            else
              match in_range date_debut_dt date_fin_dt date_text with
              | Some false => continue
              | _ => {| target_index := index; target_name := day_name;
                        target_date := date_text |} :: continue
              end
        | _, _ => continue
        end
  end.

(** [_get_jours_cibles(vendredi_index, date_debut, date_fin)]: a bound that
    cannot be parsed raises before the loop, and the list is returned empty. *)
Definition _get_jours_cibles (headers : list day_header) (vendredi_index : nat)
  (date_debut date_fin : option string) : list target_info :=
  match parse_bound date_debut with
  | None => []
  | Some date_debut_dt =>
      match parse_bound date_fin with
      | None => []
      | Some date_fin_dt =>
          jours_cibles_from vendredi_index date_debut_dt date_fin_dt 0 headers
      end
  end.

(** ** [main.py] *)

(** [datetime.strptime(text, "%d/%m/%Y")].  The directives stand for the
    patterns [3[0-1]|[1-2]\d|0[1-9]|[1-9]| [1-9]], [1[0-2]|0[1-9]|[1-9]] and
    [\d\d\d\d], tried in this order; the whole text must be used, and the
    values must make a date. *)
Definition in_chars (c : ascii) (chars : string) : bool := mem_char c chars.

(** The ways to read the day at the start of a text, in the order of the
    pattern, each with the text that follows. *)
Definition read_day (s : string) : list (Z * string) :=
  match s with
  | String a (String b r) =>
      (if Ascii.eqb a "3" && in_chars b "01" then [(30 + digit_value b, r)] else []) ++
      (if in_chars a "12" && is_digit b then [(10 * digit_value a + digit_value b, r)] else []) ++
      (if Ascii.eqb a "0" && in_chars b "123456789" then [(digit_value b, r)] else []) ++
      (if in_chars a "123456789" then [(digit_value a, String b r)] else []) ++
      (if Ascii.eqb a " " && in_chars b "123456789" then [(digit_value b, r)] else [])
  | String a EmptyString =>
      if in_chars a "123456789" then [(digit_value a, EmptyString)] else []
  | EmptyString => []
  end%list.

Definition read_month (s : string) : list (Z * string) :=
  match s with
  | String a (String b r) =>
      (if Ascii.eqb a "1" && in_chars b "012" then [(10 + digit_value b, r)] else []) ++
      (if Ascii.eqb a "0" && in_chars b "123456789" then [(digit_value b, r)] else []) ++
      (if in_chars a "123456789" then [(digit_value a, String b r)] else [])
  | String a EmptyString =>
      if in_chars a "123456789" then [(digit_value a, EmptyString)] else []
  | EmptyString => []
  end%list.

Definition read_year (s : string) : option (Z * string) :=
  match s with
  | String a (String b (String c (String d r))) =>
      if is_digit a && is_digit b && is_digit c && is_digit d
      then Some (1000 * digit_value a + 100 * digit_value b
                 + 10 * digit_value c + digit_value d, r)
      else None
  | _ => None
  end.

Definition after_slash (s : string) : option string :=
  match s with
  | String "/" r => Some r
  | _ => None
  end.

(** The first way to read [x/...] that the continuation accepts. *)
Fixpoint first_match {A : Type} (ways : list (Z * string))
  (k : Z -> string -> option A) : option A :=
  match ways with
  | [] => None
  | (v, rest) :: others =>
      match after_slash rest with
      | Some r => match k v r with
                  | Some x => Some x
                  | None => first_match others k
                  end
      | None => first_match others k
      end
  end.

(** The match of the pattern: day, month, year and the text left over. *)
Definition match_dmy (text : string) : option (Z * Z * Z * string) :=
  first_match (read_day text) (fun d r =>
    first_match (read_month r) (fun m r' =>
      match read_year r' with
      | Some (y, leftover) => Some (d, m, y, leftover)
      | None => None
      end)).

Definition strptime_dmy (text : string) : option datetime :=
  match match_dmy text with
  | Some (d, m, y, EmptyString) => make_datetime y m d
  | _ => None
  end.

(** [a.strftime("%d/%m/%Y")]; the year is written with all its digits, which
    are four from the year 1000 on. *)
Definition strftime_dmy (a : datetime) : string :=
  fmt_02d (day a) ++ "/" ++ fmt_02d (month a) ++ "/" ++ str (year a).

(** [a + timedelta(days=n)]; [None] stands for [OverflowError]. *)
Definition plus_days (n : nat) (a : datetime) : option datetime :=
  let r := add_days n a in
  if year r <=? 9999 then Some r else None.

(** [get_salle_name(salle)] *)
Definition get_salle_name (salle : Z) : string :=
  if salle =? 2 then "Selectotel"
  else if salle =? 3 then "Brunet"
  else "Brunet".

(** The operator's lines are a list; a question that finds the list empty
    does not return ([None]).  Each question returns its answer and the
    lines that are left. *)

(** [demander_salle()]: [Some 2], [Some 3], or [None] for [q]. *)
Fixpoint demander_salle (lines : list string) : option (option Z * list string) :=
  match lines with
  | [] => None
  | line :: rest =>
      let choix := lower (strip line) in
      if String.eqb choix "2" then Some (Some 2, rest)
      else if String.eqb choix "3" then Some (Some 3, rest)
      else if String.eqb choix "q" then Some (None, rest)
      else demander_salle rest
  end.

(** [demander_minutes()] *)
Fixpoint demander_minutes (lines : list string) : option (string * list string) :=
  match lines with
  | [] => None
  | line :: rest =>
      let choix := strip line in
      if String.eqb choix "0" then Some ("00", rest)
      else if String.eqb choix "1" then Some ("15", rest)
      else if String.eqb choix "2" then Some ("30", rest)
      else demander_minutes rest
  end.

(** [datetime.now()]: the date and the hour. *)
Record clock := {
  today : datetime;
  hour_now : Z
}.

(** The value of [days_until_friday]. *)
Definition days_until_friday (now : clock) : Z :=
  let days := (4 - weekday (today now)) mod 7 in
  if (days =? 0) && (12 <=? hour_now now) then 7 else days.

(** The [while True] loop of [demander_date_debut]. *)
Fixpoint read_date_debut (date_debut_defaut : string) (lines : list string)
  : option (string * list string) :=
  match lines with
  | [] => None
  | line :: rest =>
      let date_debut_input := strip line in
      if String.eqb date_debut_input "" then Some (date_debut_defaut, rest)
      else
        match strptime_dmy date_debut_input with
        | Some _ => Some (date_debut_input, rest)
        | None => read_date_debut date_debut_defaut rest
        end
  end.

(** [demander_date_debut()]: the pair [(date_debut, date_fin)]. *)
Definition demander_date_debut (now : clock) (lines : list string)
  : option (string * string * list string) :=
  match plus_days (Z.to_nat (days_until_friday now)) (today now) with
  | None => None
  | Some vendredi_prochain =>
      let date_debut_defaut := strftime_dmy vendredi_prochain in
      match read_date_debut date_debut_defaut lines with
      | None => None
      | Some (date_debut, rest) =>
          match strptime_dmy date_debut with
          | None => None
          | Some date_debut_dt =>
              match plus_days 6 date_debut_dt with
              | None => None
              | Some date_fin_dt => Some (date_debut, strftime_dmy date_fin_dt, rest)
              end
          end
      end
  end.

(** What [main()] hands to [BarcoBot] and to [full_workflow_usb]. *)
Record launch := {
  launch_salle : Z;
  launch_salle_name : string;
  launch_minutes : string;
  launch_date_debut : string;
  launch_date_fin : string
}.

(** [main()] up to the call of the workflow: [Some None] when the operator
    quits at the first question. *)
Definition main (now : clock) (lines : list string) : option (option launch) :=
  match demander_salle lines with
  | None => None
  | Some (None, _) => Some None
  | Some (Some salle, rest) =>
      match demander_minutes rest with
      | None => None
      | Some (minutes, rest) =>
          match demander_date_debut now rest with
          | None => None
          | Some (date_debut, date_fin, _) =>
              Some (Some {| launch_salle := salle;
                            launch_salle_name := get_salle_name salle;
                            launch_minutes := minutes;
                            launch_date_debut := date_debut;
                            launch_date_fin := date_fin |})
          end
      end
  end.

(** ** Notions used in the further statements *)

(** A row that satisfies a tier and whose ingest button answers. *)
Definition eligible (tier : nat) (item : usb_item) : bool :=
  satisfies tier item && ingest_clicks item.

(** The line index is one that [hour_lines[hour]] accepts. *)
Definition line_exists (v : day_view) (hour : Z) : bool :=
  (- Z.of_nat (hour_lines v) <=? hour) && (hour <? Z.of_nat (hour_lines v)).

Definition is_click (a : ui_action) : bool :=
  match a with ClickLine _ _ _ => true | _ => false end.

(** A header of the scheduler page whose day name contains one of [names]. *)
Definition header_named (names : list string) (header : day_header) : bool :=
  match p_day header with
  | Some d => any_in names (strip (lower d))
  | None => false
  end.

(** A header whose date lies between the two bounds, when both are given. *)
Definition header_in_range (date_debut_dt date_fin_dt : option datetime)
  (header : day_header) : bool :=
  match p_date header with
  | Some t => match in_range date_debut_dt date_fin_dt (strip t) with
              | Some true => true
              | _ => false
              end
  | None => false
  end.

(** The day number that a header displays. *)
Definition header_day (header : day_header) : option Z :=
  match p_date header with
  | Some t => int (fst (split_char "/" (strip t)))
  | None => None
  end.

(** The dates that [datetime] can hold: what [make_datetime] accepts. *)
Definition valid_date (a : datetime) : bool :=
  (1 <=? year a) && (year a <=? 9999) && (1 <=? month a) && (month a <=? 12) &&
  (1 <=? day a) && (day a <=? days_in_month (year a) (month a)).

(** The number of weeks by which a sequence of arrow clicks moves the week
    that the scheduler displays, when every arrow moves it by one week. *)
Fixpoint week_shift (clicks : list nav_click) : Z :=
  match clicks with
  | [] => 0
  | NextWeek :: rest => week_shift rest + 1
  | PrevWeek :: rest => week_shift rest - 1
  end.

(** An ASCII text: every code point is below 128. *)
Fixpoint is_ascii (text : string) : bool :=
  match text with
  | EmptyString => true
  | String c rest => (PyStr.code c <? 128)%N && is_ascii rest
  end.

(** A minutes string of at most 13 characters.  Whatever it holds, [int]
    reads it as Python does and its value stays below [10^13 < 2^44], so the
    quotient by 60 and the product by the line height are computed exactly
    by the floating-point operations of the source (no [OverflowError], no
    rounding across an integer). *)
Definition short_minutes (minutes : string) : bool :=
  (String.length minutes <=? 13)%nat.

(** The cases of a character known to belong to a list of characters. *)
Ltac chars_cases H :=
  cbn [list_ascii_of_string In] in H;
  repeat match type of H with
         | _ \/ _ => destruct H as [H | H]
         end;
  [subst .. | destruct H].

(** * Properties *)

(** ** Strings *)

Section StringFacts.

Lemma append_nil_r (s : string) : s ++ "" = s.
Proof. induction s as [|c s IH]; simpl; [reflexivity | now rewrite IH]. Qed.

Lemma append_assoc (a b c : string) : (a ++ b) ++ c = a ++ b ++ c.
Proof. induction a as [|x a IH]; simpl; [reflexivity | now rewrite IH]. Qed.

Lemma startswith_iff (p s : string) :
  startswith p s = true <-> exists suf, s = p ++ suf.
Proof.
  revert s; induction p as [|a p IH]; intros s; simpl.
  - split; [intros _; now exists s | reflexivity].
  - destruct s as [|b s].
    + split; [discriminate | intros [suf H]; discriminate].
    + rewrite andb_true_iff, Ascii.eqb_eq, IH. split.
      * intros [-> [suf ->]]. now exists suf.
      * intros [suf H]. injection H as -> ->. split; [reflexivity | now exists suf].
Qed.

Lemma str_in_iff (p s : string) :
  str_in p s = true <-> exists pre suf, s = pre ++ p ++ suf.
Proof.
  induction s as [|c s IH].
  - simpl. rewrite orb_false_r, startswith_iff. split.
    + intros [suf H]. now exists "", suf.
    + intros [pre [suf H]]. destruct pre; [now exists suf | discriminate].
  - simpl. rewrite orb_true_iff, startswith_iff, IH. split.
    + intros [[suf H] | [pre [suf H]]].
      * now exists "", suf.
      * exists (String c pre), suf. simpl. now rewrite H.
    + intros [[|x pre] [suf H]].
      * left. now exists suf.
      * right. simpl in H. injection H as _ H. now exists pre, suf.
Qed.

Lemma map_str_app (f : ascii -> ascii) (a b : string) :
  map_str f (a ++ b) = map_str f a ++ map_str f b.
Proof. induction a as [|x a IH]; simpl; [reflexivity | now rewrite IH]. Qed.

Lemma map_str_split (f : ascii -> ascii) (s a b : string) :
  map_str f s = a ++ b ->
  exists s1 s2, s = s1 ++ s2 /\ map_str f s1 = a /\ map_str f s2 = b.
Proof.
  revert s; induction a as [|x a IH]; intros s H.
  - exists "", s. auto.
  - destruct s as [|c s]; [discriminate|]. simpl in H. injection H as Hc H.
    destruct (IH s H) as [s1 [s2 [-> [H1 H2]]]].
    exists (String c s1), s2. simpl. now rewrite Hc, H1.
Qed.

(** [needle in text.upper()] is the search of [needle] up to case. *)
Lemma str_in_upper (needle text : string) :
  str_in needle (upper text) = true <-> ci_occurs needle text.
Proof.
  rewrite str_in_iff. unfold ci_occurs, upper. split.
  - intros [pre [suf H]].
    destruct (map_str_split _ _ _ _ H) as [s1 [s2 [-> [_ H2]]]].
    destruct (map_str_split _ _ _ _ H2) as [m [s3 [-> [Hm _]]]].
    now exists s1, m, s3.
  - intros [pre [mid [suf [-> Hm]]]].
    exists (map_str upper_char pre), (map_str upper_char suf).
    now rewrite !map_str_app, Hm.
Qed.

Lemma str_inj (a b : Z) : str a = str b -> a = b.
Proof.
  unfold str. intros H. apply DecimalZ.to_int_inj.
  assert (Hn : forall z, Z.to_int z <> Decimal.Pos Decimal.Nil /\
                         Z.to_int z <> Decimal.Neg Decimal.Nil).
  { intros [|p|p]; simpl; split; try discriminate;
      intros E; injection E as E; now apply DecimalPos.Unsigned.to_uint_nonnil in E. }
  assert (E : Some (Z.to_int a) = Some (Z.to_int b)).
  { rewrite <- (NilZero.isi (Z.to_int a)), <- (NilZero.isi (Z.to_int b))
      by apply Hn. now rewrite H. }
  now injection E.
Qed.

End StringFacts.

(** ** Format detection *)

(** C7.  Format detection is a case-insensitive substring search in a fixed
    order: a text holding SCOPE, _S_ or -S- is scope; otherwise a text
    holding FLAT, _F_ or -F- is flat; otherwise the text is scope.  The three
    sample names map to scope, flat and scope. *)
Theorem detect_film_format_order (text : string) :
  (ci_occurs "SCOPE" text \/ ci_occurs "_S_" text \/ ci_occurs "-S-" text ->
   detect_film_format text = "scope") /\
  (~ (ci_occurs "SCOPE" text \/ ci_occurs "_S_" text \/ ci_occurs "-S-" text) ->
   ci_occurs "FLAT" text \/ ci_occurs "_F_" text \/ ci_occurs "-F-" text ->
   detect_film_format text = "flat") /\
  (~ (ci_occurs "SCOPE" text \/ ci_occurs "_S_" text \/ ci_occurs "-S-" text) ->
   ~ (ci_occurs "FLAT" text \/ ci_occurs "_F_" text \/ ci_occurs "-F-" text) ->
   detect_film_format text = "scope") /\
  detect_film_format "ALPHA_SCOPE_QFC_2K" = "scope" /\
  detect_film_format "ALPHA_FLAT_QFC_2K" = "flat" /\
  detect_film_format "ALPHA_QFC_2K" = "scope".
Proof.
  unfold detect_film_format.
  repeat split; try reflexivity.
  - intros H. rewrite <- !str_in_upper, <- !orb_true_iff, orb_assoc in H.
    now rewrite H.
  - intros Hs Hf.
    rewrite <- !str_in_upper, <- !orb_true_iff, orb_assoc in Hs, Hf.
    apply not_true_is_false in Hs. rewrite Hs, Hf. reflexivity.
  - intros Hs Hf.
    rewrite <- !str_in_upper, <- !orb_true_iff, orb_assoc in Hs, Hf.
    apply not_true_is_false in Hs, Hf. rewrite Hs, Hf. reflexivity.
Qed.

Lemma detect_film_format_order_witness :
  ci_occurs "_S_" "Mercy_tlr_s_qfc" /\ detect_film_format "Mercy_tlr_s_qfc" = "scope".
Proof.
  assert (H : ci_occurs "_S_" "Mercy_tlr_s_qfc").
  { exists "Mercy_tlr", "_s_", "qfc". split; reflexivity. }
  split; [exact H|].
  apply (proj1 (detect_film_format_order "Mercy_tlr_s_qfc")). right. left. exact H.
Defined.

(** ** The time pattern *)

(** C4.  The time lookup is a total function of the pattern: 00 gives 18:50
    in the evening and 12:50 in the afternoon, 15 gives 19:05 and 13:05,
    30 gives 19:20 and 13:20, and any other pattern gives what 00 gives. *)
Theorem heures_by_pattern :
  heures "00" = (18, "50", 12, "50") /\
  heures "15" = (19, "05", 13, "05") /\
  heures "30" = (19, "20", 13, "20") /\
  (forall pattern : string,
     pattern <> "15" -> pattern <> "30" -> heures pattern = heures "00").
Proof.
  repeat split.
  intros pattern H15 H30. unfold heures.
  apply String.eqb_neq in H15, H30. rewrite H15, H30.
  now destruct (String.eqb pattern "00").
Qed.

Lemma heures_by_pattern_witness :
  "45" <> "15" /\ "45" <> "30" /\ heures "45" = (18, "50", 12, "50").
Proof.
  assert (H15 : "45" <> "15") by discriminate.
  assert (H30 : "45" <> "30") by discriminate.
  split; [exact H15 | split; [exact H30 |]].
  exact (proj2 (proj2 (proj2 heures_by_pattern)) "45" H15 H30).
Defined.

(** ** The end marker and the click offsets *)

Lemma close_attempts_click (v : day_view) (click : ui_action) (attempt remaining : nat) :
  In click (snd (close_attempts v click attempt (S remaining))).
Proof.
  simpl. destruct (close_popover v attempt); simpl; [now left|].
  destruct (close_attempts v click (S attempt) remaining). simpl. now left.
Qed.

Lemma fermer_lampe_click (salle_is_2 : bool) (v : day_view) (hour : Z) (minutes : string) :
  0 <= fst (fermer_time hour minutes) < Z.of_nat (hour_lines v) ->
  In (ClickLine (fst (fermer_time hour minutes)) 10
                (fermer_offset (snd (fermer_time hour minutes))))
     (fermer_lampe salle_is_2 v hour minutes).
Proof.
  intros [H0 Hn]. unfold fermer_lampe.
  destruct (fermer_time hour minutes) as [fh fm]. cbn [fst snd] in H0, Hn |- *.
  apply Z.ltb_lt in Hn. rewrite Hn.
  assert (Hneg : (fh <? - Z.of_nat (hour_lines v)) = false) by (apply Z.ltb_ge; lia).
  rewrite Hneg.
  pose proof (close_attempts_click v (ClickLine fh 10 (fermer_offset fm)) 0 2) as Hc.
  destruct (close_attempts v (ClickLine fh 10 (fermer_offset fm)) 0 3) as [opened clicks].
  cbn [snd] in Hc.
  destruct (opened && close_list v); [|exact Hc].
  destruct (_ <? _)%nat; [|exact Hc].
  apply in_or_app. now left.
Qed.

Lemma add_seance_when_film_answers (salle_is_2 : bool) (v : day_view) (hour : Z)
  (minutes : string) :
  film_answers v = true -> 0 <= hour < Z.of_nat (hour_lines v) ->
  _add_seance_at_hour salle_is_2 v hour minutes =
  (true, ([ClickLine hour 10 (offset_y minutes); OpenShowList; ChooseShow (-1); ConfirmShow]
          ++ fermer_lampe salle_is_2 v hour minutes)%list).
Proof.
  unfold film_answers, _add_seance_at_hour. intros H [H0 Hn].
  apply andb_true_iff in H as [H Hc]. apply andb_true_iff in H as [H Hs].
  apply andb_true_iff in H as [Hp Hl].
  assert (H1 : (Z.of_nat (hour_lines v) <=? hour) = false) by (apply Z.leb_gt; lia).
  assert (H2 : (hour <? - Z.of_nat (hour_lines v)) = false) by (apply Z.ltb_ge; lia).
  rewrite H1, H2, Hp, Hl, Hc. apply negb_true_iff in Hs. now rewrite Hs.
Qed.

(** C3.  The end marker of a show that starts at hour [h], minute [m] is
    computed at [h + 2] hours and [m + 10] minutes, with 60 minutes turned
    into one more hour exactly when [m >= 50]: that is 2 h 10 min after the
    start, 21:00 for a show at 18:50.  When the film has been placed and the
    view has that hour line, the end marker is clicked on that line at the
    offset of that minute. *)
Theorem fermer_time_two_hours_ten (hour : Z) (minutes : string) (m : Z) :
  int minutes = Some m ->
  fermer_time hour minutes =
    (if 50 <=? m then (hour + 2 + 1, m + 10 - 60) else (hour + 2, m + 10)) /\
  60 * fst (fermer_time hour minutes) + snd (fermer_time hour minutes)
    = 60 * hour + m + 130 /\
  (0 <= m < 60 -> 0 <= snd (fermer_time hour minutes) < 60) /\
  fermer_time 18 "50" = (21, 0) /\
  (forall salle_is_2 v,
     film_answers v = true -> 0 <= hour ->
     fst (fermer_time hour minutes) < Z.of_nat (hour_lines v) ->
     In (ClickLine (fst (fermer_time hour minutes)) 10
                   (fermer_offset (snd (fermer_time hour minutes))))
        (snd (_add_seance_at_hour salle_is_2 v hour minutes))).
Proof.
  intros Hm.
  assert (E : fermer_time hour minutes =
              (if 50 <=? m then (hour + 2 + 1, m + 10 - 60) else (hour + 2, m + 10))).
  { unfold fermer_time, minutes_int. rewrite Hm.
    destruct (Z.leb_spec 60 (m + 10)), (Z.leb_spec 50 m); try lia; reflexivity. }
  split; [exact E|].
  split; [rewrite E; destruct (50 <=? m); cbn [fst snd]; lia|].
  split; [rewrite E; destruct (Z.leb_spec 50 m); cbn [fst snd]; lia|].
  split; [reflexivity|].
  intros salle_is_2 v Hv Hh Hn.
  assert (Hge : hour + 2 <= fst (fermer_time hour minutes))
    by (rewrite E; destruct (50 <=? m); cbn [fst snd]; lia).
  rewrite add_seance_when_film_answers by (auto; lia).
  cbn [snd]. apply in_or_app. right. apply fermer_lampe_click. lia.
Qed.

Lemma fermer_time_two_hours_ten_witness :
  int "05" = Some 5 /\ fermer_time 19 "05" = (21, 15).
Proof.
  assert (H : int "05" = Some 5) by reflexivity.
  split; [exact H|].
  exact (proj1 (fermer_time_two_hours_ten 19 "05" 5 H)).
Defined.


(** C5, on the code.  For a minute of the table both clicks use the constant
    of the table, and for another minute the click of the film uses
    [minute / 60] of the line height less the 34 pixels of centring; the
    click of the end marker uses [minute / 60] of the line height with no
    centring.  A show at 19:15 has its end marker at 21:25, a minute that is
    not in the table: it is clicked at offset 27, where the centred
    interpolation gives -7. *)
Theorem fermer_offset_not_centred :
  (forall minutes value,
     In (minutes, value) minutes_offset_map ->
     offset_y minutes = value /\
     (forall n, fmt_02d n = minutes -> fermer_offset n = value)) /\
  (forall minutes,
     lookup minutes minutes_offset_map = None ->
     offset_y minutes = scaled (minutes_int minutes) - 34) /\
  (forall n,
     lookup (fmt_02d n) minutes_offset_map = None -> fermer_offset n = scaled n) /\
  fermer_time 19 "15" = (21, 25) /\
  lookup (fmt_02d 25) minutes_offset_map = None /\
  fermer_offset 25 = 27 /\
  scaled 25 - 34 = -7 /\
  snd (_add_seance_at_hour false Sample.view 19 "15") =
    [ClickLine 19 10 (-17); OpenShowList; ChooseShow (-1); ConfirmShow;
     ClickLine 21 10 27; OpenShowList; ChooseShow 1; ConfirmShow].
Proof.
  split.
  { intros minutes value H. simpl in H.
    repeat (destruct H as [H|H];
            [injection H as <- <-; split; [reflexivity|];
             intros n Hn; unfold fermer_offset; rewrite Hn; reflexivity|]).
    destruct H. }
  split.
  { intros minutes H. unfold offset_y. now rewrite H. }
  split.
  { intros n H. unfold fermer_offset. now rewrite H. }
  repeat split.
Qed.

Lemma fermer_offset_not_centred_witness :
  lookup (fmt_02d 40) minutes_offset_map = None /\ fermer_offset 40 = 44.
Proof.
  assert (H : lookup (fmt_02d 40) minutes_offset_map = None) by reflexivity.
  split; [exact H|].
  exact (eq_trans (proj1 (proj2 (proj2 fermer_offset_not_centred)) 40 H) eq_refl).
Defined.

(** ** Selection by priority *)

Section Selection.

Variable items : list usb_item.
Hypothesis buttons_answer : Forall (fun item => ingest_clicks item = true) items.

Lemma first_ingested_tier (tier : nat) (criterion : string -> bool) :
  (forall item, criterion (upper (item_text item)) = satisfies tier item) ->
  first_ingested criterion items = find (satisfies tier) items.
Proof.
  intros H. revert buttons_answer.
  induction items as [|item rest IH]; intros Hc; simpl; [reflexivity|].
  inversion Hc as [|? ? Hitem Hrest]; subst.
  rewrite Hitem, andb_true_r, H, (IH Hrest). reflexivity.
Qed.

End Selection.

Lemma find_first {A} (f : A -> bool) (l : list A) (x : A) :
  find f l = Some x ->
  exists before after,
    l = (before ++ x :: after)%list /\ f x = true /\
    forall y, In y before -> f y = false.
Proof.
  induction l as [|a l IH]; simpl; [discriminate|].
  destruct (f a) eqn:Ha.
  - intros E. injection E as ->. exists [], l. repeat split; auto. intros y [].
  - intros E. destruct (IH E) as [before [after [-> [Hx Hb]]]].
    exists (a :: before), after. repeat split; auto.
    intros y [<-|Hy]; auto.
Qed.

Lemma select_by_priority_find (items : list usb_item) :
  Forall (fun item => ingest_clicks item = true) items ->
  select_by_priority items =
  match find (satisfies 1) items with Some i => Some i | None =>
  match find (satisfies 2) items with Some i => Some i | None =>
  match find (satisfies 3) items with Some i => Some i | None =>
  match find (satisfies 4) items with Some i => Some i | None =>
  match find (satisfies 5) items with Some i => Some i | None =>
  find (satisfies 6) items end end end end end.
Proof.
  intros H. unfold select_by_priority.
  rewrite (first_ingested_tier items H 1), (first_ingested_tier items H 2),
    (first_ingested_tier items H 3), (first_ingested_tier items H 4),
    (first_ingested_tier items H 5), (first_ingested_tier items H 6);
    reflexivity.
Qed.

Lemma satisfies_range (tier : nat) (item : usb_item) :
  satisfies tier item = true -> (1 <= tier <= 6)%nat.
Proof.
  do 7 (destruct tier as [|tier]; [simpl; try discriminate; lia|]).
  discriminate.
Qed.

(** The chosen row is the first row of the earliest tier that some row
    satisfies. *)
Lemma select_by_priority_some (items : list usb_item) (item : usb_item) :
  Forall (fun item => ingest_clicks item = true) items ->
  select_by_priority items = Some item ->
  exists tier before after,
    (1 <= tier <= 6)%nat /\ items = (before ++ item :: after)%list /\
    satisfies tier item = true /\
    (forall x, In x before -> satisfies tier x = false) /\
    (forall t x, (t < tier)%nat -> In x items -> satisfies t x = false).
Proof.
  intros H. rewrite (select_by_priority_find items H).
  assert (Hlow : forall t x, (t < 1)%nat -> In x items -> satisfies t x = false).
  { intros t x Ht _. replace t with 0%nat by lia. reflexivity. }
  assert (Hstep : forall n, (forall t x, (t < n)%nat -> In x items -> satisfies t x = false) ->
                       find (satisfies n) items = None ->
                       forall t x, (t < S n)%nat -> In x items -> satisfies t x = false).
  { intros n Hn Hf t x Ht Hx. destruct (Nat.eq_dec t n) as [->|Hne].
    - exact (find_none _ _ Hf x Hx).
    - apply Hn; [lia | exact Hx]. }
  assert (Hhit : forall n, (1 <= n <= 6)%nat ->
                      (forall t x, (t < n)%nat -> In x items -> satisfies t x = false) ->
                      find (satisfies n) items = Some item ->
                      exists tier before after,
                        (1 <= tier <= 6)%nat /\ items = (before ++ item :: after)%list /\
                        satisfies tier item = true /\
                        (forall x, In x before -> satisfies tier x = false) /\
                        (forall t x, (t < tier)%nat -> In x items -> satisfies t x = false)).
  { intros n Hr Hn Hf. destruct (find_first _ _ _ Hf) as [before [after [E [Hs Hb]]]].
    exists n, before, after. auto. }
  destruct (find (satisfies 1) items) eqn:F1.
  { intros E. injection E as ->. apply (Hhit 1%nat); auto; lia. }
  pose proof (Hstep 1%nat Hlow F1) as L2.
  destruct (find (satisfies 2) items) eqn:F2.
  { intros E. injection E as ->. apply (Hhit 2%nat); auto; lia. }
  pose proof (Hstep 2%nat L2 F2) as L3.
  destruct (find (satisfies 3) items) eqn:F3.
  { intros E. injection E as ->. apply (Hhit 3%nat); auto; lia. }
  pose proof (Hstep 3%nat L3 F3) as L4.
  destruct (find (satisfies 4) items) eqn:F4.
  { intros E. injection E as ->. apply (Hhit 4%nat); auto; lia. }
  pose proof (Hstep 4%nat L4 F4) as L5.
  destruct (find (satisfies 5) items) eqn:F5.
  { intros E. injection E as ->. apply (Hhit 5%nat); auto; lia. }
  pose proof (Hstep 5%nat L5 F5) as L6.
  intros F6. apply (Hhit 6%nat); auto; lia.
Qed.

Lemma select_by_priority_none (items : list usb_item) :
  Forall (fun item => ingest_clicks item = true) items ->
  (select_by_priority items = None <->
   forall t x, In x items -> satisfies t x = false).
Proof.
  intros H. rewrite (select_by_priority_find items H). split.
  - intros E t x Hx.
    destruct (find (satisfies 1) items) eqn:F1; [discriminate|].
    destruct (find (satisfies 2) items) eqn:F2; [discriminate|].
    destruct (find (satisfies 3) items) eqn:F3; [discriminate|].
    destruct (find (satisfies 4) items) eqn:F4; [discriminate|].
    destruct (find (satisfies 5) items) eqn:F5; [discriminate|].
    destruct (satisfies t x) eqn:Hs; [|reflexivity].
    pose proof (satisfies_range t x Hs) as Hr.
    assert (Ht : (t = 1 \/ t = 2 \/ t = 3 \/ t = 4 \/ t = 5 \/ t = 6)%nat) by lia.
    rewrite <- Hs.
    destruct Ht as [-> | [-> | [-> | [-> | [-> | ->]]]]];
      eapply find_none; eauto.
  - intros Hall.
    assert (Hf : forall t, find (satisfies t) items = None).
    { intros t. destruct (find (satisfies t) items) eqn:F; [|reflexivity].
      apply find_some in F as [Hin Hs]. rewrite (Hall t u Hin) in Hs. discriminate. }
    now rewrite !Hf.
Qed.

(** C2.  With no target title, on a list whose ingest buttons answer, the
    selection goes through the six tiers in order, scans the whole list from
    the top for each, and takes the first row of the earliest tier that some
    row satisfies; it fails exactly when no row satisfies any tier.  A row
    that only reaches tier 5, listed before a row of tier 1, is passed over
    for the latter. *)
Theorem select_first_of_earliest_tier (page : usb_page) :
  page_loads page = true ->
  Forall (fun item => ingest_clicks item = true) (all_items page) ->
  let result := select_qfc_from_usb page None in
  (selected result = true ->
   exists tier item before after,
     (1 <= tier <= 6)%nat /\
     all_items page = (before ++ item :: after)%list /\
     satisfies tier item = true /\
     (forall x, In x before -> satisfies tier x = false) /\
     (forall t x, (t < tier)%nat -> In x (all_items page) -> satisfies t x = false) /\
     result = imported item) /\
  (selected result = false <->
   forall t x, In x (all_items page) -> satisfies t x = false) /\
  (forall itemTier5 itemTier1,
     satisfies 5 itemTier5 = true ->
     (forall t, (t < 5)%nat -> satisfies t itemTier5 = false) ->
     satisfies 1 itemTier1 = true ->
     all_items page = [itemTier5; itemTier1] ->
     result = imported itemTier1).
Proof.
  intros Hload Hclick result. subst result. unfold select_qfc_from_usb.
  rewrite Hload. cbn [negb].
  split; [|split].
  - destruct (select_by_priority (all_items page)) as [item|] eqn:E;
      [|discriminate].
    intros _.
    destruct (select_by_priority_some _ _ Hclick E)
      as [tier [before [after [Hr [Hsplit [Hs [Hb Hlow]]]]]]].
    exists tier, item, before, after. auto 10.
  - rewrite <- (select_by_priority_none _ Hclick).
    destruct (select_by_priority (all_items page)); simpl; split;
      congruence.
  - intros item5 item1 H5 Hlow H1 Hitems.
    rewrite (select_by_priority_find _ Hclick), Hitems. cbn [find].
    rewrite (Hlow 1%nat), H1 by lia. reflexivity.
Qed.

Lemma select_first_of_earliest_tier_witness :
  select_qfc_from_usb
    (Sample.usb_list [Sample.row "ALPHA_FTR_S_QFC_OCAP_2K"; Sample.row Sample.mercy]) None
  = imported (Sample.row Sample.mercy).
Proof.
  refine (proj2 (proj2 (select_first_of_earliest_tier
            (Sample.usb_list [Sample.row "ALPHA_FTR_S_QFC_OCAP_2K"; Sample.row Sample.mercy])
            eq_refl _)) (Sample.row "ALPHA_FTR_S_QFC_OCAP_2K") (Sample.row Sample.mercy)
            eq_refl _ eq_refl eq_refl).
  - repeat constructor.
  - intros t Ht. do 5 (destruct t as [|t]; [reflexivity|]). lia.
Defined.

(** ** Title extraction *)

Lemma split_char_first_line (s : string) : fst (split_char LF s) = first_line s.
Proof.
  induction s as [|c s IH]; [reflexivity|].
  cbn [split_char first_line].
  destruct (split_char LF s) as [hd tl]. cbn [fst] in IH.
  destruct (Ascii.eqb c LF); cbn [fst]; [reflexivity | now rewrite IH].
Qed.

Lemma first_line_without_lf (s : string) :
  str_in (String LF "") s = false -> first_line s = s.
Proof.
  induction s as [|c s IH]; [reflexivity|].
  cbn [str_in startswith first_line].
  rewrite andb_true_r, Ascii.eqb_sym.
  destruct (Ascii.eqb c LF); cbn [orb]; [discriminate|].
  intros H. now rewrite IH.
Qed.

Lemma first_line_of_text (text : string) :
  (if str_in (String LF "") text then fst (split_char LF text) else text)
  = first_line text.
Proof.
  destruct (str_in (String LF "") text) eqn:E.
  - apply split_char_first_line.
  - symmetry. now apply first_line_without_lf.
Qed.

Lemma match_len_plus_cons (cls : ascii -> bool) (p : pattern) (x : ascii) (s : string) :
  match_len (Plus cls :: p) (String x s) =
  if cls x
  then match match_len (Plus cls :: p) s with
       | Some n => Some (S n)
       | None => option_map S (match_len p s)
       end
  else None.
Proof. reflexivity. Qed.

Lemma match_len_alnum (s : string) :
  match_len [Plus is_alnum] s =
  match leading_run s with
  | EmptyString => None
  | run => Some (String.length run)
  end.
Proof.
  induction s as [|c s IH]; [reflexivity|].
  rewrite match_len_plus_cons, IH. simpl leading_run.
  destruct (is_alnum c); [|reflexivity].
  destruct (leading_run s); reflexivity.
Qed.

Lemma take_leading_run (s : string) :
  take (String.length (leading_run s)) s = leading_run s.
Proof.
  induction s as [|c s IH]; simpl; [reflexivity|].
  destruct (is_alnum c); simpl; [now rewrite IH | reflexivity].
Qed.

(** [re.match(r'^([A-Za-z0-9]+)', text)] finds the leading run of letters and
    digits, when there is one. *)
Lemma re_match_alnum (s : string) :
  re_match [Plus is_alnum] s =
  match leading_run s with
  | EmptyString => None
  | run => Some run
  end.
Proof.
  unfold re_match. rewrite match_len_alnum.
  pose proof (take_leading_run s) as H.
  destruct (leading_run s); [reflexivity|]. cbn [option_map]. now rewrite H.
Qed.

Lemma mem_separator (c : ascii) : mem_char c "_-" = is_separator c.
Proof. unfold is_separator. simpl. now rewrite orb_false_r. Qed.

(** [re.split(r'[_-]', name)[0]] is the text before the first separator. *)
Lemma re_split_first_segment (s : string) :
  re_split_first [set "_-"] s = first_segment s.
Proof.
  unfold first_segment.
  induction s as [|c s IH]; [reflexivity|].
  cbn [re_split_first match_len set]. rewrite mem_separator.
  cbn [segments_from]. destruct (segments_from s) as [hd tl].
  destruct (is_separator c); simpl; [reflexivity|].
  simpl in IH. now rewrite IH.
Qed.

Lemma replace_separators (s : string) :
  replace_char "-" " " (replace_char "_" " " s) = separators_to_spaces s.
Proof.
  unfold replace_char, separators_to_spaces, is_separator.
  induction s as [|c s IH]; simpl; [reflexivity|].
  rewrite IH. f_equal.
  destruct (Ascii.eqb_spec c "_") as [->|]; [reflexivity|].
  destruct (Ascii.eqb c "-"); reflexivity.
Qed.

Lemma words_from_grows (s cur : string) : cur <> "" -> words_from cur s <> [].
Proof.
  revert cur; induction s as [|c s IH]; intros cur Hc; simpl.
  - destruct cur; [contradiction | discriminate].
  - destruct (is_space c).
    + destruct cur; [contradiction | discriminate].
    + apply IH. destruct cur; discriminate.
Qed.

Lemma split_ws_lstrip (s : string) : split_ws (lstrip_by is_space s) = split_ws s.
Proof.
  unfold split_ws. induction s as [|c s IH]; simpl; [reflexivity|].
  destruct (is_space c) eqn:E; [exact IH|]. simpl. now rewrite E.
Qed.

Lemma words_from_cons (cur : string) (c : ascii) (s : string) :
  words_from cur (String c s) =
  if is_space c
  then match cur with
       | EmptyString => words_from EmptyString s
       | _ => cur :: words_from EmptyString s
       end
  else words_from (cur ++ String c EmptyString) s.
Proof. reflexivity. Qed.

Lemma words_from_rstrip (s cur : string) :
  words_from cur (rstrip_by is_space s) = words_from cur s.
Proof.
  revert cur; induction s as [|c s IH]; intros cur; [reflexivity|].
  cbn [rstrip_by]. rewrite (words_from_cons cur c s).
  destruct (rstrip_by is_space s) as [|d r].
  - destruct (is_space c) eqn:Ec.
    + rewrite <- (IH ""). destruct cur; reflexivity.
    + rewrite words_from_cons, Ec. now rewrite <- IH.
  - rewrite words_from_cons. destruct (is_space c).
    + now rewrite (IH "").
    + now rewrite IH.
Qed.

Lemma split_ws_strip (s : string) : split_ws (strip s) = split_ws s.
Proof.
  unfold strip, split_ws. rewrite words_from_rstrip. apply split_ws_lstrip.
Qed.

Lemma lstrip_head (s : string) :
  match lstrip_by is_space s with
  | EmptyString => True
  | String c _ => is_space c = false
  end.
Proof.
  induction s as [|c s IH]; simpl; [exact I|].
  destruct (is_space c) eqn:E; [exact IH | exact E].
Qed.

Lemma rstrip_head (s : string) :
  match rstrip_by is_space s with
  | EmptyString => True
  | String c _ => exists s', s = String c s'
  end.
Proof.
  destruct s as [|c s]; simpl; [exact I|].
  destruct (rstrip_by is_space s); [destruct (is_space c)|]; simpl; eauto.
Qed.

Lemma strip_truthy_words (s : string) :
  truthy (strip s) = true -> split_ws s <> [].
Proof.
  rewrite <- split_ws_strip. unfold strip.
  pose proof (lstrip_head s) as Hl.
  pose proof (rstrip_head (lstrip_by is_space s)) as Hr.
  destruct (rstrip_by is_space (lstrip_by is_space s)) as [|c r]; [discriminate|].
  intros _. destruct Hr as [s' Hs]. rewrite Hs in Hl.
  unfold split_ws. simpl. rewrite Hl. apply words_from_grows. discriminate.
Qed.

(** The fall-back of [extract_film_name] is the first word, or the sentinel. *)
Lemma fallback_first_word (rest : string) :
  (let film_name := strip (replace_char "-" " " (replace_char "_" " " rest)) in
   if truthy film_name
   then title match split_ws film_name with w :: _ => w | [] => film_name end
   else "Film")
  = first_word_or_film rest.
Proof.
  cbv zeta. unfold first_word_or_film. rewrite replace_separators.
  set (spaced := separators_to_spaces rest).
  destruct (truthy (strip spaced)) eqn:E.
  - rewrite split_ws_strip. pose proof (strip_truthy_words spaced E) as H.
    destruct (split_ws spaced); [contradiction | reflexivity].
  - rewrite <- (split_ws_strip spaced).
    destruct (strip spaced); [reflexivity | discriminate].
Qed.

Lemma truthy_length (s : string) :
  truthy s && (2 <=? String.length s)%nat = (2 <=? String.length s)%nat.
Proof. destruct s; reflexivity. Qed.

Lemma extract_film_name_unfold (text : string) :
  extract_film_name text =
  let line := first_line (strip text) in
  let run := leading_run line in
  let rest := strip_codes line in
  let seg := first_segment rest in
  if (3 <=? String.length run)%nat then title run
  else if (2 <=? String.length seg)%nat then title seg
  else first_word_or_film rest.
Proof.
  unfold extract_film_name. cbv zeta.
  rewrite first_line_of_text, re_match_alnum.
  set (line := first_line (strip text)).
  assert (E : (match
                 match leading_run line with
                 | "" => None
                 | String a s => Some (String a s)
                 end
               with
               | Some film_name =>
                   if (3 <=? String.length film_name)%nat
                   then Some (title film_name) else None
               | None => None
               end) =
              if (3 <=? String.length (leading_run line))%nat
              then Some (title (leading_run line)) else None).
  { destruct (leading_run line); reflexivity. }
  rewrite E. clear E.
  destruct (3 <=? String.length (leading_run line))%nat; [reflexivity|].
  fold (strip_codes line).
  rewrite re_split_first_segment, truthy_length.
  destruct (2 <=? String.length (first_segment (strip_codes line)))%nat;
    [reflexivity|].
  apply fallback_first_word.
Qed.

(** C6, amended.  On the first line of the input, taken after the white
    space around the input is removed, the extractor returns the title-cased
    leading run of letters and digits when the run has at least 3
    characters; otherwise it strips the technical codes in their fixed
    order and returns the title-cased segment that stands before the first
    underscore or hyphen when that segment has at least 2 characters;
    otherwise it returns the title-cased first word once the separators are
    spaces, or "Film" when there is no word.  The sample name gives
    "Mercy". *)
Theorem extract_film_name_steps (text : string) :
  let line := first_line (strip text) in
  let run := leading_run line in
  let rest := strip_codes line in
  let seg := first_segment rest in
  ((3 <= String.length run)%nat -> extract_film_name text = title run) /\
  ((String.length run < 3)%nat -> (2 <= String.length seg)%nat ->
   extract_film_name text = title seg) /\
  ((String.length run < 3)%nat -> (String.length seg < 2)%nat ->
   forall w ws, split_ws (separators_to_spaces rest) = w :: ws ->
   extract_film_name text = title w) /\
  ((String.length run < 3)%nat -> (String.length seg < 2)%nat ->
   split_ws (separators_to_spaces rest) = [] ->
   extract_film_name text = "Film") /\
  extract_film_name Sample.mercy = "Mercy".
Proof.
  intros line run rest seg.
  pose proof (extract_film_name_unfold text) as E. cbv zeta in E.
  fold line in E. fold run in E. fold rest in E. fold seg in E.
  split; [|split; [|split; [|split]]].
  - intros H. apply Nat.leb_le in H. now rewrite E, H.
  - intros H1 H2. apply Nat.leb_gt in H1. apply Nat.leb_le in H2.
    now rewrite E, H1, H2.
  - intros H1 H2 w ws Hw. apply Nat.leb_gt in H1, H2.
    rewrite E, H1, H2. unfold first_word_or_film. now rewrite Hw.
  - intros H1 H2 Hw. apply Nat.leb_gt in H1, H2.
    rewrite E, H1, H2. unfold first_word_or_film. now rewrite Hw.
  - vm_compute. reflexivity.
Qed.

Lemma extract_film_name_steps_witness :
  (String.length (leading_run (first_line (strip "_ab cd"))) < 3)%nat /\
  (String.length (first_segment (strip_codes (first_line (strip "_ab cd")))) < 2)%nat /\
  extract_film_name "_ab cd" = title "ab".
Proof.
  assert (H1 : (String.length (leading_run (first_line (strip "_ab cd"))) < 3)%nat)
    by (vm_compute; lia).
  assert (H2 : (String.length (first_segment (strip_codes (first_line (strip "_ab cd")))) < 2)%nat)
    by (vm_compute; lia).
  split; [exact H1 | split; [exact H2 |]].
  exact (proj1 (proj2 (proj2 (extract_film_name_steps "_ab cd"))) H1 H2 "ab" ["cd"] eq_refl).
Defined.

(** C6, as stated, fails: the code takes the segment before the first
    separator, not the first non-empty one, and removes the white space
    around the input before it takes the first line. *)
Lemma extract_film_name_not_as_specified :
  extract_film_name "_ab cd" <> extract_as_specified "_ab cd" /\
  extract_film_name "_ab cd" = "Ab" /\
  extract_as_specified "_ab cd" = "Ab Cd" /\
  extract_film_name (String LF "Mercy") = "Mercy" /\
  extract_as_specified (String LF "Mercy") = "Film".
Proof. split; [discriminate | repeat split]. Qed.

(** ** The copy to several days *)

Lemma cell_found_text (jour_num : Z) (cells : list calendar_cell) :
  cell_found jour_num cells = true ->
  exists cell,
    In cell cells /\ selectable cell = true /\ strip (cell_text cell) = str jour_num.
Proof.
  induction cells as [|cell rest IH]; [discriminate|].
  cbn [cell_found In]. unfold selectable.
  assert (Hrest : cell_found jour_num rest = true ->
                  exists c, (cell = c \/ In c rest) /\ selectable c = true /\
                            strip (cell_text c) = str jour_num).
  { intros H. destruct (IH H) as [c [Hin Hc]]. exists c. auto. }
  destruct (cell_stale cell) eqn:Es; [exact Hrest|].
  destruct (_ || _ || _ || _) eqn:Ec; [exact Hrest|].
  destruct (String.eqb_spec (strip (cell_text cell)) (str jour_num)) as [E|_];
    [|exact Hrest].
  intros _. exists cell. unfold selectable. rewrite Es, Ec. auto.
Qed.

Lemma select_days_found (m : copy_modal) (targets trouves : list Z) (j : Z) :
  In j (select_days m trouves targets) ->
  In j trouves \/
  (In j targets /\ exists before, cell_found j (day_cells m before) = true).
Proof.
  revert trouves; induction targets as [|t targets IH]; intros trouves; simpl.
  - auto.
  - destruct (cell_found t (day_cells m trouves)) eqn:E; intros H;
      destruct (IH _ H) as [Hin | [Hin Hc]]; auto.
    apply in_app_or in Hin as [Hin | [<- | []]]; eauto.
Qed.

(** C9, amended.  The copy reports success exactly when every step of its
    dialog answers and at least one of the target days could be selected in
    the calendar; it selects target days only, and a selection that leaves
    some targets out is confirmed all the same.  With no selected day it
    fails. *)
Theorem copy_succeeds_with_some_day (m : copy_modal) (vendredi_index : nat)
  (targets : list Z) :
  let result := _copy_vendredi_to_days m vendredi_index targets in
  (fst result = true <->
   dialog_answers m vendredi_index = true /\ select_days m [] targets <> []) /\
  (fst result = true -> snd result = select_days m [] targets) /\
  (forall j, In j (snd result) -> In j targets) /\
  (select_days m [] targets = [] -> fst result = false).
Proof.
  cbv zeta. unfold _copy_vendredi_to_days, dialog_answers.
  assert (Hsub : forall j, In j (select_days m [] targets) -> In j targets).
  { intros j H. destruct (select_days_found _ _ _ _ H) as [[] | [Hin _]]. exact Hin. }
  rewrite Nat.leb_antisym.
  destruct (vendredi_index <? headers_found m)%nat, (dropdown_opens m),
    (copy_day_clicks m), (modal_opens m);
    cbn [negb andb fst snd In];
    try (repeat split; intros; try discriminate; try tauto; easy).
  destruct (select_days m [] targets) as [|d l]; cbn [fst snd In].
  { repeat split; intros; try discriminate; try tauto; easy. }
  destruct (ok_clicks m); cbn [fst snd];
    repeat split; intros; try discriminate; try tauto; try easy.
  all: now apply Hsub.
Qed.

Lemma copy_succeeds_with_some_day_witness :
  fst (_copy_vendredi_to_days (Sample.january 30) 4 [31; 32; 35; 36]) = true /\
  snd (_copy_vendredi_to_days (Sample.january 30) 4 [31; 32; 35; 36]) = [31].
Proof.
  assert (H : fst (_copy_vendredi_to_days (Sample.january 30) 4 [31; 32; 35; 36]) = true)
    by reflexivity.
  split; [exact H|].
  exact (eq_trans
           (proj1 (proj2 (copy_succeeds_with_some_day (Sample.january 30) 4 [31; 32; 35; 36])) H)
           eq_refl).
Defined.

(** C9, as stated, fails: on the calendar of January the copy towards the
    days 31, 32, 35 and 36 selects day 31 alone and reports success. *)
Lemma copy_succeeds_without_all_days :
  ~ (forall m vendredi_index targets,
       fst (_copy_vendredi_to_days m vendredi_index targets) = true ->
       forall j, In j targets ->
                 In j (snd (_copy_vendredi_to_days m vendredi_index targets))).
Proof.
  intros H.
  specialize (H (Sample.january 30) 4%nat [31; 32; 35; 36] eq_refl 32).
  assert (Hin : In 32 [31; 32; 35; 36]) by (simpl; auto).
  specialize (H Hin). vm_compute in H.
  destruct H as [H | []]. discriminate.
Qed.

(** ** The weekly schedule *)

Lemma make_datetime_day (y m d : Z) (a : datetime) :
  make_datetime y m d = Some a -> year a = y /\ month a = m /\ day a = d.
Proof.
  unfold make_datetime. destruct (_ && _); [|discriminate].
  intros E. injection E as <-. auto.
Qed.

Lemma make_datetime_valid (y m d : Z) (a : datetime) :
  make_datetime y m d = Some a -> 1 <= d <= days_in_month y m.
Proof.
  unfold make_datetime. destruct (_ && _) eqn:E; [|discriminate]. intros _.
  repeat (apply andb_true_iff in E as [E ?]). lia.
Qed.

(** The day that [schedule_seances] reads in [date_debut] is the day of the
    parsed date. *)
Lemma parse_date_first_field (text : string) (a : datetime) :
  parse_date text = Some a -> int (fst (split_char "/" text)) = Some (day a).
Proof.
  unfold parse_date, split. destruct (split_char "/" text) as [p0 tl]. cbn [fst].
  destruct tl as [|p1 [|p2 tl]]; try discriminate.
  destruct (int p2) as [y|]; [|discriminate].
  destruct (int p1) as [m|]; [|discriminate].
  destruct (int p0) as [d|]; [|discriminate].
  intros H. apply make_datetime_day in H as [_ [_ ->]]. reflexivity.
Qed.

Lemma seances_aprem_are_seances salle_is_2 debut fin heure minutes views index headers e :
  In e (seances_aprem salle_is_2 debut fin heure minutes views index headers) ->
  exists i ok actions, e = Seance i heure minutes ok actions.
Proof.
  revert index; induction headers as [|header rest IH]; intros index;
    cbn [seances_aprem]; [intros []|].
  destruct (nth_error views index) as [view|]; [|apply IH].
  destruct (p_day header) as [d|]; [|apply IH].
  destruct (p_date header) as [t|]; [|apply IH].
  destruct (any_in noms_aprem (strip (lower d))); [|apply IH].
  destruct (in_range debut fin (strip t)) as [[|]|]; try apply IH.
  destruct (_add_seance_at_hour salle_is_2 view heure minutes) as [ok actions].
  intros [<- | H]; [eauto | now apply IH in H].
Qed.

(** The attempts of the afternoon depend on the headers and on how many day
    views there are, not on what the views answer. *)
Lemma seances_aprem_attempts salle1 salle2 debut fin heure minutes views1 views2 headers :
  List.length views1 = List.length views2 ->
  forall index,
    map attempt_of (seances_aprem salle1 debut fin heure minutes views1 index headers) =
    map attempt_of (seances_aprem salle2 debut fin heure minutes views2 index headers).
Proof.
  intros Hlen. induction headers as [|header rest IH]; intros index;
    cbn [seances_aprem]; [reflexivity|].
  destruct (nth_error views1 index) as [v1|] eqn:E1,
           (nth_error views2 index) as [v2|] eqn:E2.
  - destruct (p_day header) as [d|]; [|apply IH].
    destruct (p_date header) as [t|]; [|apply IH].
    destruct (any_in noms_aprem (strip (lower d))); [|apply IH].
    destruct (in_range debut fin (strip t)) as [[|]|]; try apply IH.
    destruct (_add_seance_at_hour salle1 v1 heure minutes) as [ok1 a1].
    destruct (_add_seance_at_hour salle2 v2 heure minutes) as [ok2 a2].
    simpl. now rewrite IH.
  - apply nth_error_None in E2. assert (nth_error views1 index <> None) by congruence.
    apply nth_error_Some in H. lia.
  - apply nth_error_None in E1. assert (nth_error views2 index <> None) by congruence.
    apply nth_error_Some in H. lia.
  - apply IH.
Qed.

(** The shape of a run of [schedule_seances] that gets to the evening show. *)
Lemma schedule_seances_events salle_is_2 s minutes date_debut date_fin e :
  In e (snd (schedule_seances salle_is_2 s minutes date_debut date_fin)) ->
  (exists i hour mins ok actions, e = Seance i hour mins ok actions) \/
  (exists debut_dt copier i nums ok trouves,
     parse_bound date_debut = Some debut_dt /\
     jours_nums date_debut debut_dt copier = Some nums /\
     e = CopyDays i nums ok trouves).
Proof.
  unfold schedule_seances.
  destruct (scheduler_opens s); cbn [negb]; [|intros []].
  destruct (heures minutes) as [[[heure_soir minutes_soir] heure_aprem] minutes_aprem].
  destruct (parse_bound date_debut) as [debut_dt|] eqn:Ed; [|intros []].
  destruct (parse_bound date_fin) as [fin_dt|]; [|intros []].
  destruct (find_vendredi debut_dt 0 (day_headers s)) as [[vi vd]|]; [|intros []].
  destruct (nth_error (day_views s) vi) as [view|]; [|intros []].
  destruct (_add_seance_at_hour salle_is_2 view heure_soir minutes_soir) as [ok actions].
  destruct (jours_nums date_debut debut_dt _) as [nums|] eqn:En.
  - cbn [snd]. intros [<- | H]; [left; eauto 6|].
    apply in_app_or in H as [H | H].
    + right. destruct nums as [|n nums]; [destruct H|].
      destruct (_copy_vendredi_to_days (copy_dialog s) vi (n :: nums)) as [okc trouves].
      destruct H as [<- | []]. eauto 10.
    + left. apply seances_aprem_are_seances in H as [i [ok' [a' ->]]]. eauto 6.
  - cbn [snd]. intros [<- | []]. left; eauto 6.
Qed.

(** The calendar loop finds a day exactly when a selectable cell carries its
    number as text. *)
Lemma cell_found_iff (jour_num : Z) (cells : list calendar_cell) :
  cell_found jour_num cells = true <->
  exists cell,
    In cell cells /\ selectable cell = true /\ strip (cell_text cell) = str jour_num.
Proof.
  split; [apply cell_found_text|].
  induction cells as [|cell rest IH]; intros (c & Hin & Hsel & Htext); [destruct Hin|].
  cbn [cell_found].
  assert (Hrest : c <> cell -> cell_found jour_num rest = true).
  { intros Hne. apply IH. exists c. destruct Hin as [-> | Hin]; [congruence|auto]. }
  destruct (cell_stale cell) eqn:Es.
  { apply Hrest. intros ->. unfold selectable in Hsel. rewrite Es in Hsel. discriminate. }
  destruct (_ || _ || _ || _) eqn:Ec.
  { apply Hrest. intros ->. unfold selectable in Hsel. rewrite Es, Ec in Hsel.
    discriminate. }
  destruct (String.eqb (strip (cell_text cell)) (str jour_num)) eqn:Et; [reflexivity|].
  apply Hrest. intros ->. rewrite Htext, String.eqb_refl in Et. discriminate.
Qed.

(** The selection goes through the targets in order, carrying the days
    selected so far. *)
Lemma select_days_app (m : copy_modal) (l1 l2 trouves : list Z) :
  select_days m trouves (l1 ++ l2) = select_days m (select_days m trouves l1) l2.
Proof.
  revert trouves. induction l1 as [|j l1 IH]; intros trouves; cbn [select_days app];
    [reflexivity|].
  destruct (cell_found j (day_cells m trouves)); apply IH.
Qed.

(** What a copy event records is the answer of [_copy_vendredi_to_days]. *)
Lemma schedule_seances_copy_outcome salle_is_2 s minutes date_debut date_fin
  i nums ok trouves :
  In (CopyDays i nums ok trouves)
     (snd (schedule_seances salle_is_2 s minutes date_debut date_fin)) ->
  (ok, trouves) = _copy_vendredi_to_days (copy_dialog s) i nums.
Proof.
  unfold schedule_seances.
  destruct (scheduler_opens s); cbn [negb]; [|intros []].
  destruct (heures minutes) as [[[heure_soir minutes_soir] heure_aprem] minutes_aprem].
  destruct (parse_bound date_debut) as [debut_dt|]; [|intros []].
  destruct (parse_bound date_fin) as [fin_dt|]; [|intros []].
  destruct (find_vendredi debut_dt 0 (day_headers s)) as [[vi vd]|]; [|intros []].
  destruct (nth_error (day_views s) vi) as [view|]; [|intros []].
  destruct (_add_seance_at_hour salle_is_2 view heure_soir minutes_soir) as [ok' actions].
  destruct (jours_nums date_debut debut_dt _) as [nums'|]; cbn [snd].
  - intros [H | H]; [discriminate|].
    apply in_app_or in H as [H | H].
    + destruct nums' as [|n nums']; [destruct H|].
      destruct (_copy_vendredi_to_days (copy_dialog s) vi (n :: nums'))
        as [okc tr] eqn:Ec.
      destruct H as [H | []]. injection H as <- <- <- <-. symmetry. exact Ec.
    + apply seances_aprem_are_seances in H as (j & o & a & H). discriminate.
  - intros [H | []]. discriminate.
Qed.

(** C10.  When a start date is given, the days handed to the copy are the
    day of the month of the start date plus 1, 2, 5 and 6, as plain integers,
    and what the copy event records is the answer of the copy to these days.
    The calendar matches a day by the text of its cells: a day is found
    exactly when a selectable cell carries that number as text, and the
    selection takes the targets in order, adding each one exactly when it is
    found in the calendar as it then stands.  So for a start date within six
    days of the end of its month, on a calendar that shows the days of that
    month, a computed target exceeds the last day of the month and is not
    selected.  A start on the 30th gives the targets 31, 32, 35 and 36, of
    which the calendar of January selects 31 alone. *)
Theorem copy_targets_by_integer_addition :
  (forall salle_is_2 s minutes text date_fin i nums ok trouves,
     truthy text = true ->
     In (CopyDays i nums ok trouves)
        (snd (schedule_seances salle_is_2 s minutes (Some text) date_fin)) ->
     (exists anchor,
        parse_date text = Some anchor /\
        nums = [day anchor + 1; day anchor + 2; day anchor + 5; day anchor + 6]) /\
     (ok, trouves) = _copy_vendredi_to_days (copy_dialog s) i nums) /\
  (forall j cells,
     cell_found j cells = true <->
     exists cell,
       In cell cells /\ selectable cell = true /\ strip (cell_text cell) = str j) /\
  (forall m before j,
     select_days m [] [] = [] /\
     select_days m [] (before ++ [j]) =
     (select_days m [] before ++
      (if cell_found j (day_cells m (select_days m [] before)) then [j] else []))%list) /\
  (forall m targets j,
     In j (select_days m [] targets) ->
     In j targets /\
     exists before cell,
       In cell (day_cells m before) /\ selectable cell = true /\
       strip (cell_text cell) = str j) /\
  (forall y mo d anchor m,
     make_datetime y mo d = Some anchor ->
     days_in_month y mo < d + 6 ->
     shows_month m (days_in_month y mo) ->
     exists t,
       In t [d + 1; d + 2; d + 5; d + 6] /\
       days_in_month y mo < t /\
       ~ In t (select_days m [] [d + 1; d + 2; d + 5; d + 6])) /\
  snd (schedule_seances false (Sample.page Sample.week 30) "00"
                        (Some "30/01/2026") (Some "05/02/2026"))
  = [Seance 4 18 "50" true
       [ClickLine 18 10 22; OpenShowList; ChooseShow (-1); ConfirmShow;
        ClickLine 21 10 (-34); OpenShowList; ChooseShow 1; ConfirmShow];
     CopyDays 4 [31; 32; 35; 36] true [31];
     Seance 5 12 "50" true
       [ClickLine 12 10 22; OpenShowList; ChooseShow (-1); ConfirmShow;
        ClickLine 15 10 (-34); OpenShowList; ChooseShow 1; ConfirmShow];
     Seance 6 12 "50" true
       [ClickLine 12 10 22; OpenShowList; ChooseShow (-1); ConfirmShow;
        ClickLine 15 10 (-34); OpenShowList; ChooseShow 1; ConfirmShow]] /\
  map attempt_of
      (snd (schedule_seances false (Sample.page Sample.week 30) "00"
                             (Some "30/01/2026") (Some "05/02/2026")))
  = [Place 4 18 "50"; CopyTo 4 [31; 32; 35; 36]; Place 5 12 "50"; Place 6 12 "50"].
Proof.
  assert (Hsel : forall m targets j,
             In j (select_days m [] targets) ->
             In j targets /\
             exists before cell,
               In cell (day_cells m before) /\ selectable cell = true /\
               strip (cell_text cell) = str j).
  { intros m targets j H.
    destruct (select_days_found _ _ _ _ H) as [[] | [Hin [before Hc]]].
    split; [exact Hin|].
    destruct (cell_found_text _ _ Hc) as [cell [Hcell Ht]]. eauto. }
  split; [|split; [exact cell_found_iff|split; [|split; [exact Hsel|split; [|split]]]]].
  - intros salle_is_2 s minutes text date_fin i nums ok trouves Ht Hin.
    split; [|exact (schedule_seances_copy_outcome _ _ _ _ _ _ _ _ _ Hin)].
    apply schedule_seances_events in Hin
      as [[? [? [? [? [? E]]]]] | [dt [copier [i' [nums' [ok' [tr' [Hp [Hn E]]]]]]]]];
      [discriminate|].
    injection E as <- <- <- <-.
    unfold parse_bound in Hp. rewrite Ht in Hp.
    destruct (parse_date text) as [anchor|] eqn:Ea; [|discriminate].
    injection Hp as <-. exists anchor. split; [reflexivity|].
    unfold jours_nums in Hn. rewrite (parse_date_first_field _ _ Ea) in Hn.
    now injection Hn as <-.
  - intros m before j. split; [reflexivity|].
    rewrite select_days_app. cbn [select_days].
    destruct (cell_found j (day_cells m (select_days m [] before)));
      [reflexivity|]. symmetry. apply app_nil_r.
  - intros y mo d anchor m Hd Hlate Hshow.
    exists (d + 6). split; [simpl; auto|]. split; [lia|].
    intros Hin. apply Hsel in Hin as [_ [before [cell [Hcell [Hok Htext]]]]].
    destruct (Hshow before cell Hcell Hok) as [k [Hk Hstr]].
    rewrite Htext in Hstr. apply str_inj in Hstr. lia.
  - vm_compute. reflexivity.
  - vm_compute. reflexivity.
Qed.

Lemma january_shows_month (source : Z) : shows_month (Sample.january source) 31.
Proof.
  intros trouves cell Hin Hok. unfold Sample.january in Hin. cbn [day_cells] in Hin.
  apply in_app_or in Hin as [Hin | Hin];
    [|apply in_app_or in Hin as [Hin | Hin]];
    apply in_map_iff in Hin as [k [<- Hk]].
  - revert Hok. simpl in Hk. now repeat (destruct Hk as [<- |Hk]; [discriminate|]).
  - apply in_map_iff in Hk as [n [<- Hn]]. apply in_seq in Hn.
    exists (Z.of_nat n). split; [lia|].
    assert (Hall : forallb (fun n => String.eqb (strip (str (Z.of_nat n)))
                                                (str (Z.of_nat n)))
                           (seq 1 31) = true) by (vm_compute; reflexivity).
    rewrite forallb_forall in Hall.
    destruct (Z.of_nat n =? source); apply String.eqb_eq, Hall, in_seq; lia.
  - revert Hok. simpl in Hk. now repeat (destruct Hk as [<- |Hk]; [discriminate|]).
Qed.

Lemma copy_targets_by_integer_addition_witness :
  cell_found 31 (day_cells (Sample.january 30) []) = true /\
  select_days (Sample.january 30) [] [31] = [31] /\
  exists t, In t [31; 32; 35; 36] /\ 31 < t /\
            ~ In t (select_days (Sample.january 30) [] [31; 32; 35; 36]).
Proof.
  assert (Hcell : exists cell,
            In cell (day_cells (Sample.january 30) []) /\ selectable cell = true /\
            strip (cell_text cell) = str 31).
  { exists (Sample.cell "day" 31). split; [|split; reflexivity].
    cbn [Sample.january day_cells]. apply in_or_app. right. apply in_or_app. left.
    apply in_map_iff. exists 31. split; [reflexivity|].
    apply in_map_iff. exists 31%nat. split; [reflexivity|]. apply in_seq. lia. }
  assert (Hfound : cell_found 31 (day_cells (Sample.january 30) []) = true).
  { exact (proj2 (proj1 (proj2 copy_targets_by_integer_addition) 31 _) Hcell). }
  split; [exact Hfound|]. split.
  - change (select_days (Sample.january 30) [] ([] ++ [31]) = [31]).
    rewrite (proj2 (proj1 (proj2 (proj2 copy_targets_by_integer_addition))
                      (Sample.january 30) [] 31)).
    cbn [select_days]. rewrite Hfound. reflexivity.
  - exact (proj1 (proj2 (proj2 (proj2 (proj2 copy_targets_by_integer_addition))))
             2026 1 30 Sample.anchor (Sample.january 30) eq_refl eq_refl
             (january_shows_month 30)).
Defined.

(** What [schedule_seances] returns and attempts depends on the headers and
    on the number of day views only. *)
Lemma schedule_seances_same_layout salle_is_2 s1 s2 minutes date_debut date_fin :
  same_layout s1 s2 ->
  fst (schedule_seances salle_is_2 s1 minutes date_debut date_fin) =
  fst (schedule_seances salle_is_2 s2 minutes date_debut date_fin) /\
  map attempt_of (snd (schedule_seances salle_is_2 s1 minutes date_debut date_fin)) =
  map attempt_of (snd (schedule_seances salle_is_2 s2 minutes date_debut date_fin)).
Proof.
  intros [Ho [Hh [Hv [Hha Hva]]]]. unfold schedule_seances.
  rewrite <- Ho, <- Hh, <- Hha.
  destruct (scheduler_opens s1); cbn [negb]; [|auto].
  destruct (heures minutes) as [[[heure_soir minutes_soir] heure_aprem] minutes_aprem].
  destruct (parse_bound date_debut) as [debut_dt|]; [|auto].
  destruct (parse_bound date_fin) as [fin_dt|]; [|auto].
  destruct (find_vendredi debut_dt 0 (day_headers s1)) as [[vi vd]|]; [|auto].
  destruct (nth_error (day_views s1) vi) as [v1|] eqn:E1,
           (nth_error (day_views s2) vi) as [v2|] eqn:E2; [| | |auto].
  - destruct (_add_seance_at_hour salle_is_2 v1 heure_soir minutes_soir) as [ok1 a1].
    destruct (_add_seance_at_hour salle_is_2 v2 heure_soir minutes_soir) as [ok2 a2].
    destruct (jours_nums date_debut debut_dt _) as [nums|]; [|auto].
    cbn [fst snd map attempt_of]. split; [reflexivity|].
    rewrite !map_app. f_equal. f_equal.
    + destruct nums as [|n nums]; [reflexivity|].
      destruct (_copy_vendredi_to_days (copy_dialog s1) vi (n :: nums)).
      destruct (_copy_vendredi_to_days (copy_dialog s2) vi (n :: nums)).
      reflexivity.
    + now apply seances_aprem_attempts.
  - apply nth_error_None in E2. assert (nth_error (day_views s1) vi <> None) by congruence.
    apply nth_error_Some in H. lia.
  - apply nth_error_None in E1. assert (nth_error (day_views s2) vi <> None) by congruence.
    apply nth_error_Some in H. lia.
Qed.

Lemma full_workflow_usb_scheduling salle_name salle_is_2 b s film_name format_type
  minutes date_debut date_fin :
  succeeded (full_workflow_usb salle_name salle_is_2 (with_scheduling b s) film_name
               format_type minutes date_debut date_fin) =
  succeeded (full_workflow_usb salle_name salle_is_2 b film_name format_type minutes
               date_debut date_fin).
Proof.
  unfold full_workflow_usb, import_qfc_from_usb, with_scheduling. cbn [browser_starts
    login_ok import_usb_opens usb editor_opens block_selected film_replaced].
  destruct (browser_starts b); cbn [negb]; [|reflexivity].
  destruct (login_ok b); cbn [negb]; [|reflexivity].
  destruct (negb (selected _)); [reflexivity|].
  destruct (editor_opens b); cbn [negb]; [|reflexivity].
  destruct (block_selected b _); cbn [negb]; [|reflexivity].
  destruct (film_replaced b _ _); reflexivity.
Qed.

(** C8.  A placement or a copy that fails does not stop the scheduling: on
    pages that show the same headers and as many day views, the same
    placements and the same copy are attempted, in the same order, whatever
    the dialogs answer, and the result of the scheduling is the same.  The
    result of the workflow does not depend on the scheduler page at all: it
    is decided by the steps before the scheduling (start, login, selection
    and import, editor, block selection, replacement and naming): when these
    succeed the workflow reports success, also when no placement and no copy
    could be carried out, and when the scheduling itself reports a failure. *)
Theorem scheduling_failures_not_fatal :
  (forall salle_is_2 s1 s2 minutes date_debut date_fin,
     same_layout s1 s2 ->
     fst (schedule_seances salle_is_2 s1 minutes date_debut date_fin) =
     fst (schedule_seances salle_is_2 s2 minutes date_debut date_fin) /\
     map attempt_of (snd (schedule_seances salle_is_2 s1 minutes date_debut date_fin)) =
     map attempt_of (snd (schedule_seances salle_is_2 s2 minutes date_debut date_fin))) /\
  (forall salle_name salle_is_2 b s film_name format_type minutes date_debut date_fin,
     succeeded (full_workflow_usb salle_name salle_is_2 (with_scheduling b s) film_name
                  format_type minutes date_debut date_fin) =
     succeeded (full_workflow_usb salle_name salle_is_2 b film_name format_type minutes
                  date_debut date_fin)) /\
  (forall salle_name salle_is_2 b film_name format_type minutes date_debut date_fin,
     browser_starts b = true -> login_ok b = true ->
     selected (import_qfc_from_usb b film_name) = true ->
     editor_opens b = true ->
     (forall format, block_selected b format = true) ->
     (forall name block, film_replaced b name block = true) ->
     let run := full_workflow_usb salle_name salle_is_2 b film_name format_type minutes
                                  date_debut date_fin in
     succeeded run = true /\
     scheduled run = Some (schedule_seances salle_is_2 (scheduling b) minutes
                                            date_debut date_fin)) /\
  (let run := full_workflow_usb (Some "Brunet") false
                (Sample.session (Sample.dead_page Sample.mid_week)) None None "00"
                (Some "16/01/2026") (Some "22/01/2026") in
   succeeded run = true /\
   exists events,
     scheduled run = Some (true, events) /\
     forallb (fun e => negb (event_ok e)) events = true /\
     map attempt_of events =
       [Place 4 18 "50"; CopyTo 4 [17; 18; 21; 22]; Place 5 12 "50"; Place 6 12 "50"]) /\
  (let run := full_workflow_usb (Some "Brunet") false
                (Sample.session (Sample.page [] 16)) None None "00"
                (Some "16/01/2026") (Some "22/01/2026") in
   succeeded run = true /\ scheduled run = Some (false, [])).
Proof.
  split; [exact schedule_seances_same_layout|].
  split; [exact full_workflow_usb_scheduling|].
  split.
  { intros salle_name salle_is_2 b film_name format_type minutes date_debut date_fin
           Hs Hl Hi He Hb Hr.
    unfold full_workflow_usb. rewrite Hs, Hl, Hi, He, Hb, Hr. split; reflexivity. }
  split.
  - split; [reflexivity|]. eexists. split; [vm_compute; reflexivity|].
    split; reflexivity.
  - split; reflexivity.
Qed.

Lemma scheduling_failures_not_fatal_witness :
  same_layout (Sample.page Sample.mid_week 16) (Sample.dead_page Sample.mid_week) /\
  map attempt_of
      (snd (schedule_seances false (Sample.page Sample.mid_week 16) "15"
                             (Some "16/01/2026") (Some "22/01/2026")))
  = map attempt_of
      (snd (schedule_seances false (Sample.dead_page Sample.mid_week) "15"
                             (Some "16/01/2026") (Some "22/01/2026"))).
Proof.
  assert (H : same_layout (Sample.page Sample.mid_week 16) (Sample.dead_page Sample.mid_week))
    by (repeat split).
  split; [exact H|].
  exact (proj2 (proj1 scheduling_failures_not_fatal false _ _ "15"
                  (Some "16/01/2026") (Some "22/01/2026") H)).
Defined.

(** *** The plan on a page that shows the week of the start date *)

Lemma days_in_month_bounds (y m : Z) : 28 <= days_in_month y m <= 31.
Proof.
  unfold days_in_month. destruct (m =? 2); [destruct (is_leap y); lia|].
  destruct (_ || _); lia.
Qed.

Lemma add_days_same_month (k : nat) (a : datetime) :
  day a + Z.of_nat k <= days_in_month (year a) (month a) ->
  add_days k a = {| year := year a; month := month a; day := day a + Z.of_nat k |}.
Proof.
  revert a; induction k as [|k IH]; intros a H.
  - destruct a as [y m d]. cbn [add_days year month day]. f_equal. lia.
  - cbn [add_days]. unfold next_day.
    assert (E : (day a <? days_in_month (year a) (month a)) = true)
      by (apply Z.ltb_lt; lia).
    rewrite E, IH; cbn [year month day]; [f_equal; lia | lia].
Qed.

Lemma add_days_next_month (k : nat) (a : datetime) :
  1 <= day a <= days_in_month (year a) (month a) ->
  days_in_month (year a) (month a) < day a + Z.of_nat k
    <= days_in_month (year a) (month a) + 28 ->
  day (add_days k a) = day a + Z.of_nat k - days_in_month (year a) (month a).
Proof.
  revert a; induction k as [|k IH]; intros a Hv Hk; [lia|].
  cbn [add_days]. unfold next_day.
  destruct (Z.ltb_spec (day a) (days_in_month (year a) (month a))) as [Hlt|Hge].
  - rewrite IH; cbn [year month day]; lia.
  - destruct (month a <? 12);
      rewrite add_days_same_month; cbn [year month day];
      try lia;
      match goal with
      | |- context [days_in_month ?y ?m] =>
          pose proof (days_in_month_bounds y m); lia
      end.
Qed.

(** The day numbers that the code hands to the copy are the days 1, 2, 5 and
    6 days after the start date exactly when the start date is not within
    six days of the end of its month. *)
Lemma copy_targets_are_offsets_iff (y m d : Z) (anchor : datetime) :
  make_datetime y m d = Some anchor ->
  (map (fun k => day (add_days k anchor)) [1; 2; 5; 6]%nat = [d + 1; d + 2; d + 5; d + 6]
   <-> d + 6 <= days_in_month y m).
Proof.
  intros Ha. pose proof (make_datetime_valid _ _ _ _ Ha) as Hv.
  apply make_datetime_day in Ha as [Hy [Hm Hd]]. subst y m d.
  pose proof (days_in_month_bounds (year anchor) (month anchor)) as Hb.
  split.
  - intros E. cbn [map] in E.
    assert (E6 : day (add_days 6 anchor) = day anchor + 6) by (now inversion E).
    destruct (Z.le_gt_cases (day anchor + 6) (days_in_month (year anchor) (month anchor)))
      as [Hle|Hgt]; [exact Hle|].
    rewrite add_days_next_month in E6; lia.
  - intros Hle. cbn [map].
    rewrite !add_days_same_month by lia. reflexivity.
Qed.

Lemma next_day_not_before (a : datetime) : dt_lt (next_day a) a = false.
Proof.
  unfold next_day, dt_lt.
  destruct (day a <? days_in_month (year a) (month a)); [|destruct (month a <? 12)];
    cbn [year month day];
    repeat match goal with
           | |- context [?x <? ?y] => destruct (Z.ltb_spec x y)
           | |- context [?x =? ?y] => destruct (Z.eqb_spec x y)
           end; cbn [andb orb]; try reflexivity; lia.
Qed.

Lemma dt_lt_irrefl (a : datetime) : dt_lt a a = false.
Proof. unfold dt_lt. rewrite !Z.ltb_irrefl, !Z.eqb_refl. reflexivity. Qed.

Lemma dt_not_before_trans (a b c : datetime) :
  dt_lt b a = false -> dt_lt c b = false -> dt_lt c a = false.
Proof.
  unfold dt_lt.
  repeat match goal with
         | |- context [?x <? ?y] => destruct (Z.ltb_spec x y)
         | |- context [?x =? ?y] => destruct (Z.eqb_spec x y)
         end; cbn [andb orb]; try reflexivity; try discriminate; lia.
Qed.

Lemma add_days_not_before (k : nat) (a : datetime) : dt_lt (add_days k a) a = false.
Proof.
  revert a; induction k as [|k IH]; intros a; cbn [add_days].
  - apply dt_lt_irrefl.
  - apply (dt_not_before_trans a (next_day a)); [apply next_day_not_before | apply IH].
Qed.

Lemma add_days_plus (j k : nat) (a : datetime) :
  add_days (j + k) a = add_days k (add_days j a).
Proof. revert a; induction j as [|j IH]; intros a; [reflexivity | apply IH]. Qed.

Lemma in_week (anchor : datetime) (j : nat) :
  (j <= 6)%nat ->
  negb (dt_lt (add_days j anchor) anchor || dt_lt (add_days 6 anchor) (add_days j anchor))
  = true.
Proof.
  intros Hj. rewrite add_days_not_before.
  replace 6%nat with (j + (6 - j))%nat at 1 by lia.
  rewrite add_days_plus, add_days_not_before. reflexivity.
Qed.

Lemma parse_date_truthy (text : string) (a : datetime) :
  parse_date text = Some a -> truthy text = true.
Proof. destruct text; [discriminate | reflexivity]. Qed.

Section Week.

Variables (vi : nat) (anchor : datetime).

Lemma find_vendredi_week (headers : list day_header) (index : nat) :
  (forall k h, nth_error headers k = Some h -> week_header vi anchor (index + k) h) ->
  (index <= vi < index + List.length headers)%nat ->
  exists t, find_vendredi (Some anchor) index headers = Some (vi, t).
Proof.
  revert index; induction headers as [|header rest IH]; intros index Hw Hi;
    cbn [List.length] in Hi; [lia|].
  destruct (Hw 0%nat header eq_refl) as [name [text [date [Hn [Ht [Hp [Hv [_ Hd]]]]]]]].
  rewrite Nat.add_0_r in Hv, Hd.
  cbn [find_vendredi]. rewrite Hn, Ht, Hv, Hp.
  destruct (Nat.eqb_spec index vi) as [->|Hne].
  - rewrite Nat.ltb_irrefl, Nat.sub_diag in Hd. cbn [add_days] in Hd. subst date.
    rewrite dt_lt_irrefl. cbn [negb]. eauto.
  - apply IH; [|lia].
    intros k h Hk. replace (S index + k)%nat with (index + S k)%nat by lia.
    now apply Hw.
Qed.

Lemma seances_aprem_week salle_is_2 heure minutes views headers index :
  (forall k h, nth_error headers k = Some h -> week_header vi anchor (index + k) h) ->
  (index + List.length headers <= List.length views)%nat ->
  (index + List.length headers <= vi + 7)%nat ->
  map attempt_of
      (seances_aprem salle_is_2 (Some anchor) (Some (add_days 6 anchor)) heure minutes
                     views index headers)
  = map (fun i => Place i heure minutes)
        (filter (fun i => (i =? vi + 1) || (i =? vi + 2))%nat
                (seq index (List.length headers))).
Proof.
  revert index; induction headers as [|header rest IH]; intros index Hw Hlen Hlast;
    [reflexivity|].
  cbn [List.length] in Hlen, Hlast.
  destruct (Hw 0%nat header eq_refl) as [name [text [date [Hn [Ht [Hp [_ [Ha Hd]]]]]]]].
  rewrite Nat.add_0_r in Ha, Hd.
  assert (Hrest : map attempt_of
                    (seances_aprem salle_is_2 (Some anchor) (Some (add_days 6 anchor))
                                   heure minutes views (S index) rest)
                  = map (fun i => Place i heure minutes)
                        (filter (fun i => (i =? vi + 1) || (i =? vi + 2))%nat
                                (seq (S index) (List.length rest)))).
  { apply IH; [|lia|lia].
    intros k h Hk. replace (S index + k)%nat with (index + S k)%nat by lia.
    now apply Hw. }
  cbn [seances_aprem List.length seq filter].
  destruct (nth_error views index) as [view|] eqn:Ev;
    [|apply nth_error_None in Ev; lia].
  rewrite Hn, Ht, Ha.
  destruct ((index =? vi + 1) || (index =? vi + 2))%nat eqn:Hi; [|exact Hrest].
  assert (Hk : (index = vi + 1 \/ index = vi + 2)%nat).
  { apply orb_true_iff in Hi as [Hi|Hi]; apply Nat.eqb_eq in Hi; auto. }
  assert (Hlt : (index <? vi)%nat = false) by (apply Nat.ltb_ge; lia).
  rewrite Hlt in Hd. subst date.
  unfold in_range. rewrite Hp, in_week by lia.
  destruct (_add_seance_at_hour salle_is_2 view heure minutes) as [ok actions].
  cbn [map attempt_of]. now rewrite Hrest.
Qed.

End Week.

(** On a page that shows the week of the start date, with the Saturday and
    the Sunday after it, and with the end date six days later, the run
    succeeds and attempts, in this order: the evening show on the start
    date, one copy from the start date towards the four day numbers, and
    the afternoon show on each of the two days that follow. *)
Theorem schedule_seances_week_plan salle_is_2 s vi anchor minutes date_debut date_fin :
  shows_week s vi anchor -> (vi <= 4)%nat ->
  parse_date date_debut = Some anchor ->
  parse_date date_fin = Some (add_days 6 anchor) ->
  let '(heure_soir, minutes_soir, heure_aprem, minutes_aprem) := heures minutes in
  fst (schedule_seances salle_is_2 s minutes (Some date_debut) (Some date_fin)) = true /\
  map attempt_of
      (snd (schedule_seances salle_is_2 s minutes (Some date_debut) (Some date_fin)))
  = [Place vi heure_soir minutes_soir;
     CopyTo vi [day anchor + 1; day anchor + 2; day anchor + 5; day anchor + 6];
     Place (vi + 1) heure_aprem minutes_aprem;
     Place (vi + 2) heure_aprem minutes_aprem].
Proof.
  intros [Hopen [[Hl1 Hw1] [[Hl2 Hw2] [Hv1 Hv2]]]] Hvi Hd Hf.
  unfold schedule_seances. rewrite Hopen. cbn [negb].
  destruct (heures minutes) as [[[heure_soir minutes_soir] heure_aprem] minutes_aprem].
  unfold parse_bound.
  rewrite (parse_date_truthy _ _ Hd), Hd, (parse_date_truthy _ _ Hf), Hf.
  destruct (find_vendredi_week vi anchor (day_headers s) 0) as [t Hfind];
    [exact Hw1 | lia |].
  rewrite Hfind.
  destruct (nth_error (day_views s) vi) as [view|] eqn:Ev;
    [|apply nth_error_None in Ev; lia].
  destruct (_add_seance_at_hour salle_is_2 view heure_soir minutes_soir) as [ok actions].
  unfold jours_nums. rewrite (parse_date_first_field _ _ Hd).
  destruct (_copy_vendredi_to_days _ _ _) as [okc trouves].
  cbn [fst snd]. split; [reflexivity|].
  cbn [app map attempt_of]. do 2 f_equal.
  rewrite (seances_aprem_week vi anchor) by (auto; lia).
  rewrite Hl2.
  do 5 (destruct vi as [|vi]; [reflexivity|]). lia.
Qed.

Lemma sample_weeks_show_week :
  shows_week (Sample.page Sample.mid_week 16) 4 {| year := 2026; month := 1; day := 16 |} /\
  shows_week (Sample.page Sample.week 30) 4 Sample.anchor.
Proof.
  assert (H : forall headers source anchor,
             (forall k h, nth_error headers k = Some h -> week_header 4 anchor k h) ->
             List.length headers = 7%nat ->
             shows_week (Sample.page headers source) 4 anchor).
  { intros headers source anchor Hw Hl. repeat split; auto. }
  split; apply H; try reflexivity;
    intros k h Hk;
    do 7 (destruct k as [|k];
          [injection Hk as <-; eexists _, _, _; repeat split; reflexivity|]);
    destruct k; discriminate.
Qed.


Lemma schedule_seances_week_plan_sample :
  map attempt_of
      (snd (schedule_seances false (Sample.page Sample.mid_week 16) "30"
                             (Some "16/01/2026") (Some "22/01/2026")))
  = [Place 4 19 "20"; CopyTo 4 [17; 18; 21; 22]; Place 5 13 "20"; Place 6 13 "20"].
Proof.
  assert (H : (4 <= 4)%nat) by lia.
  exact (proj2 (schedule_seances_week_plan false (Sample.page Sample.mid_week 16) 4
                  {| year := 2026; month := 1; day := 16 |} "30"
                  "16/01/2026" "22/01/2026"
                  (proj1 sample_weeks_show_week) H eq_refl eq_refl)).
Qed.

(** C1, on the code.  For the start date 30/01/2026, a Friday, with the week
    of that Friday on the page, the run places the evening show on the
    Friday, asks one copy from the Friday and places the two afternoon
    shows; the copy is asked towards the day numbers 31, 32, 35 and 36,
    while the days 1, 2, 5 and 6 days after the start are the 31st, 1st, 4th
    and 5th, and the calendar selects the 31st alone.  For the start date
    16/01/2026 the targets 17, 18, 21 and 22 are those days. *)
Theorem copy_targets_at_month_end :
  parse_date "30/01/2026" = Some Sample.anchor /\
  map attempt_of
      (snd (schedule_seances false (Sample.page Sample.week 30) "00"
                             (Some "30/01/2026") (Some "05/02/2026")))
  = [Place 4 18 "50"; CopyTo 4 [31; 32; 35; 36]; Place 5 12 "50"; Place 6 12 "50"] /\
  map (fun k => day (add_days k Sample.anchor)) [1; 2; 5; 6]%nat = [31; 1; 4; 5] /\
  _copy_vendredi_to_days (Sample.january 30) 4 [31; 32; 35; 36] = (true, [31]) /\
  map attempt_of
      (snd (schedule_seances false (Sample.page Sample.mid_week 16) "00"
                             (Some "16/01/2026") (Some "22/01/2026")))
  = [Place 4 18 "50"; CopyTo 4 [17; 18; 21; 22]; Place 5 12 "50"; Place 6 12 "50"] /\
  map (fun k => day (add_days k {| year := 2026; month := 1; day := 16 |}))
      [1; 2; 5; 6]%nat = [17; 18; 21; 22].
Proof. repeat split. Qed.

(** * Further properties *)

(** ** Selection when ingest buttons fail *)

Lemma first_ingested_eligible (tier : nat) (criterion : string -> bool)
  (items : list usb_item) :
  (forall item, criterion (upper (item_text item)) = satisfies tier item) ->
  first_ingested criterion items = find (eligible tier) items.
Proof.
  intros H. induction items as [|item rest IH]; [reflexivity|].
  cbn [first_ingested find]. unfold eligible at 1. now rewrite H, IH.
Qed.

Lemma select_by_priority_eligible (items : list usb_item) :
  select_by_priority items =
  match find (eligible 1) items with Some i => Some i | None =>
  match find (eligible 2) items with Some i => Some i | None =>
  match find (eligible 3) items with Some i => Some i | None =>
  match find (eligible 4) items with Some i => Some i | None =>
  match find (eligible 5) items with Some i => Some i | None =>
  find (eligible 6) items end end end end end.
Proof.
  unfold select_by_priority.
  rewrite (first_ingested_eligible 1), (first_ingested_eligible 2),
    (first_ingested_eligible 3), (first_ingested_eligible 4),
    (first_ingested_eligible 5), (first_ingested_eligible 6);
    reflexivity.
Qed.

(** X1.  Rows whose ingest button does not answer are passed over: the row
    that is imported is the first row, among those that satisfy a tier and
    whose button answers, of the earliest tier that has such a row; with no
    such row in any tier nothing is imported. *)
Theorem select_by_priority_ingestable (items : list usb_item) :
  match select_by_priority items with
  | Some item =>
      exists tier before after,
        (1 <= tier <= 6)%nat /\ items = (before ++ item :: after)%list /\
        satisfies tier item = true /\ ingest_clicks item = true /\
        (forall x, In x before -> eligible tier x = false) /\
        (forall t x, (t < tier)%nat -> In x items -> eligible t x = false)
  | None => forall t x, In x items -> eligible t x = false
  end.
Proof.
  rewrite select_by_priority_eligible.
  assert (Hzero : forall t x, (t < 1)%nat -> In x items -> eligible t x = false).
  { intros t x Ht _. replace t with 0%nat by lia. reflexivity. }
  assert (Hstep : forall n, (forall t x, (t < n)%nat -> In x items -> eligible t x = false) ->
                       find (eligible n) items = None ->
                       forall t x, (t < S n)%nat -> In x items -> eligible t x = false).
  { intros n Hn Hf t x Ht Hx. destruct (Nat.eq_dec t n) as [->|Hne].
    - exact (find_none _ _ Hf x Hx).
    - apply Hn; [lia | exact Hx]. }
  assert (Hhit : forall n item, (1 <= n <= 6)%nat ->
                      (forall t x, (t < n)%nat -> In x items -> eligible t x = false) ->
                      find (eligible n) items = Some item ->
                      exists tier before after,
                        (1 <= tier <= 6)%nat /\ items = (before ++ item :: after)%list /\
                        satisfies tier item = true /\ ingest_clicks item = true /\
                        (forall x, In x before -> eligible tier x = false) /\
                        (forall t x, (t < tier)%nat -> In x items -> eligible t x = false)).
  { intros n item Hr Hn Hf. destruct (find_first _ _ _ Hf) as [before [after [E [Hs Hb]]]].
    apply andb_true_iff in Hs as [Hs Hc]. exists n, before, after. auto 10. }
  destruct (find (eligible 1) items) eqn:F1; [apply (Hhit 1%nat); auto; lia|].
  pose proof (Hstep 1%nat Hzero F1) as L2.
  destruct (find (eligible 2) items) eqn:F2; [apply (Hhit 2%nat); auto; lia|].
  pose proof (Hstep 2%nat L2 F2) as L3.
  destruct (find (eligible 3) items) eqn:F3; [apply (Hhit 3%nat); auto; lia|].
  pose proof (Hstep 3%nat L3 F3) as L4.
  destruct (find (eligible 4) items) eqn:F4; [apply (Hhit 4%nat); auto; lia|].
  pose proof (Hstep 4%nat L4 F4) as L5.
  destruct (find (eligible 5) items) eqn:F5; [apply (Hhit 5%nat); auto; lia|].
  pose proof (Hstep 5%nat L5 F5) as L6.
  destruct (find (eligible 6) items) eqn:F6; [apply (Hhit 6%nat); auto; lia|].
  intros t x Hx. destruct (eligible t x) eqn:E; [|reflexivity].
  assert (Hr : (1 <= t <= 6)%nat).
  { apply andb_true_iff in E as [E _]. exact (satisfies_range _ _ E). }
  rewrite <- E. apply (Hstep 6%nat L6 F6); [lia | exact Hx].
Qed.

(** ** The extracted title *)

Lemma cased_chars (c : ascii) :
  is_alpha (upper_char c) = is_alpha c /\ is_alpha (lower_char c) = is_alpha c /\
  upper_char (upper_char c) = upper_char c /\ lower_char (lower_char c) = lower_char c.
Proof. destruct c as [[] [] [] [] [] [] [] []]; vm_compute; auto. Qed.

Lemma title_from_idempotent (s : string) (previous_is_cased : bool) :
  title_from previous_is_cased (title_from previous_is_cased s)
  = title_from previous_is_cased s.
Proof.
  revert previous_is_cased; induction s as [|c s IH]; intros b; [reflexivity|].
  cbn [title_from].
  destruct (cased_chars c) as [Hu [Hl [Huu Hll]]].
  destruct (is_alpha c) eqn:Ec.
  - cbn [title_from]. destruct b.
    + rewrite Hl, Hll, IH. reflexivity.
    + rewrite Hu, Huu, IH. reflexivity.
  - cbn [title_from]. rewrite Ec, IH. reflexivity.
Qed.

Lemma title_from_length (s : string) (b : bool) :
  String.length (title_from b s) = String.length s.
Proof.
  revert b; induction s as [|c s IH]; intros b; [reflexivity|].
  cbn [title_from]. destruct (is_alpha c); cbn [String.length]; now rewrite IH.
Qed.

Lemma words_from_nonempty (s cur w : string) :
  In w (words_from cur s) -> w <> "".
Proof.
  revert cur; induction s as [|c s IH]; intros cur.
  - cbn [words_from]. destruct cur; [intros [] | intros [<- | []]; discriminate].
  - rewrite words_from_cons. destruct (is_space c).
    + destruct cur; [apply IH|]. intros [<- | H]; [discriminate | now apply IH in H].
    + apply IH.
Qed.

(** X2.  On an ASCII text, the title that [extract_film_name] returns is
    never empty and is in title case: title-casing it again changes
    nothing. *)
Theorem extract_film_name_title_cased (text : string) :
  is_ascii text = true ->
  extract_film_name text <> "" /\
  title (extract_film_name text) = extract_film_name text.
Proof.
  intros _.
  rewrite extract_film_name_unfold. cbv zeta.
  assert (Hlen : forall s n, (S n <= String.length s)%nat -> title s <> "").
  { intros s n H E. pose proof (title_from_length s false) as L.
    unfold title in E. rewrite E in L. simpl in L. lia. }
  destruct (Nat.leb_spec 3 (String.length (leading_run (first_line (strip text)))))
    as [H3|H3].
  { split; [now apply (Hlen _ 2%nat) | apply title_from_idempotent]. }
  destruct (Nat.leb_spec 2 (String.length
              (first_segment (strip_codes (first_line (strip text)))))) as [H2|H2].
  { split; [now apply (Hlen _ 1%nat) | apply title_from_idempotent]. }
  unfold first_word_or_film.
  destruct (split_ws _) as [|w ws] eqn:Ew; [split; [discriminate | reflexivity]|].
  split; [|apply title_from_idempotent].
  assert (Hw : w <> "").
  { apply (words_from_nonempty (separators_to_spaces
                                  (strip_codes (first_line (strip text)))) "").
    fold (split_ws (separators_to_spaces (strip_codes (first_line (strip text))))).
    rewrite Ew. now left. }
  apply (Hlen _ 0%nat). destruct w; [contradiction | simpl; lia].
Qed.

Lemma extract_film_name_title_cased_witness :
  is_ascii Sample.mercy = true /\
  extract_film_name Sample.mercy <> "" /\
  title (extract_film_name Sample.mercy) = extract_film_name Sample.mercy.
Proof.
  assert (H : is_ascii Sample.mercy = true) by reflexivity.
  split; [exact H|]. exact (extract_film_name_title_cased Sample.mercy H).
Defined.

(** ** The domain of the minutes strings *)

Lemma lstrip_by_length (cls : ascii -> bool) (s : string) :
  (String.length (lstrip_by cls s) <= String.length s)%nat.
Proof.
  induction s as [|c s IH]; cbn [lstrip_by String.length]; [lia|].
  destruct (cls c); cbn [String.length]; lia.
Qed.

Lemma rstrip_by_length (cls : ascii -> bool) (s : string) :
  (String.length (rstrip_by cls s) <= String.length s)%nat.
Proof.
  induction s as [|c s IH]; cbn [rstrip_by String.length]; [lia|].
  destruct (rstrip_by cls s) as [|d r].
  - destruct (cls c); cbn [String.length]; lia.
  - cbn [String.length] in *. lia.
Qed.

Lemma digit_value_range (c : ascii) : is_digit c = true -> 0 <= digit_value c <= 9.
Proof.
  unfold is_digit, digit_value. intros H. apply andb_true_iff in H as [H1 H2].
  apply N.leb_le in H1, H2. lia.
Qed.

Lemma int_digits_bound (s : string) :
  forall acc after n,
  0 <= acc -> int_digits acc after s = Some n ->
  0 <= n < (acc + 1) * 10 ^ Z.of_nat (String.length s).
Proof.
  induction s as [|c s IH]; intros acc after n Hacc; cbn [int_digits String.length].
  - destruct after; [|discriminate]. intros H. injection H as <-.
    change (10 ^ Z.of_nat 0) with 1. lia.
  - assert (Hpow : 10 ^ Z.of_nat (S (String.length s))
                   = 10 * 10 ^ Z.of_nat (String.length s)).
    { rewrite Nat2Z.inj_succ, Z.pow_succ_r by lia. reflexivity. }
    assert (Hpos : 0 < 10 ^ Z.of_nat (String.length s)) by (apply Z.pow_pos_nonneg; lia).
    rewrite Hpow.
    destruct (is_digit c) eqn:Ec.
    + intros H. pose proof (digit_value_range c Ec) as Hd.
      apply IH in H; [|lia]. nia.
    + destruct (Ascii.eqb c "_" && after); [|discriminate].
      destruct s as [|d s']; [discriminate|].
      destruct (is_digit d); [|discriminate].
      intros H. apply IH in H; [|lia]. nia.
Qed.

Lemma int_bound (s : string) (n : Z) :
  int s = Some n -> Z.abs n < 10 ^ Z.of_nat (String.length s).
Proof.
  unfold int.
  pose proof (lstrip_by_length is_cspace s) as Hl.
  pose proof (rstrip_by_length is_cspace (lstrip_by is_cspace s)) as Hr.
  set (r := rstrip_by is_cspace (lstrip_by is_cspace s)) in *.
  assert (Hle : (String.length r <= String.length s)%nat) by lia.
  assert (Hmono : 10 ^ Z.of_nat (String.length r) <= 10 ^ Z.of_nat (String.length s))
    by (apply Z.pow_le_mono_r; lia).
  assert (Hall : forall t, int_digits 0 false t = Some n \/
                           option_map Z.opp (int_digits 0 false t) = Some n ->
                           Z.abs n < 10 ^ Z.of_nat (String.length t)).
  { intros t [H | H].
    - apply int_digits_bound in H; lia.
    - destruct (int_digits 0 false t) as [k|] eqn:E; [|discriminate].
      injection H as <-. apply int_digits_bound in E; lia. }
  assert (Htail : forall c t, r = String c t ->
            10 ^ Z.of_nat (String.length t) <= 10 ^ Z.of_nat (String.length r)).
  { intros c t ->. apply Z.pow_le_mono_r; cbn [String.length]; lia. }
  destruct r as [|c t] eqn:Er.
  - intros H. pose proof (Hall "" (or_introl H)). lia.
  - pose proof (Htail c t eq_refl) as Ht.
    destruct c as [[] [] [] [] [] [] [] []];
      intros H;
      first [ pose proof (Hall _ (or_introl H)); lia
            | pose proof (Hall _ (or_intror H)); lia ].
Qed.

Lemma short_minutes_bound (minutes : string) :
  short_minutes minutes = true -> Z.abs (minutes_int minutes) < 2 ^ 44.
Proof.
  unfold short_minutes, minutes_int. intros H. apply Nat.leb_le in H.
  destruct (int minutes) as [n|] eqn:E; [|reflexivity].
  apply int_bound in E.
  assert (10 ^ Z.of_nat (String.length minutes) <= 10 ^ 13)
    by (apply Z.pow_le_mono_r; lia).
  assert (10 ^ 13 < 2 ^ 44) by reflexivity. lia.
Qed.


(** ** What [_add_seance_at_hour] reports *)

Lemma close_attempts_clicks (v : day_view) (line dx dy : Z) (attempt remaining : nat) :
  (List.length (filter is_click
                  (snd (close_attempts v (ClickLine line dx dy) attempt remaining)))
   <= remaining)%nat.
Proof.
  revert attempt; induction remaining as [|r IH]; intros attempt; [simpl; lia|].
  cbn [close_attempts]. destruct (close_popover v attempt); [simpl; lia|].
  specialize (IH (S attempt)).
  destruct (close_attempts v (ClickLine line dx dy) (S attempt) r) as [opened actions].
  cbn [snd filter is_click List.length] in *. lia.
Qed.

Lemma fermer_lampe_clicks (salle_is_2 : bool) (v : day_view) (hour : Z) (minutes : string) :
  (List.length (filter is_click (fermer_lampe salle_is_2 v hour minutes)) <= 3)%nat /\
  ~ In ConfirmShow (filter is_click (fermer_lampe salle_is_2 v hour minutes)).
Proof.
  split; [|intros H; apply filter_In in H as [_ H]; discriminate].
  unfold fermer_lampe. destruct (fermer_time hour minutes) as [fh fm].
  destruct (fh <? Z.of_nat (hour_lines v)); [|simpl; lia].
  destruct (fh <? - Z.of_nat (hour_lines v)); [simpl; lia|].
  pose proof (close_attempts_clicks v fh 10 (fermer_offset fm) 0 3) as Hc.
  destruct (close_attempts v (ClickLine fh 10 (fermer_offset fm)) 0 3) as [opened clicks].
  cbn [snd] in Hc.
  destruct (opened && close_list v); [|exact Hc].
  destruct (_ <? _)%nat; [|exact Hc].
  rewrite filter_app. cbn [filter is_click].
  destruct (close_confirm v); cbn [filter is_click]; rewrite app_nil_r; exact Hc.
Qed.

(** X3.  For a minutes string of at most 13 characters (where [int] and the
    float arithmetic of the interpolation are exact),
    [_add_seance_at_hour] reports the placement of the film alone: it
    returns [True] exactly when the hour line exists and every step of the
    film dialog answers, whatever happens to the "Fermer lampe" entry; when
    it returns [False] nothing was confirmed; it never clicks more than four
    times on hour lines (once for the film, at most three times for the end
    marker). *)
Theorem add_seance_reports_the_film (salle_is_2 : bool) (v : day_view) (hour : Z)
  (minutes : string) :
  short_minutes minutes = true ->
  let result := _add_seance_at_hour salle_is_2 v hour minutes in
  (fst result = true <-> line_exists v hour = true /\ film_answers v = true) /\
  (fst result = true ->
   firstn 4 (snd result)
   = [ClickLine hour 10 (offset_y minutes); OpenShowList; ChooseShow (-1); ConfirmShow]) /\
  (fst result = false -> ~ In ConfirmShow (snd result)) /\
  (List.length (filter is_click (snd result)) <= 4)%nat.
Proof.
  intros _. cbv zeta. unfold _add_seance_at_hour, line_exists, film_answers.
  pose proof (fermer_lampe_clicks salle_is_2 v hour minutes) as [Hc _].
  destruct (Z.leb_spec (Z.of_nat (hour_lines v)) hour) as [Hh|Hh].
  { assert (E : (hour <? Z.of_nat (hour_lines v)) = false) by (apply Z.ltb_ge; lia).
    rewrite E, andb_false_r. cbn [fst snd filter List.length In].
    repeat split; intros; try discriminate; try tauto; try lia;
      try (intuition discriminate). }
  assert (E : (hour <? Z.of_nat (hour_lines v)) = true) by (apply Z.ltb_lt; lia).
  rewrite E, andb_true_r. clear E.
  destruct (Z.ltb_spec hour (- Z.of_nat (hour_lines v))) as [Hn|Hn].
  { assert (E : (- Z.of_nat (hour_lines v) <=? hour) = false) by (apply Z.leb_gt; lia).
    rewrite E. cbn [fst snd filter List.length In].
    repeat split; intros; try discriminate; try tauto; try lia;
      try (intuition discriminate). }
  assert (E : (- Z.of_nat (hour_lines v) <=? hour) = true) by (apply Z.leb_le; lia).
  rewrite E. clear E.
  destruct (film_popover v), (film_list v), (film_shows v =? 0)%nat, (film_confirm v);
    cbn [negb andb fst snd filter is_click List.length In firstn app];
    repeat split; intros; try discriminate; try tauto; try lia;
    try (intuition discriminate).
Qed.

Lemma add_seance_reports_the_film_witness :
  short_minutes "50" = true /\
  (fst (_add_seance_at_hour false Sample.view 18 "50") = true <->
   line_exists Sample.view 18 = true /\ film_answers Sample.view = true) /\
  (fst (_add_seance_at_hour false Sample.dead_view 18 "50") = false ->
   ~ In ConfirmShow (snd (_add_seance_at_hour false Sample.dead_view 18 "50"))).
Proof.
  assert (H : short_minutes "50" = true) by reflexivity.
  split; [exact H|]. split.
  - exact (proj1 (add_seance_reports_the_film false Sample.view 18 "50" H)).
  - exact (proj1 (proj2 (proj2
             (add_seance_reports_the_film false Sample.dead_view 18 "50" H)))).
Defined.

(** X4.  For a minutes string of at most 13 characters, a show whose end
    marker falls on an hour line that the view does not have gets no end
    marker: the film is placed, the call returns [True], and nothing else is
    clicked. *)
Theorem end_marker_beyond_last_line (salle_is_2 : bool) (v : day_view) (hour : Z)
  (minutes : string) :
  short_minutes minutes = true ->
  film_answers v = true -> 0 <= hour < Z.of_nat (hour_lines v) ->
  Z.of_nat (hour_lines v) <= fst (fermer_time hour minutes) ->
  _add_seance_at_hour salle_is_2 v hour minutes
  = (true, [ClickLine hour 10 (offset_y minutes); OpenShowList; ChooseShow (-1);
            ConfirmShow]).
Proof.
  intros _ Hv Hh Hlast. rewrite add_seance_when_film_answers by assumption.
  unfold fermer_lampe. destruct (fermer_time hour minutes) as [fh fm]. cbn [fst] in Hlast.
  assert (E : (fh <? Z.of_nat (hour_lines v)) = false) by (apply Z.ltb_ge; lia).
  rewrite E. reflexivity.
Qed.

Lemma end_marker_beyond_last_line_witness :
  short_minutes "50" = true /\
  _add_seance_at_hour false Sample.view 21 "50"
  = (true, [ClickLine 21 10 22; OpenShowList; ChooseShow (-1); ConfirmShow]).
Proof.
  assert (Hs : short_minutes "50" = true) by reflexivity.
  assert (Hv : film_answers Sample.view = true) by reflexivity.
  assert (Hh : 0 <= 21 < Z.of_nat (hour_lines Sample.view)) by (simpl; lia).
  assert (Hl : Z.of_nat (hour_lines Sample.view) <= fst (fermer_time 21 "50"))
    by (vm_compute; discriminate).
  split; [exact Hs|].
  exact (end_marker_beyond_last_line false Sample.view 21 "50" Hs Hv Hh Hl).
Defined.

(** ** The click offset of the film *)




(** X6.  Whatever the pattern, the times that [schedule_seances] hands to
    [_add_seance_at_hour] take their offsets in the table: the minute of
    each show and the minute of its end marker are keys of
    [minutes_offset_map], so neither interpolation is used; and the end
    markers fall at 21 h at the latest, on a line that a view of 24 hour
    lines has. *)
Theorem scheduled_times_use_the_table (pattern : string) :
  let '(heure_soir, minutes_soir, heure_aprem, minutes_aprem) := heures pattern in
  (exists v, lookup minutes_soir minutes_offset_map = Some v /\ offset_y minutes_soir = v) /\
  (exists v, lookup minutes_aprem minutes_offset_map = Some v /\ offset_y minutes_aprem = v) /\
  (exists v, lookup (fmt_02d (snd (fermer_time heure_soir minutes_soir)))
                    minutes_offset_map = Some v /\
             fermer_offset (snd (fermer_time heure_soir minutes_soir)) = v) /\
  (exists v, lookup (fmt_02d (snd (fermer_time heure_aprem minutes_aprem)))
                    minutes_offset_map = Some v /\
             fermer_offset (snd (fermer_time heure_aprem minutes_aprem)) = v) /\
  0 <= heure_aprem < heure_soir /\
  fst (fermer_time heure_aprem minutes_aprem) <= 15 /\
  fst (fermer_time heure_soir minutes_soir) <= 21.
Proof.
  unfold heures.
  destruct (String.eqb pattern "00"); [|destruct (String.eqb pattern "15");
    [|destruct (String.eqb pattern "30")]];
    (repeat split; try (eexists; split; reflexivity); try (vm_compute; congruence)).
Qed.

(** ** What [schedule_seances] reports and where it places shows *)

Lemma jours_nums_defined (date_debut : option string) (debut_dt : option datetime)
  (copier : list Z) :
  parse_bound date_debut = Some debut_dt ->
  exists nums, jours_nums date_debut debut_dt copier = Some nums.
Proof.
  unfold parse_bound, jours_nums. destruct date_debut as [text|].
  - destruct (truthy text).
    + destruct (parse_date text) as [a|] eqn:E; [|discriminate].
      intros H. injection H as <-. rewrite (parse_date_first_field _ _ E). eauto.
    + intros H. injection H as <-. eauto.
  - intros H. injection H as <-. eauto.
Qed.

(** X7.  [schedule_seances] returns [True] exactly when the page opens, the
    two dates can be read, a Friday header is found and the page has a day
    view at its index; the outcome of the placements and of the copy plays
    no part.  When it returns [False] no placement and no copy was
    attempted; when it returns [True] the first attempt is the evening show
    at the index of that Friday. *)
Theorem schedule_seances_result (salle_is_2 : bool) (s : scheduler) (minutes : string)
  (date_debut date_fin : option string) :
  let result := schedule_seances salle_is_2 s minutes date_debut date_fin in
  (fst result = true <->
   scheduler_opens s = true /\
   exists debut_dt fin_dt vi t view,
     parse_bound date_debut = Some debut_dt /\ parse_bound date_fin = Some fin_dt /\
     find_vendredi debut_dt 0 (day_headers s) = Some (vi, t) /\
     nth_error (day_views s) vi = Some view) /\
  (fst result = false -> snd result = []) /\
  (fst result = true ->
   exists vi t ok actions rest,
     find_vendredi (match parse_bound date_debut with Some d => d | None => None end)
                   0 (day_headers s) = Some (vi, t) /\
     snd result = Seance vi (fst (fst (fst (heures minutes))))
                         (snd (fst (fst (heures minutes)))) ok actions :: rest).
Proof.
  cbv zeta. unfold schedule_seances.
  destruct (scheduler_opens s); cbn [negb fst snd].
  2:{ split; [split; [discriminate|intros [H _]; discriminate]|].
      split; [reflexivity|discriminate]. }
  destruct (heures minutes) as [[[heure_soir minutes_soir] heure_aprem] minutes_aprem].
  cbn [fst snd].
  destruct (parse_bound date_debut) as [debut_dt|] eqn:Ed; cbn [fst snd].
  2:{ split; [split; [discriminate|]|split; [reflexivity|discriminate]].
      intros [_ (a & b & c & d & e & H & _)]. discriminate. }
  destruct (parse_bound date_fin) as [fin_dt|] eqn:Ef; cbn [fst snd].
  2:{ split; [split; [discriminate|]|split; [reflexivity|discriminate]].
      intros [_ (a & b & c & d & e & _ & H & _)]. discriminate. }
  destruct (find_vendredi debut_dt 0 (day_headers s)) as [[vi vd]|] eqn:Ev; cbn [fst snd].
  2:{ split; [split; [discriminate|]|split; [reflexivity|discriminate]].
      intros [_ (a & b & c & d & e & H1 & _ & H & _)].
      injection H1 as <-. rewrite H in Ev. discriminate. }
  destruct (nth_error (day_views s) vi) as [view|] eqn:En; cbn [fst snd].
  2:{ split; [split; [discriminate|]|split; [reflexivity|discriminate]].
      intros [_ (a & b & c & d & e & H1 & _ & H & H2)].
      injection H1 as <-. rewrite H in Ev. injection Ev as <- <-.
      rewrite H2 in En. discriminate. }
  destruct (_add_seance_at_hour salle_is_2 view heure_soir minutes_soir) as [ok actions].
  destruct (jours_nums_defined date_debut debut_dt
              (jours_a_copier vi debut_dt fin_dt 0 (day_headers s)) Ed) as [nums Hn].
  rewrite Hn. cbn [fst snd].
  split; [split; [intros _|reflexivity]|split; [discriminate|intros _]].
  - split; [reflexivity|]. exists debut_dt, fin_dt, vi, vd, view. auto.
  - eauto 8.
Qed.

Lemma find_vendredi_from (debut_dt : option datetime) (headers : list day_header) :
  forall index vi t,
  find_vendredi debut_dt index headers = Some (vi, t) ->
  exists k header name date_text,
    vi = (index + k)%nat /\ nth_error headers k = Some header /\
    p_day header = Some name /\ p_date header = Some date_text /\
    t = strip date_text /\
    any_in noms_vendredi (strip (lower name)) = true /\
    (forall debut, debut_dt = Some debut ->
       exists jour, parse_date t = Some jour /\ dt_lt jour debut = false) /\
    (forall j hj nj tj,
       (j < k)%nat -> nth_error headers j = Some hj ->
       p_day hj = Some nj -> p_date hj = Some tj ->
       any_in noms_vendredi (strip (lower nj)) = true ->
       exists debut, debut_dt = Some debut /\
         match parse_date (strip tj) with
         | Some jour => dt_lt jour debut = true
         | None => True
         end).
Proof.
  induction headers as [|header rest IH]; intros index vi t; cbn [find_vendredi];
    [discriminate|].
  assert (Hrest : find_vendredi debut_dt (S index) rest = Some (vi, t) ->
    (forall nj tj, p_day header = Some nj -> p_date header = Some tj ->
       any_in noms_vendredi (strip (lower nj)) = true ->
       exists debut, debut_dt = Some debut /\
         match parse_date (strip tj) with
         | Some jour => dt_lt jour debut = true
         | None => True
         end) ->
    exists k h name date_text,
      vi = (index + k)%nat /\ nth_error (header :: rest) k = Some h /\
      p_day h = Some name /\ p_date h = Some date_text /\
      t = strip date_text /\
      any_in noms_vendredi (strip (lower name)) = true /\
      (forall debut, debut_dt = Some debut ->
         exists jour, parse_date t = Some jour /\ dt_lt jour debut = false) /\
      (forall j hj nj tj,
         (j < k)%nat -> nth_error (header :: rest) j = Some hj ->
         p_day hj = Some nj -> p_date hj = Some tj ->
         any_in noms_vendredi (strip (lower nj)) = true ->
         exists debut, debut_dt = Some debut /\
           match parse_date (strip tj) with
           | Some jour => dt_lt jour debut = true
           | None => True
           end)).
  { intros H Hhead.
    destruct (IH _ _ _ H) as (k & h & name & dtx & -> & Hk & Hn & Hd & -> & Hv & Hs & He).
    exists (S k), h, name, dtx.
    split; [lia|]. split; [exact Hk|]. do 5 (split; [first [assumption|reflexivity]|]).
    intros [|j] hj nj tj Hj Hnth; cbn [nth_error] in Hnth.
    - injection Hnth as <-. apply Hhead.
    - apply (He j); [lia|exact Hnth]. }
  destruct (p_day header) as [d|] eqn:Ed;
    [|intros H; apply Hrest; [exact H|discriminate]].
  destruct (p_date header) as [tx|] eqn:Et;
    [|intros H; apply Hrest; [exact H|discriminate]].
  destruct (any_in noms_vendredi (strip (lower d))) eqn:Ev.
  2:{ intros H. apply Hrest; [exact H|].
      intros nj tj Hn _ Hv. injection Hn as <-. rewrite Hv in Ev. discriminate. }
  assert (Hhere : forall (Hdebut : forall debut, debut_dt = Some debut ->
                    exists jour, parse_date (strip tx) = Some jour /\
                                 dt_lt jour debut = false),
    Some (index, strip tx) = Some (vi, t) ->
    exists k h name date_text,
      vi = (index + k)%nat /\ nth_error (header :: rest) k = Some h /\
      p_day h = Some name /\ p_date h = Some date_text /\
      t = strip date_text /\
      any_in noms_vendredi (strip (lower name)) = true /\
      (forall debut, debut_dt = Some debut ->
         exists jour, parse_date t = Some jour /\ dt_lt jour debut = false) /\
      (forall j hj nj tj,
         (j < k)%nat -> nth_error (header :: rest) j = Some hj ->
         p_day hj = Some nj -> p_date hj = Some tj ->
         any_in noms_vendredi (strip (lower nj)) = true ->
         exists debut, debut_dt = Some debut /\
           match parse_date (strip tj) with
           | Some jour => dt_lt jour debut = true
           | None => True
           end)).
  { intros Hdebut H. injection H as <- <-.
    exists 0%nat, header, d, tx.
    split; [lia|]. split; [reflexivity|]. do 5 (split; [auto|]).
    intros j hj nj tj Hj. lia. }
  destruct debut_dt as [debut|]; [|apply Hhere; discriminate].
  destruct (parse_date (strip tx)) as [jour|] eqn:Ep.
  - destruct (dt_lt jour debut) eqn:El; cbn [negb].
    + intros H. apply Hrest; [exact H|].
      intros nj tj Hn Ht _. injection Hn as <-. injection Ht as <-.
      exists debut. rewrite Ep. auto.
    + apply Hhere. intros debut' H. injection H as <-. eauto.
  - intros H. apply Hrest; [exact H|].
    intros nj tj Hn Ht _. injection Hn as <-. injection Ht as <-.
    exists debut. rewrite Ep. auto.
Qed.

(** X8.  With a start date, the Friday that [schedule_seances] works on is a
    header named after Friday whose date reads as a day on or after the start
    date, and every Friday header displayed before it carries a date that
    cannot be read or that is before the start date. *)
Theorem vendredi_not_before_start (debut : datetime) (headers : list day_header)
  (vi : nat) (t : string) :
  find_vendredi (Some debut) 0 headers = Some (vi, t) ->
  (exists header name date_text jour,
     nth_error headers vi = Some header /\
     p_day header = Some name /\ p_date header = Some date_text /\
     t = strip date_text /\
     any_in noms_vendredi (strip (lower name)) = true /\
     parse_date t = Some jour /\ dt_lt jour debut = false) /\
  (forall j hj nj tj,
     (j < vi)%nat -> nth_error headers j = Some hj ->
     p_day hj = Some nj -> p_date hj = Some tj ->
     any_in noms_vendredi (strip (lower nj)) = true ->
     parse_date (strip tj) = None \/
     exists jour, parse_date (strip tj) = Some jour /\ dt_lt jour debut = true).
Proof.
  intros H.
  destruct (find_vendredi_from _ _ _ _ _ H)
    as (k & h & name & dtx & -> & Hk & Hn & Hd & -> & Hv & Hs & He).
  destruct (Hs debut eq_refl) as (jour & Hp & Hl).
  split.
  - exists h, name, dtx, jour. cbn [Nat.add]. auto 8.
  - intros j hj nj tj Hj Hnth Hnj Htj Hvj.
    destruct (He j hj nj tj Hj Hnth Hnj Htj Hvj) as (debut' & Hd' & Hm).
    injection Hd' as <-.
    destruct (parse_date (strip tj)) as [jr|]; [right; eauto|left; reflexivity].
Qed.

Lemma vendredi_not_before_start_witness :
  let headers := [Sample.header "Vendredi" "23/01/2026"; Sample.header "Vendredi" "demain";
                  Sample.header "Samedi" "24/01/2026";
                  Sample.header "Vendredi" "30/01/2026"] in
  find_vendredi (Some Sample.anchor) 0 headers = Some (3%nat, "30/01/2026") /\
  (parse_date (strip "23/01/2026") = None \/
   exists jour, parse_date (strip "23/01/2026") = Some jour /\
                dt_lt jour Sample.anchor = true) /\
  (parse_date (strip "demain") = None \/
   exists jour, parse_date (strip "demain") = Some jour /\
                dt_lt jour Sample.anchor = true).
Proof.
  intros headers.
  assert (H : find_vendredi (Some Sample.anchor) 0 headers
              = Some (3%nat, "30/01/2026")) by (vm_compute; reflexivity).
  split; [exact H|]. split.
  - exact (proj2 (vendredi_not_before_start Sample.anchor headers 3 "30/01/2026" H)
             0%nat (Sample.header "Vendredi" "23/01/2026") "Vendredi" "23/01/2026"
             ltac:(lia) eq_refl eq_refl eq_refl eq_refl).
  - exact (proj2 (vendredi_not_before_start Sample.anchor headers 3 "30/01/2026" H)
             1%nat (Sample.header "Vendredi" "demain") "Vendredi" "demain"
             ltac:(lia) eq_refl eq_refl eq_refl eq_refl).
Defined.

(** ** The days that [schedule_seances] works on *)

Lemma seances_aprem_placed salle_is_2 debut fin heure minutes views headers :
  forall index i h m ok actions,
  In (Seance i h m ok actions)
     (seances_aprem salle_is_2 debut fin heure minutes views index headers) ->
  h = heure /\ m = minutes /\
  exists k header view,
    i = (index + k)%nat /\ nth_error headers k = Some header /\
    header_named noms_aprem header = true /\
    header_in_range debut fin header = true /\
    nth_error views i = Some view /\
    (ok, actions) = _add_seance_at_hour salle_is_2 view h m.
Proof.
  induction headers as [|header rest IH]; intros index i h m ok actions;
    cbn [seances_aprem]; [intros []|].
  assert (Hrest : In (Seance i h m ok actions)
            (seances_aprem salle_is_2 debut fin heure minutes views (S index) rest) ->
          h = heure /\ m = minutes /\
          exists k hd view,
            i = (index + k)%nat /\ nth_error (header :: rest) k = Some hd /\
            header_named noms_aprem hd = true /\
            header_in_range debut fin hd = true /\
            nth_error views i = Some view /\
            (ok, actions) = _add_seance_at_hour salle_is_2 view h m).
  { intros H. destruct (IH _ _ _ _ _ _ H) as (-> & -> & k & hd & view & -> & Hk & Hrest).
    split; [reflexivity|]. split; [reflexivity|].
    exists (S k), hd, view. split; [lia|]. split; [exact Hk|].
    replace (index + S k)%nat with (S index + k)%nat by lia. exact Hrest. }
  destruct (nth_error views index) as [view|] eqn:Ev; [|exact Hrest].
  destruct (p_day header) as [d|] eqn:Ed; [|exact Hrest].
  destruct (p_date header) as [t|] eqn:Et; [|exact Hrest].
  destruct (any_in noms_aprem (strip (lower d))) eqn:En; [|exact Hrest].
  destruct (in_range debut fin (strip t)) as [[|]|] eqn:Er; try exact Hrest.
  destruct (_add_seance_at_hour salle_is_2 view heure minutes) as [ok' actions'] eqn:Ea.
  intros [H | H]; [|exact (Hrest H)].
  injection H as <- <- <- <- <-.
  split; [reflexivity|]. split; [reflexivity|].
  exists 0%nat, header, view. rewrite Nat.add_0_r.
  split; [reflexivity|]. split; [reflexivity|].
  unfold header_named, header_in_range. rewrite Ed, Et, En, Er. auto.
Qed.

(** X9.  Every show that [schedule_seances] places directly is either the
    evening show, on the Friday that the first loop found, or the afternoon
    show, on a header of the reloaded page that is named after Saturday or
    Sunday and lies within the two dates; a show is never placed directly on
    another day, and what is recorded for it is the answer of
    [_add_seance_at_hour] on the view at that index. *)
Theorem shows_placed_on_friday_and_weekend (salle_is_2 : bool) (s : scheduler)
  (minutes : string) (date_debut date_fin : option string)
  (i : nat) (h : Z) (m : string) (ok : bool) (actions : list ui_action) :
  In (Seance i h m ok actions)
     (snd (schedule_seances salle_is_2 s minutes date_debut date_fin)) ->
  exists debut_dt fin_dt,
    parse_bound date_debut = Some debut_dt /\ parse_bound date_fin = Some fin_dt /\
    ((h = fst (fst (fst (heures minutes))) /\ m = snd (fst (fst (heures minutes))) /\
      exists t view,
        find_vendredi debut_dt 0 (day_headers s) = Some (i, t) /\
        nth_error (day_views s) i = Some view /\
        (ok, actions) = _add_seance_at_hour salle_is_2 view h m) \/
     (h = snd (fst (heures minutes)) /\ m = snd (heures minutes) /\
      exists header view,
        nth_error (day_headers_after s) i = Some header /\
        header_named noms_aprem header = true /\
        header_in_range debut_dt fin_dt header = true /\
        nth_error (day_views_after s) i = Some view /\
        (ok, actions) = _add_seance_at_hour salle_is_2 view h m)).
Proof.
  unfold schedule_seances.
  destruct (scheduler_opens s); cbn [negb]; [|intros []].
  destruct (heures minutes) as [[[heure_soir minutes_soir] heure_aprem] minutes_aprem].
  cbn [fst snd].
  destruct (parse_bound date_debut) as [debut_dt|] eqn:Ed; [|intros []].
  destruct (parse_bound date_fin) as [fin_dt|]; [|intros []].
  destruct (find_vendredi debut_dt 0 (day_headers s)) as [[vi vd]|] eqn:Evd; [|intros []].
  destruct (nth_error (day_views s) vi) as [view|] eqn:Ev; [|intros []].
  destruct (_add_seance_at_hour salle_is_2 view heure_soir minutes_soir)
    as [ok' actions'] eqn:Ea.
  intros H. exists debut_dt, fin_dt. split; [reflexivity|]. split; [reflexivity|].
  assert (Hsoir : Seance vi heure_soir minutes_soir ok' actions' = Seance i h m ok actions ->
    h = heure_soir /\ m = minutes_soir /\
    exists t view0,
      find_vendredi debut_dt 0 (day_headers s) = Some (i, t) /\
      nth_error (day_views s) i = Some view0 /\
      (ok, actions) = _add_seance_at_hour salle_is_2 view0 h m).
  { intros H0. injection H0 as <- <- <- <- <-.
    split; [reflexivity|]. split; [reflexivity|]. exists vd, view. auto. }
  destruct (jours_nums date_debut debut_dt _) as [nums|]; cbn [snd] in H.
  - destruct H as [H | H]; [left; exact (Hsoir H)|].
    apply in_app_or in H as [H | H].
    + destruct nums as [|n nums]; [destruct H|].
      destruct (_copy_vendredi_to_days (copy_dialog s) vi (n :: nums)) as [okc trouves].
      destruct H as [H | []]. discriminate.
    + apply seances_aprem_placed in H as (-> & -> & k & hd & v & -> & Hk & Hn & Hr & Hv & Hx).
      right. split; [reflexivity|]. split; [reflexivity|]. exists hd, v. cbn [Nat.add]. auto.
  - destruct H as [H | []]. left. exact (Hsoir H).
Qed.

Lemma shows_placed_on_friday_and_weekend_witness :
  In (Seance 5 13 "20" true
        (snd (_add_seance_at_hour false Sample.view 13 "20")))
     (snd (schedule_seances false (Sample.page Sample.week 30) "30"
             (Some "30/01/2026") (Some "05/02/2026"))) /\
  exists debut_dt fin_dt,
    parse_bound (Some "30/01/2026") = Some debut_dt /\
    parse_bound (Some "05/02/2026") = Some fin_dt /\
    ((13 = fst (fst (fst (heures "30"))) /\ "20" = snd (fst (fst (heures "30"))) /\
      exists t view,
        find_vendredi debut_dt 0 (day_headers (Sample.page Sample.week 30)) = Some (5%nat, t) /\
        nth_error (day_views (Sample.page Sample.week 30)) 5 = Some view /\
        (true, snd (_add_seance_at_hour false Sample.view 13 "20"))
        = _add_seance_at_hour false view 13 "20") \/
     (13 = snd (fst (heures "30")) /\ "20" = snd (heures "30") /\
      exists header view,
        nth_error (day_headers_after (Sample.page Sample.week 30)) 5 = Some header /\
        header_named noms_aprem header = true /\
        header_in_range debut_dt fin_dt header = true /\
        nth_error (day_views_after (Sample.page Sample.week 30)) 5 = Some view /\
        (true, snd (_add_seance_at_hour false Sample.view 13 "20"))
        = _add_seance_at_hour false view 13 "20")).
Proof.
  assert (H : In (Seance 5 13 "20" true
                    (snd (_add_seance_at_hour false Sample.view 13 "20")))
                 (snd (schedule_seances false (Sample.page Sample.week 30) "30"
                         (Some "30/01/2026") (Some "05/02/2026")))).
  { vm_compute. right. right. left. reflexivity. }
  split; [exact H|].
  exact (shows_placed_on_friday_and_weekend false (Sample.page Sample.week 30) "30"
           (Some "30/01/2026") (Some "05/02/2026") 5 13 "20" true _ H).
Defined.

Lemma jours_a_copier_iff (vendredi_index : nat) (debut fin : option datetime)
  (headers : list day_header) :
  forall index n,
  In n (jours_a_copier vendredi_index debut fin index headers) <->
  exists k header,
    nth_error headers k = Some header /\ (index + k)%nat <> vendredi_index /\
    header_named noms_copie header = true /\
    header_in_range debut fin header = true /\
    header_day header = Some n.
Proof.
  induction headers as [|header rest IH]; intros index n; cbn [jours_a_copier].
  - split; [intros []|]. intros (k & h & Hk & _). destruct k; discriminate.
  - assert (Hrest : In n (jours_a_copier vendredi_index debut fin (S index) rest) <->
      exists k h, nth_error (header :: rest) (S k) = Some h /\
        (index + S k)%nat <> vendredi_index /\
        header_named noms_copie h = true /\ header_in_range debut fin h = true /\
        header_day h = Some n).
    { rewrite IH. split; intros (k & h & Hk & Hi & H); exists k, h;
        (split; [exact Hk|]); (split; [lia|exact H]). }
    assert (Hskip : (index = vendredi_index \/
                     header_named noms_copie header = false \/
                     header_in_range debut fin header = false \/
                     header_day header = None) ->
      (In n (jours_a_copier vendredi_index debut fin (S index) rest) <->
       exists k h, nth_error (header :: rest) k = Some h /\
        (index + k)%nat <> vendredi_index /\
        header_named noms_copie h = true /\ header_in_range debut fin h = true /\
        header_day h = Some n)).
    { intros Hs. rewrite Hrest. split.
      - intros (k & h & H). exists (S k), h. exact H.
      - intros ([|k] & h & Hk & Hi & Hn & Hr & Hd).
        + injection Hk as <-. rewrite Nat.add_0_r in Hi.
          destruct Hs as [Hs | [Hs | [Hs | Hs]]]; [contradiction| | |];
            rewrite Hs in *; discriminate.
        + exists k, h. auto. }
    destruct (index =? vendredi_index)%nat eqn:Ei.
    { apply Hskip. left. apply Nat.eqb_eq. exact Ei. }
    apply Nat.eqb_neq in Ei.
    destruct (p_day header) as [d|] eqn:Ed.
    2:{ apply Hskip. right. left. unfold header_named. rewrite Ed. reflexivity. }
    destruct (p_date header) as [t|] eqn:Et.
    2:{ apply Hskip. right. right. left. unfold header_in_range. rewrite Et. reflexivity. }
    destruct (any_in noms_copie (strip (lower d))) eqn:En.
    2:{ apply Hskip. right. left. unfold header_named. rewrite Ed. exact En. }
    destruct (in_range debut fin (strip t)) as [[|]|] eqn:Er.
    2,3: apply Hskip; right; right; left; unfold header_in_range; rewrite Et, Er;
         reflexivity.
    destruct (int (fst (split_char "/" (strip t)))) as [jour_num|] eqn:Ej.
    2:{ apply Hskip. right. right. right. unfold header_day. rewrite Et. exact Ej. }
    cbn [In]. rewrite Hrest. split.
    + intros [<- | (k & h & H)].
      * exists 0%nat, header. rewrite Nat.add_0_r.
        unfold header_named, header_in_range, header_day. rewrite Ed, Et, En, Er.
        auto.
      * exists (S k), h. exact H.
    + intros ([|k] & h & Hk & Hi & Hn & Hr & Hd).
      * injection Hk as <-. left. unfold header_day in Hd. rewrite Et, Ej in Hd.
        injection Hd as <-. reflexivity.
      * right. exists k, h. auto.
Qed.

(** X10.  Without a start date, [schedule_seances] asks at most one copy: from
    the first header named after Friday, towards the day numbers displayed by
    the other headers named after Saturday, Sunday, Wednesday or Thursday,
    and only when there is at least one such day; the copy is never asked
    towards the Friday itself. *)
Theorem copy_without_start_date (salle_is_2 : bool) (s : scheduler) (minutes : string)
  (date_debut date_fin : option string)
  (i : nat) (nums : list Z) (ok : bool) (trouves : list Z) :
  opt_truthy date_debut = false ->
  In (CopyDays i nums ok trouves)
     (snd (schedule_seances salle_is_2 s minutes date_debut date_fin)) ->
  (exists t, find_vendredi None 0 (day_headers s) = Some (i, t)) /\
  nums <> [] /\
  (forall n, In n nums <->
     exists k header,
       nth_error (day_headers s) k = Some header /\ k <> i /\
       header_named noms_copie header = true /\ header_day header = Some n) /\
  (ok, trouves) = _copy_vendredi_to_days (copy_dialog s) i nums.
Proof.
  intros Hd. unfold schedule_seances.
  destruct (scheduler_opens s); cbn [negb]; [|intros []].
  destruct (heures minutes) as [[[heure_soir minutes_soir] heure_aprem] minutes_aprem].
  assert (Ed : parse_bound date_debut = Some None).
  { unfold parse_bound. destruct date_debut as [text|]; [|reflexivity].
    cbn [opt_truthy] in Hd. rewrite Hd. reflexivity. }
  rewrite Ed.
  destruct (parse_bound date_fin) as [fin_dt|]; [|intros []].
  destruct (find_vendredi None 0 (day_headers s)) as [[vi vd]|] eqn:Evd; [|intros []].
  destruct (nth_error (day_views s) vi) as [view|] eqn:Ev; [|intros []].
  destruct (_add_seance_at_hour salle_is_2 view heure_soir minutes_soir)
    as [ok' actions'] eqn:Ea.
  assert (En : jours_nums date_debut None
                 (jours_a_copier vi None fin_dt 0 (day_headers s))
               = Some (jours_a_copier vi None fin_dt 0 (day_headers s))) by reflexivity.
  rewrite En. cbn [snd]. intros [H | H]; [discriminate|].
  apply in_app_or in H as [H | H].
  2:{ apply seances_aprem_are_seances in H as (j & o & a & H). discriminate. }
  destruct (jours_a_copier vi None fin_dt 0 (day_headers s)) as [|n0 rest] eqn:Ej;
    [destruct H|].
  destruct (_copy_vendredi_to_days (copy_dialog s) vi (n0 :: rest)) as [okc tr] eqn:Ec.
  destruct H as [H | []]. injection H as <- <- <- <-.
  split; [eauto|]. split; [discriminate|]. split; [|symmetry; exact Ec].
  intros n. rewrite <- Ej, jours_a_copier_iff. cbn [Nat.add].
  split; intros (k & h & Hk & Hi & Hn & H).
  - exists k, h. destruct H as [_ H]. auto.
  - exists k, h.
    assert (Hr : header_in_range None fin_dt h = true).
    { unfold header_in_range, header_day in *.
      destruct (p_date h); [reflexivity|discriminate]. }
    auto.
Qed.

Lemma copy_without_start_date_witness :
  opt_truthy None = false /\
  In (CopyDays 4 [14; 15; 17; 18] true [14; 15; 17; 18])
     (snd (schedule_seances false (Sample.page Sample.mid_week 16) "00" None None)) /\
  forall n, In n [14; 15; 17; 18] <->
    exists k header,
      nth_error (day_headers (Sample.page Sample.mid_week 16)) k = Some header /\
      k <> 4%nat /\
      header_named noms_copie header = true /\ header_day header = Some n.
Proof.
  assert (H : In (CopyDays 4 [14; 15; 17; 18] true [14; 15; 17; 18])
     (snd (schedule_seances false (Sample.page Sample.mid_week 16) "00" None None))).
  { vm_compute. right. left. reflexivity. }
  split; [reflexivity|]. split; [exact H|].
  exact (proj1 (proj2 (proj2
    (copy_without_start_date false (Sample.page Sample.mid_week 16) "00" None None
       4 [14; 15; 17; 18] true [14; 15; 17; 18] eq_refl H)))).
Defined.

(** ** [full_workflow_usb] *)

Lemma detect_film_format_values (text : string) :
  detect_film_format text = "scope" \/ detect_film_format text = "flat".
Proof.
  unfold detect_film_format.
  destruct (_ || _ || _); [left; reflexivity|].
  destruct (_ || _ || _); [right|left]; reflexivity.
Qed.

Lemma select_qfc_from_usb_format (page : usb_page) (film_name : option string) :
  selected (select_qfc_from_usb page film_name) = true ->
  exists text, imported_film_format (select_qfc_from_usb page film_name)
               = Some (detect_film_format text).
Proof.
  unfold select_qfc_from_usb.
  destruct (page_loads page); cbn [negb]; [|discriminate].
  destruct film_name as [name|].
  - destruct (truthy name).
    + destruct (clickable_by_name page name); [|discriminate].
      intros _. eexists. reflexivity.
    + destruct (select_by_priority (all_items page)); [|discriminate].
      intros _. eexists. reflexivity.
  - destruct (select_by_priority (all_items page)); [|discriminate].
    intros _. eexists. reflexivity.
Qed.

(** X11.  The argument [format_type] of [full_workflow_usb] has no effect: a
    selection that succeeds always records a format, so the fallback is never
    read. *)
Theorem full_workflow_usb_ignores_format_type (salle_name : option string)
  (salle_is_2 : bool) (b : browser) (film_name format_type1 format_type2 : option string)
  (minutes : string) (date_debut date_fin : option string) :
  full_workflow_usb salle_name salle_is_2 b film_name format_type1 minutes
                    date_debut date_fin =
  full_workflow_usb salle_name salle_is_2 b film_name format_type2 minutes
                    date_debut date_fin.
Proof.
  unfold full_workflow_usb.
  destruct (browser_starts b); cbn [negb]; [|reflexivity].
  destruct (login_ok b); cbn [negb]; [|reflexivity].
  destruct (selected (import_qfc_from_usb b film_name)) eqn:Es; cbn [negb];
    [|reflexivity].
  assert (H : exists text, imported_film_format (import_qfc_from_usb b film_name)
                           = Some (detect_film_format text)).
  { revert Es. unfold import_qfc_from_usb.
    destruct (import_usb_opens b); cbn [negb]; [|discriminate].
    apply select_qfc_from_usb_format. }
  destruct H as [text ->].
  assert (Hf : forall f, or_else (Some (detect_film_format text)) f
                         = Some (detect_film_format text)).
  { intros f. unfold or_else.
    destruct (detect_film_format_values text) as [-> | ->]; reflexivity. }
  rewrite !Hf. reflexivity.
Qed.

(** X12.  The block name that [full_workflow_usb] generates is
    [salle - S - film] or [salle - F - film], with the letter of the format
    detected in the requested name or else in the text of the selected row,
    and with [Brunet] for a bot that has no room name.  The film part is the
    title extracted from the selected row; when the film was requested by
    name no row text is recorded and the film part is always [Film]. *)
Theorem full_workflow_usb_block_name (salle_name : option string) (salle_is_2 : bool)
  (b : browser) (film_name format_type : option string) (minutes : string)
  (date_debut date_fin : option string) (name : string) :
  auto_block_name (full_workflow_usb salle_name salle_is_2 b film_name format_type
                     minutes date_debut date_fin) = Some name ->
  exists source,
    (if opt_truthy film_name
     then film_name = Some source /\ clickable_by_name (usb b) source = true
     else exists item, select_by_priority (all_items (usb b)) = Some item /\
                       source = item_text item) /\
    name = (if opt_truthy salle_name
            then match salle_name with Some n => n | None => "" end
            else "Brunet")
           ++ " - "
           ++ (if String.eqb (detect_film_format source) "scope" then "S" else "F")
           ++ " - "
           ++ (if opt_truthy film_name then "Film" else extract_film_name source).
Proof.
  unfold full_workflow_usb.
  destruct (browser_starts b); cbn [negb]; [|discriminate].
  destruct (login_ok b); cbn [negb]; [|discriminate].
  destruct (selected (import_qfc_from_usb b film_name)) eqn:Es; cbn [negb];
    [|discriminate].
  assert (Hsalle : match or_else salle_name (Some "Brunet") with
                   | Some n => n
                   | None => "Brunet"
                   end
                   = if opt_truthy salle_name
                     then match salle_name with Some n => n | None => "" end
                     else "Brunet").
  { unfold or_else. destruct (opt_truthy salle_name) eqn:E; [|reflexivity].
    destruct salle_name; [reflexivity|discriminate]. }
  rewrite Hsalle. clear Hsalle.
  assert (Hname : forall source film,
    imported_film_format (import_qfc_from_usb b film_name)
      = Some (detect_film_format source) ->
    match imported_film_text (import_qfc_from_usb b film_name) with
    | Some text => if truthy text then extract_film_name text else "Film"
    | None => "Film"
    end = film ->
    auto_block_name
      (let detected_format :=
         match or_else (or_else (imported_film_format (import_qfc_from_usb b film_name))
                                format_type) (Some "scope") with
         | Some f => f
         | None => "scope"
         end in
       let extracted_film_name :=
         match imported_film_text (import_qfc_from_usb b film_name) with
         | Some text => if truthy text then extract_film_name text else "Film"
         | None => "Film"
         end in
       let salle := if opt_truthy salle_name
                    then match salle_name with Some n => n | None => "" end
                    else "Brunet" in
       let name0 := generate_block_name extracted_film_name detected_format salle in
       if negb (editor_opens b) then stopped (Some name0)
       else if negb (block_selected b detected_format) then stopped (Some name0)
       else if negb (film_replaced b extracted_film_name name0) then stopped (Some name0)
       else {| succeeded := true; auto_block_name := Some name0;
               scheduled := Some (schedule_seances salle_is_2 (scheduling b) minutes
                                                   date_debut date_fin) |})
    = Some ((if opt_truthy salle_name
             then match salle_name with Some n => n | None => "" end
             else "Brunet")
            ++ " - "
            ++ (if String.eqb (detect_film_format source) "scope" then "S" else "F")
            ++ " - " ++ film)).
  { intros source film -> ->. cbv zeta.
    assert (Hf : or_else (or_else (Some (detect_film_format source)) format_type)
                         (Some "scope") = Some (detect_film_format source)).
    { unfold or_else. destruct (detect_film_format_values source) as [-> | ->]; reflexivity. }
    rewrite Hf.
    assert (Hg : forall title salle,
      generate_block_name title (detect_film_format source) salle
      = salle ++ " - "
        ++ (if String.eqb (detect_film_format source) "scope" then "S" else "F")
        ++ " - " ++ title).
    { intros title salle. unfold generate_block_name.
      destruct (detect_film_format_values source) as [-> | ->]; reflexivity. }
    rewrite Hg.
    destruct (negb (editor_opens b)); [reflexivity|].
    destruct (negb (block_selected b _)); [reflexivity|].
    destruct (negb (film_replaced b _ _)); reflexivity. }
  revert Es Hname. unfold import_qfc_from_usb.
  destruct (import_usb_opens b); cbn [negb]; [|discriminate].
  unfold select_qfc_from_usb.
  destruct (page_loads (usb b)); cbn [negb]; [|discriminate].
  assert (Hauto : forall sel,
    (match select_by_priority (all_items (usb b)) with
     | Some item => imported item
     | None => not_selected
     end) = sel -> selected sel = true ->
    exists item, select_by_priority (all_items (usb b)) = Some item /\
      imported_film_format sel = Some (detect_film_format (item_text item)) /\
      match imported_film_text sel with
      | Some text => if truthy text then extract_film_name text else "Film"
      | None => "Film"
      end = extract_film_name (item_text item)).
  { intros sel <-. destruct (select_by_priority (all_items (usb b))) as [item|];
      [|discriminate].
    intros _. exists item. split; [reflexivity|]. split; [reflexivity|].
    cbn [imported imported_film_text]. unfold truthy.
    destruct (item_text item); reflexivity. }
  destruct film_name as [requested|]; cbn [opt_truthy].
  - destruct (truthy requested) eqn:Et.
    + destruct (clickable_by_name (usb b) requested) eqn:Ec; [|discriminate].
      intros _ Hname H. rewrite (Hname requested "Film" eq_refl eq_refl) in H.
      injection H as <-. exists requested. auto.
    + intros Es Hname H.
      destruct (Hauto _ eq_refl Es) as (item & Hi & Hfmt & Htxt).
      rewrite (Hname _ _ Hfmt Htxt) in H. injection H as <-.
      exists (item_text item). split; [eauto|reflexivity].
  - intros Es Hname H.
    destruct (Hauto _ eq_refl Es) as (item & Hi & Hfmt & Htxt).
    rewrite (Hname _ _ Hfmt Htxt) in H. injection H as <-.
    exists (item_text item). split; [eauto|reflexivity].
Qed.

Lemma full_workflow_usb_block_name_witness :
  auto_block_name (full_workflow_usb (Some "Salle 2") true (Sample.session
                     (Sample.page Sample.week 30)) None None "00" None None)
  = Some "Salle 2 - S - Mercy" /\
  exists source,
    (exists item, select_by_priority [Sample.row Sample.mercy] = Some item /\
                  source = item_text item) /\
    "Salle 2 - S - Mercy"
    = "Salle 2" ++ " - "
      ++ (if String.eqb (detect_film_format source) "scope" then "S" else "F")
      ++ " - " ++ extract_film_name source.
Proof.
  assert (H : auto_block_name (full_workflow_usb (Some "Salle 2") true (Sample.session
                     (Sample.page Sample.week 30)) None None "00" None None)
              = Some "Salle 2 - S - Mercy") by (vm_compute; reflexivity).
  split; [exact H|].
  exact (full_workflow_usb_block_name (Some "Salle 2") true
           (Sample.session (Sample.page Sample.week 30)) None None "00" None None
           "Salle 2 - S - Mercy" H).
Defined.

(** ** [select_block] *)

Lemma open_first_block_found (e : show_editor) (patterns : list string)
  (blocks : list show_block) :
  forall index r i,
  open_first_block e patterns index blocks = (r, Some i) ->
  exists k block text,
    i = (index + k)%nat /\ nth_error blocks k = Some block /\
    block_text block = Some text /\
    any_in patterns (block_title_lower text) = true /\
    open_clicks block = true /\ r = editor_reloads e /\
    forall j bj, (j < k)%nat -> nth_error blocks j = Some bj ->
      exists tj, block_text bj = Some tj /\
                 any_in patterns (block_title_lower tj) = false.
Proof.
  induction blocks as [|block rest IH]; intros index r i; cbn [open_first_block];
    [discriminate|].
  destruct (block_text block) as [text|] eqn:Et; [|discriminate].
  destruct (any_in patterns (block_title_lower text)) eqn:Ea.
  - destruct (open_clicks block) eqn:Eo; [|discriminate].
    intros H. injection H as <- <-.
    exists 0%nat, block, text. rewrite Nat.add_0_r.
    do 6 (split; [first [assumption|reflexivity]|]).
    intros j bj Hj. lia.
  - intros H. destruct (IH _ _ _ H) as (k & b & t & -> & Hk & Hb & Ha & Ho & -> & Hbefore).
    exists (S k), b, t. split; [lia|].
    do 5 (split; [first [assumption|reflexivity]|]).
    intros [|j] bj Hj Hnth; cbn [nth_error] in Hnth.
    + injection Hnth as <-. eauto.
    + apply (Hbefore j); [lia|exact Hnth].
Qed.

Lemma slice_to_bound {A : Type} (n : Z) (l : list A) (i : nat) (x : A) :
  0 <= n -> nth_error (slice_to n l) i = Some x ->
  Z.of_nat i < n /\ nth_error l i = Some x.
Proof.
  intros Hn. unfold slice_to.
  destruct (n <? 0) eqn:E; [apply Z.ltb_lt in E; lia|].
  intros H.
  assert (Hi : (i < List.length (firstn (Z.to_nat n) l))%nat).
  { apply nth_error_Some. rewrite H. discriminate. }
  rewrite length_firstn in Hi.
  split; [lia|].
  rewrite nth_error_firstn in H.
  destruct (i <? Z.to_nat n)%nat eqn:Ei; [exact H|discriminate].
Qed.

(** X13.  When [select_block] clicks, it clicks the open button of one block
    only: the first block, among the first [max_blocks] of the list, whose
    title (the first line of its text, in lower case) contains one of the
    patterns of the format; every block before it was read and does not
    match, and the result is whether the page loads after the click. *)
Theorem select_block_opens_first_match (e : show_editor) (format_type : option string)
  (max_blocks : Z) (r : bool) (i : nat) :
  0 <= max_blocks ->
  select_block e format_type max_blocks = (r, Some i) ->
  exists f block text,
    format_type = Some f /\ Z.of_nat i < max_blocks /\
    nth_error (all_blocks e) i = Some block /\
    block_text block = Some text /\
    any_in (search_patterns f) (block_title_lower text) = true /\
    open_clicks block = true /\ r = editor_reloads e /\
    forall j bj, (j < i)%nat -> nth_error (all_blocks e) j = Some bj ->
      exists tj, block_text bj = Some tj /\
                 any_in (search_patterns f) (block_title_lower tj) = false.
Proof.
  intros Hmax. unfold select_block.
  destruct (editor_loads e); cbn [negb]; [|discriminate].
  destruct (opt_truthy format_type); cbn [negb]; [|discriminate].
  destruct format_type as [f|]; [|discriminate].
  intros H. apply open_first_block_found in H
    as (k & b & t & -> & Hk & Hb & Ha & Ho & -> & Hbefore).
  cbn [Nat.add]. destruct (slice_to_bound _ _ _ _ Hmax Hk) as [Hlt Hnth].
  exists f, b, t. do 7 (split; [first [assumption|reflexivity]|]).
  intros j bj Hj Hjn. apply (Hbefore j bj Hj).
  unfold slice_to. destruct (max_blocks <? 0) eqn:E; [apply Z.ltb_lt in E; lia|].
  rewrite nth_error_firstn.
  assert (Hj' : (j <? Z.to_nat max_blocks)%nat = true) by (apply Nat.ltb_lt; lia).
  rewrite Hj'. exact Hjn.
Qed.

Lemma select_block_opens_first_match_witness :
  let e := {| editor_loads := true;
              all_blocks := [ {| block_text := Some "Brunet - F - Avatar";
                                 open_clicks := true |};
                              {| block_text := Some "Brunet - S - Mercy";
                                 open_clicks := true |} ];
              editor_reloads := true |} in
  select_block e (Some "scope") 10 = (true, Some 1%nat) /\
  exists f block text,
    Some "scope" = Some f /\ Z.of_nat 1 < 10 /\
    nth_error (all_blocks e) 1 = Some block /\
    block_text block = Some text /\
    any_in (search_patterns f) (block_title_lower text) = true /\
    open_clicks block = true /\ true = editor_reloads e /\
    forall j bj, (j < 1)%nat -> nth_error (all_blocks e) j = Some bj ->
      exists tj, block_text bj = Some tj /\
                 any_in (search_patterns f) (block_title_lower tj) = false.
Proof.
  intros e.
  assert (H : select_block e (Some "scope") 10 = (true, Some 1%nat))
    by (vm_compute; reflexivity).
  split; [exact H|].
  exact (select_block_opens_first_match e (Some "scope") 10 true 1 ltac:(lia) H).
Defined.

Lemma first_line_app (a b : string) :
  str_in (String LF "") a = false -> first_line (a ++ b) = a ++ first_line b.
Proof.
  induction a as [|c a IH]; [reflexivity|].
  cbn [str_in startswith first_line append]. rewrite (Ascii.eqb_sym LF c).
  destruct (Ascii.eqb c LF) eqn:Ec; [discriminate|].
  cbn [andb orb]. intros H. rewrite (IH H). reflexivity.
Qed.

Lemma str_in_app (p a b : string) : str_in p (a ++ p ++ b) = true.
Proof. apply str_in_iff. eauto. Qed.

(** X14.  A block that [generate_block_name] named is recognised by
    [select_block] for the same format, whatever the film and the format
    string are, as long as the room name holds no line feed: the title of
    the generated name contains the pattern of the format.  So when such a
    block is the first of the list and its button answers, [select_block]
    opens it. *)
Theorem generated_name_is_selected (film_name format_type salle : string)
  (e : show_editor) (block : show_block) (others : list show_block) (max_blocks : Z) :
  str_in (String LF "") salle = false ->
  truthy format_type = true ->
  editor_loads e = true ->
  all_blocks e = block :: others ->
  block_text block = Some (generate_block_name film_name format_type salle) ->
  open_clicks block = true ->
  1 <= max_blocks ->
  any_in (search_patterns format_type)
         (block_title_lower (generate_block_name film_name format_type salle)) = true /\
  select_block e (Some format_type) max_blocks = (editor_reloads e, Some 0%nat).
Proof.
  intros Hsalle Hfmt Hloads Hblocks Htext Hclicks Hmax.
  assert (Hmatch : any_in (search_patterns format_type)
            (block_title_lower (generate_block_name film_name format_type salle)) = true).
  { unfold block_title_lower, generate_block_name, search_patterns.
    destruct (String.eqb (lower format_type) "scope").
    - assert (Ht : truthy (salle ++ " - " ++ "S" ++ " - " ++ film_name) = true)
        by (destruct salle; reflexivity).
      rewrite Ht, split_char_first_line, (first_line_app _ _ Hsalle).
      unfold lower. rewrite map_str_app.
      change (map_str lower_char (first_line (" - " ++ "S" ++ " - " ++ film_name)))
        with (" - s - " ++ map_str lower_char (first_line film_name)).
      cbn [any_in existsb]. rewrite str_in_app. reflexivity.
    - assert (Ht : truthy (salle ++ " - " ++ "F" ++ " - " ++ film_name) = true)
        by (destruct salle; reflexivity).
      rewrite Ht, split_char_first_line, (first_line_app _ _ Hsalle).
      unfold lower. rewrite map_str_app.
      change (map_str lower_char (first_line (" - " ++ "F" ++ " - " ++ film_name)))
        with (" - f - " ++ map_str lower_char (first_line film_name)).
      cbn [any_in existsb]. rewrite str_in_app. reflexivity. }
  split; [exact Hmatch|].
  unfold select_block. rewrite Hloads, Hblocks. cbn [negb opt_truthy]. rewrite Hfmt.
  cbn [negb]. unfold slice_to.
  destruct (max_blocks <? 0) eqn:E; [apply Z.ltb_lt in E; lia|].
  destruct (Z.to_nat max_blocks) as [|n] eqn:En; [lia|].
  cbn [firstn open_first_block]. rewrite Htext, Hmatch, Hclicks. reflexivity.
Qed.

Lemma generated_name_is_selected_witness :
  let block := {| block_text := Some (generate_block_name "Mercy" "flat" "Salle 3");
                  open_clicks := true |} in
  let e := {| editor_loads := true; all_blocks := [block]; editor_reloads := true |} in
  select_block e (Some "flat") 10 = (true, Some 0%nat).
Proof.
  intros block e.
  exact (proj2 (generated_name_is_selected "Mercy" "flat" "Salle 3" e block [] 10
                  eq_refl eq_refl eq_refl eq_refl eq_refl eq_refl ltac:(lia))).
Defined.

(** ** The two calendars: [_select_date_in_modal] and [_copy_vendredi_to_days] *)

Lemma click_day_found (target_day : Z) (cells : list calendar_cell) :
  click_day target_day cells = Some true -> cell_found target_day cells = true.
Proof.
  induction cells as [|cell rest IH]; cbn [click_day cell_found]; [discriminate|].
  destruct (cell_stale cell); [discriminate|].
  destruct (cell_class cell) as [classes|]; [|discriminate].
  destruct (str_in "old" classes || str_in "new" classes
            || str_in "notSelectable" classes) eqn:E1.
  - cbn [orb]. exact IH.
  - cbn [orb]. destruct (str_in "source" classes); [exact IH|].
    destruct (String.eqb (strip (cell_text cell)) (str target_day)); [reflexivity|exact IH].
Qed.

(** X15.  The loop of [_select_date_in_modal] and the inner loop of
    [_copy_vendredi_to_days] apply the same test to a calendar cell: when the
    first clicks a day, the second finds it, and on a calendar where no cell
    is stale and every cell has a class they agree.  They differ on a cell
    that raises: it is skipped by the copy to several days, and it ends the
    selection of a single date. *)
Theorem click_day_agrees_with_cell_found (target_day : Z) (cells : list calendar_cell) :
  (click_day target_day cells = Some true -> cell_found target_day cells = true) /\
  ((forall cell, In cell cells -> cell_stale cell = false /\ cell_class cell <> None) ->
   click_day target_day cells = Some (cell_found target_day cells)) /\
  (forall cell rest, cells = cell :: rest -> cell_stale cell = true ->
   click_day target_day cells = None /\
   cell_found target_day cells = cell_found target_day rest).
Proof.
  split; [apply click_day_found|split].
  - induction cells as [|cell rest IH]; cbn [click_day cell_found]; [reflexivity|].
    intros H. destruct (H cell (or_introl eq_refl)) as [Hs Hc]. rewrite Hs.
    destruct (cell_class cell) as [classes|]; [|congruence].
    assert (IH' := IH (fun c Hin => H c (or_intror Hin))).
    destruct (str_in "old" classes || str_in "new" classes
              || str_in "notSelectable" classes) eqn:E1.
    + cbn [orb]. exact IH'.
    + cbn [orb]. destruct (str_in "source" classes); [exact IH'|].
      destruct (String.eqb (strip (cell_text cell)) (str target_day)); [reflexivity|exact IH'].
  - intros cell rest -> Hs. cbn [click_day cell_found]. rewrite Hs. split; reflexivity.
Qed.

Lemma click_day_agrees_with_cell_found_witness :
  click_day 17 (day_cells (Sample.january 16) []) = Some true /\
  cell_found 17 (day_cells (Sample.january 16) []) = true.
Proof.
  assert (H : click_day 17 (day_cells (Sample.january 16) []) = Some true)
    by (vm_compute; reflexivity).
  split; [exact H|].
  exact (proj1 (click_day_agrees_with_cell_found 17 (day_cells (Sample.january 16) [])) H).
Defined.

Lemma split_char_first_field (sep : ascii) (field rest : string) :
  str_in (String sep "") field = false ->
  split_char sep (field ++ String sep rest) = (field, split sep rest).
Proof.
  induction field as [|c field IH]; cbn [str_in startswith append split_char].
  - intros _. unfold split. destruct (split_char sep rest) as [hd tl].
    rewrite Ascii.eqb_refl. reflexivity.
  - rewrite (Ascii.eqb_sym sep c). destruct (Ascii.eqb c sep) eqn:Ec; [discriminate|].
    cbn [andb orb]. intros H. rewrite (IH H). reflexivity.
Qed.

(** X16.  [_select_date_in_modal] reads the day of the target date and
    nothing else: two target dates with the same day field select the same
    cell of the calendar that is displayed, whatever their months and years
    are. *)
Theorem select_date_reads_the_day_only (p : date_picker) (day_field rest1 rest2 : string) :
  str_in "/" day_field = false ->
  _select_date_in_modal p (day_field ++ "/" ++ rest1) =
  _select_date_in_modal p (day_field ++ "/" ++ rest2).
Proof.
  intros H. unfold _select_date_in_modal.
  destruct (picker_opens p); cbn [negb]; [|reflexivity].
  unfold split.
  change ("/" ++ rest1) with (String "/" rest1).
  change ("/" ++ rest2) with (String "/" rest2).
  rewrite !(split_char_first_field "/" day_field _ H).
  unfold split. destruct (split_char "/" rest1), (split_char "/" rest2). reflexivity.
Qed.

Lemma select_date_reads_the_day_only_witness :
  let p := {| picker_opens := true; picker_cells := day_cells (Sample.january 30) [] |} in
  _select_date_in_modal p "05/02/2026" = _select_date_in_modal p "05/01/2026".
Proof.
  intros p.
  exact (select_date_reads_the_day_only p "05" "02/2026" "01/2026" eq_refl).
Defined.

(** ** Day counts, [_navigate_to_date] and the default date of [main.py] *)

Lemma week_shift_repeat (n : nat) :
  week_shift (repeat NextWeek n) = Z.of_nat n /\
  week_shift (repeat PrevWeek n) = - Z.of_nat n.
Proof.
  induction n as [|n [IH1 IH2]]; [split; reflexivity|].
  cbn [repeat week_shift]. rewrite IH1, IH2. split; lia.
Qed.

(** X17.  When both dates can be read and every arrow answers,
    [_navigate_to_date] clicks one arrow only, as many times as there are
    whole weeks between the first date displayed and the target: if each
    click moves the display by one week, the target date then lies in the
    seven days that start at the first date displayed.  A target earlier in
    the week than the first date displayed is reached by going one week
    further back (the division rounds down). *)
Theorem navigate_reaches_the_week (first_date target_date : string)
  (others : list string) (first_dt target_dt : datetime) :
  parse_date target_date = Some target_dt ->
  parse_date (strip first_date) = Some first_dt ->
  let clicks := _navigate_to_date (first_date :: others) None target_date in
  let shown := toordinal first_dt + 7 * week_shift clicks in
  shown <= toordinal target_dt <= shown + 6 /\
  (clicks = repeat NextWeek (List.length clicks) \/
   clicks = repeat PrevWeek (List.length clicks)).
Proof.
  intros Ht Hf. cbv zeta. unfold _navigate_to_date. rewrite Ht, Hf.
  set (diff := toordinal target_dt - toordinal first_dt).
  assert (Hdiv : 7 * (diff / 7) <= diff <= 7 * (diff / 7) + 6).
  { pose proof (Z.div_mod diff 7 ltac:(lia)).
    pose proof (Z.mod_pos_bound diff 7 ltac:(lia)). lia. }
  destruct (0 <? diff / 7) eqn:E1.
  - apply Z.ltb_lt in E1. unfold arrow_clicks.
    rewrite repeat_length, (proj1 (week_shift_repeat _)). split; [lia|]. left; reflexivity.
  - apply Z.ltb_ge in E1. destruct (diff / 7 <? 0) eqn:E2.
    + apply Z.ltb_lt in E2. unfold arrow_clicks.
      rewrite repeat_length, (proj2 (week_shift_repeat _)). split; [lia|].
      right; reflexivity.
    + apply Z.ltb_ge in E2. cbn [week_shift List.length repeat]. split; [lia|].
      left; reflexivity.
Qed.

Lemma navigate_reaches_the_week_witness :
  parse_date "30/01/2026" = Some Sample.anchor /\
  _navigate_to_date ["12/01/2026"; "13/01/2026"] None "30/01/2026"
  = [NextWeek; NextWeek] /\
  let shown := toordinal {| year := 2026; month := 1; day := 12 |}
               + 7 * week_shift (_navigate_to_date ["12/01/2026"; "13/01/2026"] None
                                                   "30/01/2026") in
  shown <= toordinal Sample.anchor <= shown + 6.
Proof.
  split; [reflexivity|]. split; [vm_compute; reflexivity|].
  exact (proj1 (navigate_reaches_the_week "12/01/2026" "30/01/2026" ["13/01/2026"]
                  {| year := 2026; month := 1; day := 12 |} Sample.anchor
                  eq_refl eq_refl)).
Defined.

Lemma days_before_year_succ (y : Z) :
  days_before_year (y + 1) = days_before_year y + 365 + (if is_leap y then 1 else 0).
Proof.
  unfold days_before_year, is_leap. cbv zeta.
  replace (y + 1 - 1) with y by lia.
  assert (H4 : y / 4 = (y - 1) / 4 + (if y mod 4 =? 0 then 1 else 0)).
  { destruct (y mod 4 =? 0) eqn:E; [apply Z.eqb_eq in E | apply Z.eqb_neq in E];
      pose proof (Z.div_mod y 4 ltac:(lia));
      pose proof (Z.mod_pos_bound y 4 ltac:(lia));
      pose proof (Z.div_mod (y - 1) 4 ltac:(lia));
      pose proof (Z.mod_pos_bound (y - 1) 4 ltac:(lia)); lia. }
  assert (H100 : y / 100 = (y - 1) / 100 + (if y mod 100 =? 0 then 1 else 0)).
  { destruct (y mod 100 =? 0) eqn:E; [apply Z.eqb_eq in E | apply Z.eqb_neq in E];
      pose proof (Z.div_mod y 100 ltac:(lia));
      pose proof (Z.mod_pos_bound y 100 ltac:(lia));
      pose proof (Z.div_mod (y - 1) 100 ltac:(lia));
      pose proof (Z.mod_pos_bound (y - 1) 100 ltac:(lia)); lia. }
  assert (H400 : y / 400 = (y - 1) / 400 + (if y mod 400 =? 0 then 1 else 0)).
  { destruct (y mod 400 =? 0) eqn:E; [apply Z.eqb_eq in E | apply Z.eqb_neq in E];
      pose proof (Z.div_mod y 400 ltac:(lia));
      pose proof (Z.mod_pos_bound y 400 ltac:(lia));
      pose proof (Z.div_mod (y - 1) 400 ltac:(lia));
      pose proof (Z.mod_pos_bound (y - 1) 400 ltac:(lia)); lia. }
  assert (Hm : y mod 400 = 0 -> y mod 100 = 0).
  { intros H. pose proof (Z.div_mod y 400 ltac:(lia)).
    pose proof (Z.div_mod y 100 ltac:(lia)).
    pose proof (Z.mod_pos_bound y 100 ltac:(lia)). lia. }
  assert (Hn : y mod 100 = 0 -> y mod 4 = 0).
  { intros H. pose proof (Z.div_mod y 100 ltac:(lia)).
    pose proof (Z.div_mod y 4 ltac:(lia)).
    pose proof (Z.mod_pos_bound y 4 ltac:(lia)). lia. }
  rewrite H4, H100, H400.
  destruct (Z.eqb_spec (y mod 4) 0) as [E4|E4], (Z.eqb_spec (y mod 100) 0) as [E100|E100],
           (Z.eqb_spec (y mod 400) 0) as [E400|E400];
    cbn [andb orb negb]; try lia; exfalso; auto.
Qed.

Lemma valid_date_bounds (a : datetime) :
  valid_date a = true ->
  1 <= year a <= 9999 /\ 1 <= month a <= 12 /\
  1 <= day a <= days_in_month (year a) (month a).
Proof. unfold valid_date. lia. Qed.

Lemma days_before_month_succ (y m : Z) :
  1 <= m < 12 ->
  days_before_month y (m + 1) = days_before_month y m + days_in_month y m.
Proof.
  intros H.
  assert (Hm : m = 1 \/ m = 2 \/ m = 3 \/ m = 4 \/ m = 5 \/ m = 6 \/ m = 7 \/ m = 8 \/
               m = 9 \/ m = 10 \/ m = 11) by lia.
  unfold days_before_month, days_in_month.
  destruct Hm as [-> | [-> | [-> | [-> | [-> | [-> | [-> | [-> | [-> | [-> | ->]]]]]]]]]];
    cbn; destruct (is_leap y); reflexivity.
Qed.

Lemma toordinal_next_day (a : datetime) :
  1 <= month a <= 12 -> 1 <= day a <= days_in_month (year a) (month a) ->
  toordinal (next_day a) = toordinal a + 1.
Proof.
  intros Hm Hd. unfold next_day, toordinal.
  destruct (day a <? days_in_month (year a) (month a)) eqn:E1; cbn [year month day].
  - lia.
  - apply Z.ltb_ge in E1. destruct (month a <? 12) eqn:E2; cbn [year month day].
    + apply Z.ltb_lt in E2. rewrite days_before_month_succ by lia. lia.
    + apply Z.ltb_ge in E2. assert (Em : month a = 12) by lia.
      rewrite Em in *. rewrite days_before_year_succ.
      assert (H31 : days_in_month (year a) 12 = 31) by reflexivity.
      assert (H1 : days_before_month (year a + 1) 1 = 0) by reflexivity.
      assert (H12 : days_before_month (year a) 12
                    = 334 + (if is_leap (year a) then 1 else 0)) by reflexivity.
      rewrite H1, H12. destruct (is_leap (year a)); lia.
Qed.

Lemma next_day_shape (a : datetime) :
  1 <= month a <= 12 -> 1 <= day a <= days_in_month (year a) (month a) ->
  1 <= month (next_day a) <= 12 /\
  1 <= day (next_day a) <= days_in_month (year (next_day a)) (month (next_day a)).
Proof.
  intros Hm Hd. unfold next_day.
  destruct (day a <? days_in_month (year a) (month a)) eqn:E1; cbn [year month day].
  - apply Z.ltb_lt in E1. lia.
  - destruct (month a <? 12) eqn:E2; cbn [year month day].
    + apply Z.ltb_lt in E2. pose proof (days_in_month_bounds (year a) (month a + 1)). lia.
    + pose proof (days_in_month_bounds (year a + 1) 1). lia.
Qed.

Lemma toordinal_add_days (n : nat) (a : datetime) :
  1 <= month a <= 12 -> 1 <= day a <= days_in_month (year a) (month a) ->
  toordinal (add_days n a) = toordinal a + Z.of_nat n.
Proof.
  revert a. induction n as [|n IH]; intros a Hm Hd; cbn [add_days]; [lia|].
  destruct (next_day_shape a Hm Hd) as [Hm' Hd'].
  rewrite (IH _ Hm' Hd'), (toordinal_next_day a Hm Hd). lia.
Qed.

(** X18.  The default start date that [main.py] proposes is a Friday: today
    when today is a Friday and it is not yet noon, and otherwise the first
    Friday after today, at most seven days ahead. *)
Theorem default_start_is_next_friday (now : clock) :
  valid_date (today now) = true ->
  let k := days_until_friday now in
  0 <= k <= 7 /\
  weekday (add_days (Z.to_nat k) (today now)) = 4 /\
  (k = 0 <-> weekday (today now) = 4 /\ hour_now now < 12) /\
  (forall j, (0 < j)%nat -> Z.of_nat j < k -> weekday (add_days j (today now)) <> 4).
Proof.
  intros Hv. destruct (valid_date_bounds _ Hv) as (_ & Hm & Hd). cbv zeta.
  assert (Hw : forall n, weekday (add_days n (today now))
                         = (weekday (today now) + Z.of_nat n) mod 7).
  { intros n. unfold weekday. rewrite (toordinal_add_days n _ Hm Hd).
    rewrite Zplus_mod_idemp_l. f_equal. lia. }
  assert (Hr : 0 <= weekday (today now) < 7)
    by (unfold weekday; apply Z.mod_pos_bound; lia).
  unfold days_until_friday. cbv zeta.
  set (w := weekday (today now)) in *.
  assert (Hdays : (4 - w) mod 7 = if w <=? 4 then 4 - w else 11 - w).
  { destruct (w <=? 4) eqn:E; [apply Z.leb_le in E | apply Z.leb_gt in E].
    - apply Z.mod_small. lia.
    - replace (4 - w) with (11 - w + (-1) * 7) by lia.
      rewrite Z_mod_plus_full. apply Z.mod_small. lia. }
  rewrite Hdays.
  assert (Hmod : forall x, 0 <= x < 14 -> (x mod 7 = 4 <-> x = 4 \/ x = 11)).
  { intros x Hx. destruct (Z_lt_le_dec x 7).
    - rewrite Z.mod_small by lia. lia.
    - replace x with (x - 7 + 1 * 7) by lia. rewrite Z_mod_plus_full.
      rewrite Z.mod_small by lia. lia. }
  destruct (w <=? 4) eqn:E; [apply Z.leb_le in E | apply Z.leb_gt in E].
  - destruct (4 - w =? 0) eqn:E0; [apply Z.eqb_eq in E0 | apply Z.eqb_neq in E0];
      cbn [andb].
    + destruct (12 <=? hour_now now) eqn:Eh;
        [apply Z.leb_le in Eh | apply Z.leb_gt in Eh].
      * split; [lia|]. split; [rewrite Hw; apply Hmod; lia|].
        split; [lia|]. intros j Hj Hk. rewrite Hw. rewrite Hmod by lia. lia.
      * split; [lia|]. split; [rewrite Hw; apply Hmod; lia|].
        split; [lia|]. intros j Hj Hk. lia.
    + split; [lia|]. split; [rewrite Hw; apply Hmod; lia|].
      split; [lia|]. intros j Hj Hk. rewrite Hw. rewrite Hmod by lia. lia.
  - assert (E0 : (11 - w =? 0) = false) by (apply Z.eqb_neq; lia).
    rewrite E0. cbn [andb].
    split; [lia|]. split; [rewrite Hw; apply Hmod; lia|].
    split; [lia|]. intros j Hj Hk. rewrite Hw. rewrite Hmod by lia. lia.
Qed.

Lemma default_start_is_next_friday_witness :
  let now := {| today := {| year := 2026; month := 11; day := 4 |}; hour_now := 9 |} in
  valid_date (today now) = true /\
  days_until_friday now = 2 /\
  weekday (add_days (Z.to_nat (days_until_friday now)) (today now)) = 4.
Proof.
  intros now. split; [reflexivity|]. split; [reflexivity|].
  exact (proj1 (proj2 (default_start_is_next_friday now eq_refl))).
Defined.

(** ** The dates of [main.py] *)

Lemma mem_char_In (c : ascii) (chars : string) :
  mem_char c chars = true -> In c (list_ascii_of_string chars).
Proof.
  induction chars as [|d chars IH]; cbn [mem_char list_ascii_of_string]; [discriminate|].
  intros H. apply orb_true_iff in H as [H | H].
  - left. symmetry. apply Ascii.eqb_eq. exact H.
  - right. exact (IH H).
Qed.

Lemma is_digit_In (c : ascii) :
  is_digit c = true -> In c (list_ascii_of_string "0123456789").
Proof.
  destruct c as [[] [] [] [] [] [] [] []]; try discriminate; intros _; cbn; tauto.
Qed.

Lemma split_char_no_sep (sep : ascii) (s : string) :
  str_in (String sep "") s = false -> split_char sep s = (s, []).
Proof.
  induction s as [|c s IH]; [reflexivity|].
  cbn [str_in startswith split_char]. rewrite (Ascii.eqb_sym sep c).
  destruct (Ascii.eqb c sep); [discriminate|]. cbn [andb orb].
  intros H. rewrite (IH H). reflexivity.
Qed.

Lemma parse_date_fields (D M Y : string) :
  str_in "/" D = false -> str_in "/" M = false -> str_in "/" Y = false ->
  parse_date (D ++ "/" ++ M ++ "/" ++ Y) =
  match int Y, int M, int D with
  | Some y, Some m, Some d => make_datetime y m d
  | _, _, _ => None
  end.
Proof.
  intros HD HM HY. unfold parse_date, split.
  change ("/" ++ M ++ "/" ++ Y) with (String "/" (M ++ "/" ++ Y)).
  rewrite (split_char_first_field "/" D _ HD). unfold split.
  change ("/" ++ Y) with (String "/" Y).
  rewrite (split_char_first_field "/" M _ HM). unfold split.
  rewrite (split_char_no_sep "/" Y HY).
  destruct (int Y), (int M), (int D); reflexivity.
Qed.

Lemma read_day_shape (text : string) (d : Z) (rest : string) :
  In (d, rest) (read_day text) ->
  exists D, text = D ++ rest /\ str_in "/" D = false /\ int D = Some d.
Proof.
  destruct text as [|a [|b r]]; cbn [read_day]; [intros []| |].
  - destruct (in_chars a "123456789") eqn:Ea; [|intros []].
    intros [H | []]. injection H as <- <-.
    apply mem_char_In in Ea. chars_cases Ea;
      (eexists (String _ ""); split; [reflexivity|split; reflexivity]).
  - intros H.
    repeat (apply in_app_or in H as [H | H]).
    + destruct (Ascii.eqb a "3") eqn:Ea; cbn [andb] in H; [|destruct H].
      destruct (in_chars b "01") eqn:Eb; [|destruct H].
      destruct H as [H | []]. injection H as <- <-.
      apply Ascii.eqb_eq in Ea. subst a.
      apply mem_char_In in Eb. chars_cases Eb;
        (eexists (String _ (String _ "")); split; [reflexivity|split; reflexivity]).
    + destruct (in_chars a "12") eqn:Ea; cbn [andb] in H; [|destruct H].
      destruct (is_digit b) eqn:Eb; [|destruct H].
      destruct H as [H | []]. injection H as <- <-.
      apply mem_char_In in Ea. apply is_digit_In in Eb.
      chars_cases Ea; chars_cases Eb;
        (eexists (String _ (String _ "")); split; [reflexivity|split; reflexivity]).
    + destruct (Ascii.eqb a "0") eqn:Ea; cbn [andb] in H; [|destruct H].
      destruct (in_chars b "123456789") eqn:Eb; [|destruct H].
      destruct H as [H | []]. injection H as <- <-.
      apply Ascii.eqb_eq in Ea. subst a.
      apply mem_char_In in Eb. chars_cases Eb;
        (eexists (String _ (String _ "")); split; [reflexivity|split; reflexivity]).
    + destruct (in_chars a "123456789") eqn:Ea; [|destruct H].
      destruct H as [H | []]. injection H as <- <-.
      apply mem_char_In in Ea. chars_cases Ea;
        (eexists (String _ ""); split; [reflexivity|split; reflexivity]).
    + destruct (Ascii.eqb a " ") eqn:Ea; cbn [andb] in H; [|destruct H].
      destruct (in_chars b "123456789") eqn:Eb; [|destruct H].
      destruct H as [H | []]. injection H as <- <-.
      apply Ascii.eqb_eq in Ea. subst a.
      apply mem_char_In in Eb. chars_cases Eb;
        (eexists (String _ (String _ "")); split; [reflexivity|split; reflexivity]).
Qed.

Lemma read_month_shape (text : string) (m : Z) (rest : string) :
  In (m, rest) (read_month text) ->
  exists M, text = M ++ rest /\ str_in "/" M = false /\ int M = Some m.
Proof.
  destruct text as [|a [|b r]]; cbn [read_month]; [intros []| |].
  - destruct (in_chars a "123456789") eqn:Ea; [|intros []].
    intros [H | []]. injection H as <- <-.
    apply mem_char_In in Ea. chars_cases Ea;
      (eexists (String _ ""); split; [reflexivity|split; reflexivity]).
  - intros H.
    repeat (apply in_app_or in H as [H | H]).
    + destruct (Ascii.eqb a "1") eqn:Ea; cbn [andb] in H; [|destruct H].
      destruct (in_chars b "012") eqn:Eb; [|destruct H].
      destruct H as [H | []]. injection H as <- <-.
      apply Ascii.eqb_eq in Ea. subst a.
      apply mem_char_In in Eb. chars_cases Eb;
        (eexists (String _ (String _ "")); split; [reflexivity|split; reflexivity]).
    + destruct (Ascii.eqb a "0") eqn:Ea; cbn [andb] in H; [|destruct H].
      destruct (in_chars b "123456789") eqn:Eb; [|destruct H].
      destruct H as [H | []]. injection H as <- <-.
      apply Ascii.eqb_eq in Ea. subst a.
      apply mem_char_In in Eb. chars_cases Eb;
        (eexists (String _ (String _ "")); split; [reflexivity|split; reflexivity]).
    + destruct (in_chars a "123456789") eqn:Ea; [|destruct H].
      destruct H as [H | []]. injection H as <- <-.
      apply mem_char_In in Ea. chars_cases Ea;
        (eexists (String _ ""); split; [reflexivity|split; reflexivity]).
Qed.

Lemma four_digits_read :
  let ds := list_ascii_of_string "0123456789" in
  forallb (fun a => forallb (fun b => forallb (fun c => forallb (fun d =>
    let Y := String a (String b (String c (String d ""))) in
    negb (str_in "/" Y) &&
    match int Y with
    | Some y => y =? 1000 * digit_value a + 100 * digit_value b
                     + 10 * digit_value c + digit_value d
    | None => false
    end) ds) ds) ds) ds = true.
Proof. vm_compute. reflexivity. Qed.

Lemma read_year_shape (text : string) (y : Z) (leftover : string) :
  read_year text = Some (y, leftover) ->
  exists Y, text = Y ++ leftover /\ str_in "/" Y = false /\ int Y = Some y.
Proof.
  destruct text as [|a [|b [|c [|d r]]]]; cbn [read_year]; try discriminate.
  destruct (is_digit a) eqn:Ea; [|discriminate].
  destruct (is_digit b) eqn:Eb; [|discriminate].
  destruct (is_digit c) eqn:Ec; [|discriminate].
  destruct (is_digit d) eqn:Ed; [|discriminate].
  cbn [andb]. intros H. injection H as <- <-.
  exists (String a (String b (String c (String d "")))).
  split; [reflexivity|].
  pose proof four_digits_read as Hall. cbv zeta in Hall.
  rewrite forallb_forall in Hall. specialize (Hall a (is_digit_In a Ea)).
  rewrite forallb_forall in Hall. specialize (Hall b (is_digit_In b Eb)).
  rewrite forallb_forall in Hall. specialize (Hall c (is_digit_In c Ec)).
  rewrite forallb_forall in Hall. specialize (Hall d (is_digit_In d Ed)).
  apply andb_true_iff in Hall as [Hslash Hint].
  split; [apply negb_true_iff; exact Hslash|].
  destruct (int (String a (String b (String c (String d ""))))) as [v|]; [|discriminate].
  apply Z.eqb_eq in Hint. rewrite Hint. reflexivity.
Qed.

Lemma first_match_found {A : Type} (ways : list (Z * string))
  (k : Z -> string -> option A) (x : A) :
  first_match ways k = Some x ->
  exists v r, In (v, String "/" r) ways /\ k v r = Some x.
Proof.
  induction ways as [|[v rest] others IH]; cbn [first_match]; [discriminate|].
  assert (Hnext : first_match others k = Some x ->
                  exists v0 r, In (v0, String "/" r) ((v, rest) :: others) /\
                               k v0 r = Some x).
  { intros H. destruct (IH H) as (v0 & r & Hin & Hk). exists v0, r. split; [right|]; auto. }
  destruct (after_slash rest) as [r|] eqn:Er; [|exact Hnext].
  destruct (k v r) as [x0|] eqn:Ek; [|exact Hnext].
  intros H. injection H as <-. exists v, r. split; [left|exact Ek].
  unfold after_slash in Er. destruct rest as [|c rest]; [discriminate|].
  destruct c as [[] [] [] [] [] [] [] []]; try discriminate.
  injection Er as <-. reflexivity.
Qed.

Lemma match_dmy_shape (text : string) (d m y : Z) (leftover : string) :
  match_dmy text = Some (d, m, y, leftover) ->
  exists D M Y,
    text = D ++ "/" ++ M ++ "/" ++ Y ++ leftover /\
    str_in "/" D = false /\ str_in "/" M = false /\ str_in "/" Y = false /\
    int D = Some d /\ int M = Some m /\ int Y = Some y.
Proof.
  unfold match_dmy. intros H.
  apply first_match_found in H as (d0 & r & Hd & H).
  apply first_match_found in H as (m0 & r' & Hm & H).
  destruct (read_year r') as [[y0 l0]|] eqn:Ey; [|discriminate].
  injection H as <- <- <- <-.
  apply read_day_shape in Hd as (D & -> & HD & HDi).
  apply read_month_shape in Hm as (M & -> & HM & HMi).
  apply read_year_shape in Ey as (Y & -> & HY & HYi).
  exists D, M, Y. repeat (split; [first [assumption|reflexivity]|]). assumption.
Qed.

Lemma strptime_dmy_parse_date (text : string) (a : datetime) :
  strptime_dmy text = Some a -> parse_date text = Some a.
Proof.
  unfold strptime_dmy.
  destruct (match_dmy text) as [[[[d m] y] leftover]|] eqn:E; [|discriminate].
  destruct leftover; [|discriminate].
  apply match_dmy_shape in E as (D & M & Y & -> & HD & HM & HY & HDi & HMi & HYi).
  rewrite append_nil_r, (parse_date_fields D M Y HD HM HY), HDi, HMi, HYi.
  auto.
Qed.

(** X19.  A text that the validation of [main.py] accepts
    ([datetime.strptime] with [%d/%m/%Y]) is read by the scheduler
    ([split('/')], [int], [datetime]) as the same date, and it is never empty:
    [schedule_seances] takes it as a bound. *)
Theorem accepted_date_is_read_the_same (text : string) (a : datetime) :
  strptime_dmy text = Some a ->
  parse_date text = Some a /\ parse_bound (Some text) = Some (Some a).
Proof.
  intros H. apply strptime_dmy_parse_date in H. split; [exact H|].
  unfold parse_bound. rewrite (parse_date_truthy _ _ H), H. reflexivity.
Qed.

Lemma accepted_date_is_read_the_same_witness :
  strptime_dmy " 7/2/2026" = Some {| year := 2026; month := 2; day := 7 |} /\
  parse_date " 7/2/2026" = Some {| year := 2026; month := 2; day := 7 |}.
Proof.
  assert (H : strptime_dmy " 7/2/2026" = Some {| year := 2026; month := 2; day := 7 |})
    by (vm_compute; reflexivity).
  split; [exact H|].
  exact (proj1 (accepted_date_is_read_the_same " 7/2/2026" _ H)).
Defined.

Lemma read_day_fmt (d : Z) (r : string) :
  1 <= d <= 31 ->
  exists others, read_day (fmt_02d d ++ String "/" r) = (d, String "/" r) :: others.
Proof.
  intros H.
  assert (Hin : In d (map Z.of_nat (seq 1 31))).
  { apply in_map_iff. exists (Z.to_nat d). split; [lia|]. apply in_seq. lia. }
  cbn [seq map In] in Hin.
  repeat (destruct Hin as [<- | Hin]; [eexists; reflexivity|]).
  destruct Hin.
Qed.

Lemma read_month_fmt (m : Z) (r : string) :
  1 <= m <= 12 ->
  exists others, read_month (fmt_02d m ++ String "/" r) = (m, String "/" r) :: others.
Proof.
  intros H.
  assert (Hin : In m (map Z.of_nat (seq 1 12))).
  { apply in_map_iff. exists (Z.to_nat m). split; [lia|]. apply in_seq. lia. }
  cbn [seq map In] in Hin.
  repeat (destruct Hin as [<- | Hin]; [eexists; reflexivity|]).
  destruct Hin.
Qed.

Lemma read_year_str :
  let ds := [0; 1; 2; 3; 4; 5; 6; 7; 8; 9] in
  forallb (fun a => forallb (fun b => forallb (fun c => forallb (fun d =>
    let y := 1000 * a + 100 * b + 10 * c + d in
    match read_year (str y) with
    | Some (y', EmptyString) => y' =? y
    | _ => false
    end) ds) ds) ds) [1; 2; 3; 4; 5; 6; 7; 8; 9] = true.
Proof. vm_compute. reflexivity. Qed.

Lemma digit_in (x : Z) : 0 <= x <= 9 -> In x [0; 1; 2; 3; 4; 5; 6; 7; 8; 9].
Proof.
  intros H.
  assert (Hx : x = 0 \/ x = 1 \/ x = 2 \/ x = 3 \/ x = 4 \/ x = 5 \/ x = 6 \/ x = 7 \/
               x = 8 \/ x = 9) by lia.
  cbn [In]. intuition.
Qed.

Lemma read_year_of_str (y : Z) :
  1000 <= y <= 9999 -> read_year (str y) = Some (y, "").
Proof.
  intros H.
  pose proof (Z.div_mod y 1000 ltac:(lia)) as H1.
  pose proof (Z.mod_pos_bound y 1000 ltac:(lia)) as B1.
  pose proof (Z.div_mod (y mod 1000) 100 ltac:(lia)) as H2.
  pose proof (Z.mod_pos_bound (y mod 1000) 100 ltac:(lia)) as B2.
  pose proof (Z.div_mod ((y mod 1000) mod 100) 10 ltac:(lia)) as H3.
  pose proof (Z.mod_pos_bound ((y mod 1000) mod 100) 10 ltac:(lia)) as B3.
  set (a := y / 1000) in *. set (r1 := y mod 1000) in *.
  set (b := r1 / 100) in *. set (r2 := r1 mod 100) in *.
  set (c := r2 / 10) in *. set (d := r2 mod 10) in *.
  assert (Ha : 1 <= a <= 9) by lia.
  assert (Hb : 0 <= b <= 9) by lia.
  assert (Hc : 0 <= c <= 9) by lia.
  assert (Hy : y = 1000 * a + 100 * b + 10 * c + d) by lia.
  pose proof read_year_str as Hall. cbv zeta in Hall.
  rewrite forallb_forall in Hall.
  assert (Hain : In a [1; 2; 3; 4; 5; 6; 7; 8; 9]).
  { destruct (digit_in a ltac:(lia)) as [E | Hin]; [lia|exact Hin]. }
  specialize (Hall a Hain).
  rewrite forallb_forall in Hall. specialize (Hall b (digit_in b Hb)).
  rewrite forallb_forall in Hall. specialize (Hall c (digit_in c Hc)).
  rewrite forallb_forall in Hall. specialize (Hall d (digit_in d ltac:(lia))).
  rewrite <- Hy in Hall.
  destruct (read_year (str y)) as [[y' leftover]|]; [|discriminate].
  destruct leftover; [|discriminate]. apply Z.eqb_eq in Hall. subst y'. reflexivity.
Qed.

Lemma strptime_strftime (a : datetime) :
  valid_date a = true -> 1000 <= year a -> strptime_dmy (strftime_dmy a) = Some a.
Proof.
  intros Hv Hy. destruct (valid_date_bounds a Hv) as (Hyear & Hm & Hd).
  unfold strptime_dmy, strftime_dmy, match_dmy.
  change ("/" ++ fmt_02d (month a) ++ "/" ++ str (year a))
    with (String "/" (fmt_02d (month a) ++ String "/" (str (year a)))).
  pose proof (days_in_month_bounds (year a) (month a)) as Hb.
  destruct (read_day_fmt (day a) (fmt_02d (month a) ++ String "/" (str (year a)))
              ltac:(lia)) as [others ->].
  cbn [first_match after_slash].
  destruct (read_month_fmt (month a) (str (year a)) Hm) as [others' ->].
  cbn [first_match after_slash].
  rewrite (read_year_of_str (year a)) by lia.
  unfold make_datetime.
  assert (Hok : (1 <=? year a) && (year a <=? 9999) && (1 <=? month a)
                && (month a <=? 12) && (1 <=? day a)
                && (day a <=? days_in_month (year a) (month a)) = true) by exact Hv.
  rewrite Hok. destruct a; reflexivity.
Qed.

(** X20.  Writing a date with [strftime("%d/%m/%Y")] and reading it back
    gives the date again, with [strptime] as with the reading of the
    scheduler, for the years written with four digits. *)
Theorem strftime_strptime_round_trip (a : datetime) :
  valid_date a = true -> 1000 <= year a ->
  strptime_dmy (strftime_dmy a) = Some a /\ parse_date (strftime_dmy a) = Some a.
Proof.
  intros Hv Hy. pose proof (strptime_strftime a Hv Hy) as H.
  split; [exact H|]. apply strptime_dmy_parse_date. exact H.
Qed.

Lemma strftime_strptime_round_trip_witness :
  strptime_dmy (strftime_dmy Sample.anchor) = Some Sample.anchor /\
  parse_date (strftime_dmy Sample.anchor) = Some Sample.anchor.
Proof. exact (strftime_strptime_round_trip Sample.anchor eq_refl ltac:(cbn; lia)). Defined.

Lemma strptime_dmy_valid (text : string) (a : datetime) :
  strptime_dmy text = Some a -> valid_date a = true.
Proof.
  unfold strptime_dmy.
  destruct (match_dmy text) as [[[[d m] y] leftover]|]; [|discriminate].
  destruct leftover; [|discriminate].
  unfold make_datetime, valid_date.
  destruct ((1 <=? y) && (y <=? 9999) && (1 <=? m) && (m <=? 12) && (1 <=? d)
            && (d <=? days_in_month y m)) eqn:E; [|discriminate].
  intros H. injection H as <-. exact E.
Qed.

Lemma add_days_valid (n : nat) (a : datetime) :
  valid_date a = true -> year (add_days n a) <= 9999 ->
  valid_date (add_days n a) = true /\
  year a <= year (add_days n a) <= year a + Z.of_nat n.
Proof.
  revert a. induction n as [|n IH]; intros a Hv Hy; cbn [add_days] in *.
  - split; [exact Hv|lia].
  - destruct (valid_date_bounds a Hv) as (Hyear & Hm & Hd).
    destruct (next_day_shape a Hm Hd) as [Hm' Hd'].
    assert (Hyn : year a <= year (next_day a) <= year a + 1).
    { unfold next_day. destruct (day a <? _); cbn [year]; [lia|].
      destruct (month a <? 12); cbn [year]; lia. }
    assert (Hlow : forall k b, year b <= year (add_days k b)).
    { intros k b. pose proof (add_days_not_before k b) as Hlt. unfold dt_lt in Hlt.
      apply orb_false_iff in Hlt as [Hlt _]. apply Z.ltb_ge in Hlt. exact Hlt. }
    assert (Hv' : valid_date (next_day a) = true).
    { pose proof (Hlow n (next_day a)). unfold valid_date.
      repeat (apply andb_true_iff; split); lia. }
    destruct (IH _ Hv' Hy) as [Hvn Hyb]. split; [exact Hvn|lia].
Qed.

Lemma plus_days_some (n : nat) (a r : datetime) :
  plus_days n a = Some r -> r = add_days n a /\ year r <= 9999.
Proof.
  unfold plus_days. destruct (year (add_days n a) <=? 9999) eqn:E; [|discriminate].
  intros H. injection H as <-. split; [reflexivity|]. apply Z.leb_le. exact E.
Qed.

(** X21.  What [main()] hands to the workflow: the room is 2 or 3 with its
    name, the minutes are one of [00], [15], [30], the start date is one that
    [schedule_seances] reads as a date, and (for a year written with four
    digits) the end date is read as the day six days after it. *)
Theorem main_hands_over_readable_dates (now : clock) (lines : list string) (l : launch) :
  main now lines = Some (Some l) ->
  ((launch_salle l = 2 /\ launch_salle_name l = "Selectotel") \/
   (launch_salle l = 3 /\ launch_salle_name l = "Brunet")) /\
  In (launch_minutes l) ["00"; "15"; "30"] /\
  exists debut,
    parse_bound (Some (launch_date_debut l)) = Some (Some debut) /\
    (1000 <= year debut ->
     parse_bound (Some (launch_date_fin l)) = Some (Some (add_days 6 debut))).
Proof.
  unfold main.
  destruct (demander_salle lines) as [[[salle|] rest]|] eqn:Es; try discriminate.
  destruct (demander_minutes rest) as [[minutes rest']|] eqn:Em; [|discriminate].
  destruct (demander_date_debut now rest') as [[[date_debut date_fin] rest'']|] eqn:Ed;
    [|discriminate].
  intros H. injection H as <-. cbn [launch_salle launch_salle_name launch_minutes
                                    launch_date_debut launch_date_fin].
  split; [|split].
  - clear Em Ed. revert Es. induction lines as [|line lines IH]; cbn [demander_salle];
      [discriminate|].
    destruct (String.eqb (lower (strip line)) "2");
      [intros H; injection H as <- <-; left; split; reflexivity|].
    destruct (String.eqb (lower (strip line)) "3");
      [intros H; injection H as <- <-; right; split; reflexivity|].
    destruct (String.eqb (lower (strip line)) "q"); [discriminate|exact IH].
  - clear Es Ed. revert Em. induction rest as [|line rest IH]; cbn [demander_minutes];
      [discriminate|].
    destruct (String.eqb (strip line) "0"); [intros H; injection H as <- <-; cbn; tauto|].
    destruct (String.eqb (strip line) "1"); [intros H; injection H as <- <-; cbn; tauto|].
    destruct (String.eqb (strip line) "2"); [intros H; injection H as <- <-; cbn; tauto|].
    exact IH.
  - clear Es Em. unfold demander_date_debut in Ed.
    destruct (plus_days _ (today now)) as [vendredi|]; [|discriminate].
    destruct (read_date_debut (strftime_dmy vendredi) rest') as [[dd rest3]|];
      [|discriminate].
    destruct (strptime_dmy dd) as [debut|] eqn:Ep; [|discriminate].
    destruct (plus_days 6 debut) as [fin|] eqn:Ef; [|discriminate].
    injection Ed as <- <- <-.
    exists debut.
    pose proof (strptime_dmy_parse_date _ _ Ep) as Hp.
    split.
    + unfold parse_bound. rewrite (parse_date_truthy _ _ Hp), Hp. reflexivity.
    + intros Hy. destruct (plus_days_some _ _ _ Ef) as [Hfin E9].
      destruct (add_days_valid 6 debut (strptime_dmy_valid _ _ Ep)
                  ltac:(rewrite <- Hfin; exact E9)) as [Hv Hb].
      rewrite <- Hfin in *.
      pose proof (strptime_strftime _ Hv ltac:(lia)) as Hr.
      apply strptime_dmy_parse_date in Hr.
      unfold parse_bound. rewrite (parse_date_truthy _ _ Hr), Hr. reflexivity.
Qed.

Lemma main_hands_over_readable_dates_witness :
  let now := {| today := {| year := 2026; month := 11; day := 4 |}; hour_now := 9 |} in
  let l := {| launch_salle := 3; launch_salle_name := "Brunet"; launch_minutes := "15";
              launch_date_debut := "06/11/2026"; launch_date_fin := "12/11/2026" |} in
  main now ["3"; "1"; ""] = Some (Some l) /\
  exists debut,
    parse_bound (Some "06/11/2026") = Some (Some debut) /\
    (1000 <= year debut ->
     parse_bound (Some "12/11/2026") = Some (Some (add_days 6 debut))).
Proof.
  intros now l.
  assert (H : main now ["3"; "1"; ""] = Some (Some l)) by (vm_compute; reflexivity).
  split; [exact H|].
  exact (proj2 (proj2 (main_hands_over_readable_dates now ["3"; "1"; ""] l H))).
Defined.

Lemma add_days_year_le (n : nat) (a : datetime) :
  year (add_days n a) <= year a + Z.of_nat n.
Proof.
  revert a. induction n as [|n IH]; intros a; cbn [add_days]; [lia|].
  assert (Hy : year (next_day a) <= year a + 1).
  { unfold next_day. destruct (day a <? _); cbn [year]; [lia|].
    destruct (month a <? 12); cbn [year]; lia. }
  pose proof (IH (next_day a)). lia.
Qed.

(** X22.  [main()] does hand over a launch: when the operator answers the
    room and the minutes and presses Enter at the date, it returns the
    default Friday as start date and the day six days later as end date,
    both written [dd/mm/yyyy]. *)
Theorem main_launches_with_default_dates (now : clock)
  (salle_line minutes_line date_line : string) (rest : list string) :
  valid_date (today now) = true ->
  1000 <= year (today now) -> year (today now) + 13 <= 9999 ->
  In (lower (strip salle_line)) ["2"; "3"] ->
  In (strip minutes_line) ["0"; "1"; "2"] ->
  strip date_line = "" ->
  exists l,
    main now (salle_line :: minutes_line :: date_line :: rest) = Some (Some l) /\
    str (launch_salle l) = lower (strip salle_line) /\
    launch_date_debut l
    = strftime_dmy (add_days (Z.to_nat (days_until_friday now)) (today now)) /\
    launch_date_fin l
    = strftime_dmy (add_days 6 (add_days (Z.to_nat (days_until_friday now)) (today now))).
Proof.
  intros Hv Hy1 Hy2 Hs Hm Hd.
  set (k := Z.to_nat (days_until_friday now)).
  set (friday := add_days k (today now)).
  assert (Hk : (k <= 7)%nat).
  { unfold k, days_until_friday. cbv zeta.
    pose proof (Z.mod_pos_bound (4 - weekday (today now)) 7 ltac:(lia)).
    destruct (_ && _); lia. }
  pose proof (add_days_year_le k (today now)) as Hyf. fold friday in Hyf.
  pose proof (add_days_year_le 6 friday) as Hyt.
  destruct (add_days_valid k (today now) Hv ltac:(fold friday; lia)) as [Hvf Hbf].
  fold friday in Hvf, Hbf.
  assert (Ef : plus_days k (today now) = Some friday).
  { unfold plus_days. fold friday.
    assert (E : (year friday <=? 9999) = true) by (apply Z.leb_le; lia).
    rewrite E. reflexivity. }
  assert (Et : plus_days 6 friday = Some (add_days 6 friday)).
  { unfold plus_days.
    assert (E : (year (add_days 6 friday) <=? 9999) = true) by (apply Z.leb_le; lia).
    rewrite E. reflexivity. }
  assert (Ed : demander_date_debut now (date_line :: rest)
               = Some (strftime_dmy friday, strftime_dmy (add_days 6 friday), rest)).
  { unfold demander_date_debut. fold k. rewrite Ef.
    cbn [read_date_debut]. rewrite Hd. cbn [String.eqb].
    rewrite (strptime_strftime friday Hvf ltac:(lia)), Et. reflexivity. }
  assert (Emin : exists minutes,
            demander_minutes (minutes_line :: date_line :: rest)
            = Some (minutes, date_line :: rest)).
  { cbn [demander_minutes]. destruct Hm as [<- | [<- | [<- | []]]]; cbn; eauto. }
  destruct Emin as [minutes Emin].
  assert (Esalle : exists salle,
            demander_salle (salle_line :: minutes_line :: date_line :: rest)
            = Some (Some salle, minutes_line :: date_line :: rest) /\
            str salle = lower (strip salle_line)).
  { cbn [demander_salle]. destruct Hs as [<- | [<- | []]]; cbn; eauto. }
  destruct Esalle as (salle & Esalle & Hstr).
  eexists. unfold main. rewrite Esalle, Emin, Ed.
  split; [reflexivity|]. cbn [launch_salle launch_date_debut launch_date_fin].
  split; [exact Hstr|]. split; reflexivity.
Qed.

Lemma main_launches_with_default_dates_witness :
  let now := {| today := {| year := 2026; month := 11; day := 4 |}; hour_now := 9 |} in
  exists l,
    main now [" 2 "; "0"; ""] = Some (Some l) /\
    str (launch_salle l) = lower (strip " 2 ") /\
    launch_date_debut l
    = strftime_dmy (add_days (Z.to_nat (days_until_friday now)) (today now)) /\
    launch_date_fin l
    = strftime_dmy (add_days 6 (add_days (Z.to_nat (days_until_friday now)) (today now))).
Proof.
  intros now.
  exact (main_launches_with_default_dates now " 2 " "0" "" [] eq_refl
           ltac:(cbn; lia) ltac:(cbn; lia) ltac:(cbn; tauto) ltac:(cbn; tauto) eq_refl).
Defined.

(** ** [replace_film_in_block] *)

Lemma save_changes_actions (e : clip_editor) (new_block_name : option string)
  (a : editor_action) :
  In a (save_changes e new_block_name) ->
  In ClickSave (save_changes e new_block_name) /\
  save_icon_clicks e = true /\
  match a with
  | ClickSave => True
  | TypeTitle n => new_block_name = Some n /\ truthy n = true /\ title_input_found e = true
  | ClickOverwrite => overwrite_clicks e = true
  | _ => False
  end.
Proof.
  unfold save_changes.
  destruct (save_icon_clicks e); cbn [negb]; [|intros []].
  destruct new_block_name as [n|]; cbn [opt_truthy].
  - destruct (truthy n) eqn:Et.
    + destruct (title_input_found e); cbn [negb].
      * destruct (overwrite_clicks e); cbn [In];
          intros H; (split; [auto|]); (split; [reflexivity|]);
          repeat (destruct H as [<- | H]; [auto|]); destruct H.
      * cbn [In]. intros [<- | []]. auto.
    + destruct (overwrite_clicks e); cbn [In];
        intros H; (split; [auto|]); (split; [reflexivity|]);
        repeat (destruct H as [<- | H]; [auto|]); destruct H.
  - destruct (overwrite_clicks e); cbn [In];
      intros H; (split; [auto|]); (split; [reflexivity|]);
      repeat (destruct H as [<- | H]; [auto|]); destruct H.
Qed.

(** X23.  [replace_film_in_block] reports whether the first clip was dragged
    under the marker of the room: it returns [True] exactly when the clips
    tab opens and loads, the first clip and the marker row are found and the
    drag is performed.  Deleting the old film, sorting the clips and saving
    play no part in the result, so it reports success also when nothing was
    saved.  The save is attempted only after the drag, the title is typed
    only for a block name that is given, after the save icon was clicked, and
    the markers used are those of the room. *)
Theorem replace_film_reports_the_drag (salle_is_2 : bool) (e : clip_editor)
  (new_block_name : option string) :
  let result := replace_film_in_block salle_is_2 e new_block_name in
  (fst result = true <->
   clips_tab_clicks e = true /\ clips_tab_loads e = true /\ first_clip_found e = true /\
   target_found e = true /\ drag_performs e = true) /\
  (fst result = true <-> In (DragFirstClipUnder (volume_marker salle_is_2)) (snd result)) /\
  (forall a, In a (snd result) ->
     match a with
     | DeleteFilmUnder m => m = volume_marker salle_is_2 /\ old_film_found e = true
     | OpenClipsTab => clips_tab_clicks e = true
     | SortClips i => i = 7 /\ sort_menu_found e = true
     | DragFirstClipUnder m => m = volume_marker salle_is_2
     | ClickSave => fst result = true /\ save_icon_clicks e = true
     | TypeTitle n => fst result = true /\ new_block_name = Some n /\
                      In ClickSave (snd result)
     | ClickOverwrite => fst result = true /\ In ClickSave (snd result)
     end).
Proof.
  cbv zeta. unfold replace_film_in_block. cbv zeta.
  set (marker := volume_marker salle_is_2).
  set (deleted := if old_film_found e then [DeleteFilmUnder marker] else []).
  set (sorted := if sort_menu_found e then [SortClips 7] else []).
  assert (Hdel : forall a, In a deleted ->
            a = DeleteFilmUnder marker /\ old_film_found e = true).
  { unfold deleted. destruct (old_film_found e); [|intros a []].
    intros a [<- | []]. auto. }
  assert (Hsort : forall a, In a sorted -> a = SortClips 7 /\ sort_menu_found e = true).
  { unfold sorted. destruct (sort_menu_found e); [|intros a []].
    intros a [<- | []]. auto. }
  assert (Hbefore : forall a, In a (deleted ++ OpenClipsTab :: sorted)%list ->
            (a = DeleteFilmUnder marker /\ old_film_found e = true) \/
            a = OpenClipsTab \/ (a = SortClips 7 /\ sort_menu_found e = true)).
  { intros a H. apply in_app_or in H as [H | [<- | H]]; auto. }
  assert (Hnodrag : forall l, (forall a, In a l ->
            (a = DeleteFilmUnder marker /\ old_film_found e = true) \/
            a = OpenClipsTab \/ (a = SortClips 7 /\ sort_menu_found e = true)) ->
            ~ In (DragFirstClipUnder marker) l).
  { intros l Hl H. destruct (Hl _ H) as [[H0 _] | [H0 | [H0 _]]]; discriminate. }
  assert (Hshape : forall l, clips_tab_clicks e = true -> (forall a, In a l ->
            (a = DeleteFilmUnder marker /\ old_film_found e = true) \/
            a = OpenClipsTab \/ (a = SortClips 7 /\ sort_menu_found e = true)) ->
            forall a, In a l ->
            match a with
            | DeleteFilmUnder m => m = marker /\ old_film_found e = true
            | OpenClipsTab => clips_tab_clicks e = true
            | SortClips i => i = 7 /\ sort_menu_found e = true
            | DragFirstClipUnder m => m = marker
            | ClickSave => false = true /\ save_icon_clicks e = true
            | TypeTitle n => false = true /\ new_block_name = Some n /\ In ClickSave l
            | ClickOverwrite => false = true /\ In ClickSave l
            end).
  { intros l Hc Hl a H.
    destruct (Hl _ H) as [[-> Ho] | [-> | [-> Hs]]]; auto. }
  destruct (clips_tab_clicks e) eqn:Ec; cbn [negb fst snd].
  2:{ split; [split; [discriminate|intros (H & _); discriminate]|].
      split; [split; [discriminate|]|].
      - intros H. apply Hdel in H as [H _]. discriminate.
      - intros a H. destruct (Hdel _ H) as [-> Ho]. auto. }
  destruct (clips_tab_loads e) eqn:El; cbn [negb fst snd].
  2:{ assert (Hl : forall a, In a (deleted ++ [OpenClipsTab])%list ->
            (a = DeleteFilmUnder marker /\ old_film_found e = true) \/
            a = OpenClipsTab \/ (a = SortClips 7 /\ sort_menu_found e = true)).
      { intros a H. apply in_app_or in H as [H | [<- | []]]; auto. }
      split; [split; [discriminate|intros (_ & H & _); discriminate]|].
      split; [split; [discriminate|intros H; destruct (Hnodrag _ Hl H)]|].
      exact (Hshape _ eq_refl Hl). }
  destruct (first_clip_found e) eqn:Ef; cbn [negb fst snd].
  2:{ split; [split; [discriminate|intros (_ & _ & H & _); discriminate]|].
      split; [split; [discriminate|intros H; destruct (Hnodrag _ Hbefore H)]|].
      exact (Hshape _ eq_refl Hbefore). }
  destruct (target_found e) eqn:Etg; cbn [negb fst snd].
  2:{ split; [split; [discriminate|intros (_ & _ & _ & H & _); discriminate]|].
      split; [split; [discriminate|intros H; destruct (Hnodrag _ Hbefore H)]|].
      exact (Hshape _ eq_refl Hbefore). }
  destruct (drag_performs e) eqn:Edr; cbn [negb fst snd].
  2:{ split; [split; [discriminate|intros (_ & _ & _ & _ & H); discriminate]|].
      split; [split; [discriminate|intros H; destruct (Hnodrag _ Hbefore H)]|].
      exact (Hshape _ eq_refl Hbefore). }
  split; [split; auto|].
  split.
  - split; [intros _|reflexivity]. apply in_or_app. right. left. reflexivity.
  - intros a H. apply in_app_or in H as [H | [<- | H]].
    + destruct (Hbefore _ H) as [[-> Ho] | [-> | [-> Hs]]]; auto.
    + reflexivity.
    + assert (Hin : forall b, In b (save_changes e new_block_name) ->
                In b ((deleted ++ OpenClipsTab :: sorted)
                      ++ DragFirstClipUnder marker :: save_changes e new_block_name)%list).
      { intros b Hb. apply in_or_app. right. right. exact Hb. }
      destruct (save_changes_actions _ _ _ H) as (Hsave & Hicon & Ha).
      destruct a; try contradiction; auto.
      destruct Ha as (Hn & _). auto.
Qed.

(** ** The helpers [_find_vendredi_index] and [_get_jours_cibles] *)

Lemma find_vendredi_index_from_agrees (headers : list day_header) :
  (forall h, In h headers -> header_named noms_vendredi h = true -> p_date h <> None) ->
  forall index,
  find_vendredi_index_from index headers
  = option_map fst (find_vendredi None index headers).
Proof.
  induction headers as [|header rest IH]; intros Hd index;
    cbn [find_vendredi_index_from find_vendredi]; [reflexivity|].
  assert (IH' := IH (fun h Hin => Hd h (or_intror Hin)) (S index)).
  pose proof (Hd header (or_introl eq_refl)) as Hh. unfold header_named in Hh.
  destruct (p_day header) as [d|]; [|exact IH'].
  assert (Hany : any_in noms_vendredi (strip (lower d))
                 = str_in "vendredi" (strip (lower d)) || str_in "friday" (strip (lower d))
                   || str_in "ven" (strip (lower d))).
  { unfold any_in, noms_vendredi. cbn [existsb]. rewrite orb_false_r, orb_assoc.
    reflexivity. }
  rewrite <- Hany.
  destruct (any_in noms_vendredi (strip (lower d))).
  - destruct (p_date header) as [t|]; [reflexivity|]. destruct (Hh eq_refl eq_refl).
  - destruct (p_date header); exact IH'.
Qed.

(** X24.  On a page where the headers named after Friday carry a date, the
    helper [_find_vendredi_index] returns the index that the first loop of
    [schedule_seances] finds when no start date is given: the first header
    whose day name contains [vendredi], [friday] or [ven]. *)
Theorem find_vendredi_index_agrees (headers : list day_header) :
  (forall h, In h headers -> header_named noms_vendredi h = true -> p_date h <> None) ->
  _find_vendredi_index headers = option_map fst (find_vendredi None 0 headers).
Proof.
  intros H. exact (find_vendredi_index_from_agrees headers H 0%nat).
Qed.

Lemma find_vendredi_index_agrees_witness :
  _find_vendredi_index Sample.week = option_map fst (find_vendredi None 0 Sample.week).
Proof.
  apply find_vendredi_index_agrees.
  intros h Hin _. cbn in Hin.
  repeat (destruct Hin as [<- | Hin]; [discriminate|]). destruct Hin.
Defined.

Lemma jours_cibles_from_cover (vendredi_index : nat) (debut fin : option datetime)
  (headers : list day_header) :
  forall index n,
  In n (jours_a_copier vendredi_index debut fin index headers) ->
  exists t,
    In t (jours_cibles_from vendredi_index debut fin index headers) /\
    int (fst (split_char "/" (target_date t))) = Some n /\
    target_index t <> vendredi_index /\ (index <= target_index t)%nat /\
    any_in noms_copie (target_name t) = true.
Proof.
  induction headers as [|header rest IH]; intros index n;
    cbn [jours_a_copier jours_cibles_from]; [intros []|].
  assert (Hrest : In n (jours_a_copier vendredi_index debut fin (S index) rest) ->
    forall l, (forall t, In t (jours_cibles_from vendredi_index debut fin (S index) rest)
                         -> In t l) ->
    exists t, In t l /\ int (fst (split_char "/" (target_date t))) = Some n /\
      target_index t <> vendredi_index /\ (index <= target_index t)%nat /\
      any_in noms_copie (target_name t) = true).
  { intros H l Hl. destruct (IH _ _ H) as (t & Hin & Hi & Hne & Hle & Hn).
    exists t. split; [auto|]. split; [exact Hi|]. split; [exact Hne|].
    split; [lia|exact Hn]. }
  destruct (index =? vendredi_index)%nat eqn:Ei; [intros H; apply (Hrest H); auto|].
  apply Nat.eqb_neq in Ei.
  destruct (p_day header) as [d|]; [|intros H; apply (Hrest H); auto].
  destruct (p_date header) as [t|]; [|intros H; apply (Hrest H); auto].
  destruct (any_in noms_copie (strip (lower d))) eqn:En; cbn [negb];
    [|intros H; apply (Hrest H); auto].
  destruct (in_range debut fin (strip t)) as [[|]|];
    try (intros H; apply (Hrest H); cbn [In]; auto).
  destruct (int (fst (split_char "/" (strip t)))) as [jour_num|] eqn:Ej;
    [|intros H; apply (Hrest H); cbn [In]; auto].
  intros [<- | H]; [|apply (Hrest H); cbn [In]; auto].
  eexists. split; [left; reflexivity|]. cbn [target_date target_index target_name].
  auto.
Qed.

(** X25.  The helper [_get_jours_cibles] covers the copy targets of
    [schedule_seances]: every day number that the second loop of
    [schedule_seances] collects is the day of one of the helper's targets, a
    header other than the Friday whose name is one of the days to copy.  (The
    helper also keeps a header whose date cannot be read.) *)
Theorem jours_cibles_cover_the_copy (headers : list day_header) (vendredi_index : nat)
  (date_debut date_fin : option string) (debut fin : option datetime) (n : Z) :
  parse_bound date_debut = Some debut -> parse_bound date_fin = Some fin ->
  In n (jours_a_copier vendredi_index debut fin 0 headers) ->
  exists t,
    In t (_get_jours_cibles headers vendredi_index date_debut date_fin) /\
    int (fst (split_char "/" (target_date t))) = Some n /\
    target_index t <> vendredi_index /\
    any_in noms_copie (target_name t) = true.
Proof.
  intros Hd Hf H. unfold _get_jours_cibles. rewrite Hd, Hf.
  destruct (jours_cibles_from_cover _ _ _ _ _ _ H) as (t & Hin & Hi & Hne & _ & Hn).
  exists t. auto.
Qed.

Lemma jours_cibles_cover_the_copy_witness :
  In 17 (jours_a_copier 4 None None 0 Sample.mid_week) /\
  exists t,
    In t (_get_jours_cibles Sample.mid_week 4 None None) /\
    int (fst (split_char "/" (target_date t))) = Some 17 /\
    target_index t <> 4%nat /\
    any_in noms_copie (target_name t) = true.
Proof.
  assert (H : In 17 (jours_a_copier 4 None None 0 Sample.mid_week)).
  { vm_compute. right. right. left. reflexivity. }
  split; [exact H|].
  exact (jours_cibles_cover_the_copy Sample.mid_week 4 None None None None 17
           eq_refl eq_refl H).
Defined.

(** ** [_copy_day_to_date] *)

(** X26.  [_copy_day_to_date] returns [True] only when the source index is
    one of the headers, every step of its dialog answers and the calendar
    that is displayed holds a selectable cell whose text is the day number of
    the target date. *)
Theorem copy_day_needs_a_selectable_cell (d : copy_day_dialog) (source_index : nat)
  (t : target_info) :
  _copy_day_to_date d source_index t = true ->
  (source_index < source_headers d)%nat /\
  source_dropdown d = true /\ copy_option d = true /\
  picker_opens (picker d) = true /\ confirm_clicks d = true /\
  exists jour cell,
    int (fst (split_char "/" (target_date t))) = Some jour /\
    In cell (picker_cells (picker d)) /\ selectable cell = true /\
    strip (cell_text cell) = str jour.
Proof.
  unfold _copy_day_to_date.
  destruct (source_headers d <=? source_index)%nat eqn:Ei; [discriminate|].
  apply Nat.leb_gt in Ei.
  destruct (source_dropdown d); cbn [negb]; [|discriminate].
  destruct (copy_option d); cbn [negb]; [|discriminate].
  destruct (_select_date_in_modal (picker d) (target_date t)) eqn:Es; cbn [negb];
    [|discriminate].
  intros Hc. unfold _select_date_in_modal in Es.
  destruct (picker_opens (picker d)); cbn [negb] in Es; [|discriminate].
  unfold split in Es.
  destruct (split_char "/" (target_date t)) as [p0 others] eqn:Esp.
  destruct others as [|p1 others]; [discriminate|].
  destruct (int p0) as [jour|] eqn:Ej; [|discriminate].
  destruct (click_day jour (picker_cells (picker d))) as [clicked|] eqn:Ek;
    [|discriminate].
  subst clicked. apply click_day_found in Ek.
  destruct (cell_found_text _ _ Ek) as (cell & Hin & Hsel & Htext).
  do 5 (split; [first [assumption|reflexivity]|]).
  exists jour, cell. cbn [fst]. auto.
Qed.

Lemma copy_day_needs_a_selectable_cell_witness :
  let d := {| source_headers := 7; source_dropdown := true; copy_option := true;
              picker := {| picker_opens := true;
                           picker_cells := day_cells (Sample.january 16) [] |};
              confirm_clicks := true |} in
  let t := {| target_index := 5; target_name := "samedi"; target_date := "17/01/2026" |} in
  _copy_day_to_date d 4 t = true /\
  exists jour cell,
    int (fst (split_char "/" (target_date t))) = Some jour /\
    In cell (picker_cells (picker d)) /\ selectable cell = true /\
    strip (cell_text cell) = str jour.
Proof.
  intros d t.
  assert (H : _copy_day_to_date d 4 t = true) by (vm_compute; reflexivity).
  split; [exact H|].
  exact (proj2 (proj2 (proj2 (proj2 (proj2
           (copy_day_needs_a_selectable_cell d 4 t H)))))).
Defined.
